(** * Month-to-date revenue forecasting engine of [api_server.py]

    A shallow embedding of [_safe_ratio], [_normal_cdf],
    [_assumption_effective_multiplier], [compute_dynamic_month_projection],
    [backtest_projection_mape_with_assumptions] and [growth_significance].

    Numbers.  A Python float is modelled as an exact number or [NaN]:
    rational ([Q]) as long as the program only adds, multiplies, divides and
    compares, real ([R]) from the first square root on.  Rounding and
    overflow are not modelled, so infinities never arise: a theorem that
    says a field is a number says that it is not [NaN], with the
    arithmetic taken exactly.  A float division by zero raises
    [ZeroDivisionError], as in Python.  The module [Binary64] gives the
    month-to-date sum a second time, on the machine's numbers, to show an
    overflow the exact numbers cannot.

    Dates.  A [datetime.date] is its proleptic Gregorian ordinal
    ([date.toordinal()]); the calendar functions follow CPython's
    [datetime] module.

    Frames.  A pandas frame is the list of its rows; [sum], [mean] and
    [std] skip [NaN] cells ([skipna=True]), [len] counts every row. *)

From Stdlib Require Import ZArith QArith Qabs Qreals Reals Lra Lqa Lia List String Bool.
From Stdlib Require Import Permutation.
From Stdlib Require Floats.
Import ListNotations.

(** ** Python values: exceptions and floats *)

Module Py.

Inductive exn : Type :=
| ZeroDivisionError
| ValueError.

Inductive res (A : Type) : Type :=
| Ok (a : A)
| Raise (e : exn).

Arguments Ok {A} a.
Arguments Raise {A} e.

Definition bind {A B} (c : res A) (k : A -> res B) : res B :=
  match c with
  | Ok a => k a
  | Raise e => Raise e
  end.

Inductive pyfloat (A : Type) : Type :=
| Fin (x : A)
| NaN.

Arguments Fin {A} x.
Arguments NaN {A}.

Definition lift1 {A} (f : A -> A) (a : pyfloat A) : pyfloat A :=
  match a with
  | Fin x => Fin (f x)
  | NaN => NaN
  end.

Definition lift2 {A} (f : A -> A -> A) (a b : pyfloat A) : pyfloat A :=
  match a, b with
  | Fin x, Fin y => Fin (f x y)
  | _, _ => NaN
  end.

(** Comparisons with a [NaN] operand are false. *)
Definition cmp2 {A} (f : A -> A -> bool) (a b : pyfloat A) : bool :=
  match a, b with
  | Fin x, Fin y => f x y
  | _, _ => false
  end.

(** [max(a, b)] and [min(a, b)] of the builtins: the first argument is kept
    unless the second one compares strictly beyond it. *)
Definition max_by {A} (lt : A -> A -> bool) (a b : pyfloat A) : pyfloat A :=
  if cmp2 lt a b then b else a.

Definition min_by {A} (lt : A -> A -> bool) (a b : pyfloat A) : pyfloat A :=
  if cmp2 lt b a then b else a.

End Py.

Export Py.

Declare Scope res_scope.
Delimit Scope res_scope with res.
Notation "x <- c ;; k" := (bind c (fun x => k))
  (at level 61, c at next level, right associativity) : res_scope.

(** *** Rational floats *)

Module QF.

Definition F : Type := pyfloat Q.

Definition Qlt_bool (x y : Q) : bool := negb (Qle_bool y x).

Definition fadd : F -> F -> F := lift2 Qplus.
Definition fsub : F -> F -> F := lift2 Qminus.
Definition fmul : F -> F -> F := lift2 Qmult.
Definition fabs : F -> F := lift1 Qabs.

Definition flt : F -> F -> bool := cmp2 Qlt_bool.
Definition fle : F -> F -> bool := cmp2 Qle_bool.
Definition feq : F -> F -> bool := cmp2 Qeq_bool.

(** [a / b] on floats: a zero divisor raises, whatever the dividend. *)
Definition fdiv (a b : F) : res F :=
  if feq b (Fin 0) then Raise ZeroDivisionError
  else Ok (lift2 Qdiv a b).

Definition py_max : F -> F -> F := max_by Qlt_bool.
Definition py_min : F -> F -> F := min_by Qlt_bool.

(** The builtin [sum] over floats, starting from [0]. *)
Definition py_sum (l : list F) : F := fold_left fadd l (Fin 0).

Definition of_Z (n : Z) : Q := inject_Z n.
Definition of_nat (n : nat) : Q := inject_Z (Z.of_nat n).

End QF.

Export QF.

(** *** Real floats *)

Module RF.

Definition FR : Type := pyfloat R.

Definition Rlt_bool (x y : R) : bool := if Rlt_dec x y then true else false.
Definition Req_bool (x y : R) : bool := if Req_dec_T x y then true else false.

Definition radd : FR -> FR -> FR := lift2 Rplus.
Definition rsub : FR -> FR -> FR := lift2 Rminus.
Definition rmul : FR -> FR -> FR := lift2 Rmult.
Definition rabs : FR -> FR := lift1 Rabs.

Definition rlt : FR -> FR -> bool := cmp2 Rlt_bool.
Definition req : FR -> FR -> bool := cmp2 Req_bool.

Definition rdiv (a b : FR) : res FR :=
  if req b (Fin 0%R) then Raise ZeroDivisionError
  else Ok (lift2 Rdiv a b).

Definition rmax : FR -> FR -> FR := max_by Rlt_bool.

(** [float(x)] seen from the real side. *)
Definition to_real (a : F) : FR :=
  match a with
  | Fin q => Fin (Q2R q)
  | NaN => NaN
  end.

(** [math.sqrt]: [NaN] for [NaN], [ValueError] below zero. *)
Definition math_sqrt (a : FR) : res FR :=
  match a with
  | Fin x => if Rlt_bool x 0 then Raise ValueError else Ok (Fin (sqrt x))
  | NaN => Ok NaN
  end.

End RF.

Export RF.

(** ** Calendar: [datetime.date] and [calendar.monthrange] *)

Module Calendar.

Local Open Scope Z_scope.

Definition date : Type := Z.

Definition is_leap (y : Z) : bool :=
  (y mod 4 =? 0) && (negb (y mod 100 =? 0) || (y mod 400 =? 0)).

Definition DAYS_IN_MONTH : list Z :=
  [0; 31; 28; 31; 30; 31; 30; 31; 31; 30; 31; 30; 31].

Definition DAYS_BEFORE_MONTH : list Z :=
  [0; 0; 31; 59; 90; 120; 151; 181; 212; 243; 273; 304; 334].

Definition days_in_month (y m : Z) : Z :=
  if (m =? 2) && is_leap y then 29
  else nth (Z.to_nat m) DAYS_IN_MONTH 0.

Definition days_before_year (y : Z) : Z :=
  let y := y - 1 in
  y * 365 + y / 4 - y / 100 + y / 400.

Definition days_before_month (y m : Z) : Z :=
  nth (Z.to_nat m) DAYS_BEFORE_MONTH 0
  + (if (m >? 2) && is_leap y then 1 else 0).

(** [date(y, m, d).toordinal()] *)
Definition ymd2ord (y m d : Z) : date :=
  days_before_year y + days_before_month y m + d.

(** [date.fromordinal(n)] as (year, month, day) *)
Definition ord2ymd (n : date) : Z * Z * Z :=
  let n := n - 1 in
  let n400 := n / 146097 in
  let n := n mod 146097 in
  let year := n400 * 400 + 1 in
  let n100 := n / 36524 in
  let n := n mod 36524 in
  let n4 := n / 1461 in
  let n := n mod 1461 in
  let n1 := n / 365 in
  let n := n mod 365 in
  let year := year + n100 * 100 + n4 * 4 + n1 in
  if (n1 =? 4) || (n100 =? 4) then (year - 1, 12, 31)
  else
    let leapyear := (n1 =? 3) && (negb (n4 =? 24) || (n100 =? 3)) in
    let month := Z.shiftr (n + 50) 5 in
    let preceding :=
      nth (Z.to_nat month) DAYS_BEFORE_MONTH 0
      + (if (month >? 2) && leapyear then 1 else 0) in
    if preceding >? n then
      let month := month - 1 in
      let preceding :=
        preceding
        - (nth (Z.to_nat month) DAYS_IN_MONTH 0
           + (if (month =? 2) && leapyear then 1 else 0)) in
      (year, month, n - preceding + 1)
    else (year, month, n - preceding + 1).

Definition year (d : date) : Z := fst (fst (ord2ymd d)).
Definition month (d : date) : Z := snd (fst (ord2ymd d)).
Definition day (d : date) : Z := snd (ord2ymd d).

(** [calendar.monthrange(y, m)[1]] *)
Definition monthrange (y m : Z) : Z := days_in_month y m.

(** [d.weekday()], Monday is 0. *)
Definition weekday (d : date) : Z := (d + 6) mod 7.

(** [pd.date_range(a, b, freq="D")]: the days from [a] to [b] inclusive. *)
Definition date_range (a b : date) : list date :=
  map (fun k => a + Z.of_nat k) (seq 0 (Z.to_nat (b - a + 1))).

(** A monthly period, [Timestamp.to_period("M")]. *)
Definition period : Type := (Z * Z)%type.

Definition to_period (d : date) : period := (year d, month d).
Definition period_start (p : period) : date := ymd2ord (fst p) (snd p) 1.
Definition period_end (p : period) : date :=
  ymd2ord (fst p) (snd p) (days_in_month (fst p) (snd p)).
Definition period_key (p : period) : Z := fst p * 12 + snd p.
Definition period_eqb (p q : period) : bool :=
  (fst p =? fst q) && (snd p =? snd q).

End Calendar.

Export Calendar.

(** ** Frames: the pandas operations the engine uses *)

Module Frame.

Local Open Scope Z_scope.

(** A row as the caller hands it over: the date cell is what
    [pd.to_datetime(errors="coerce")] makes of it, [None] standing for a
    cell that does not parse ([NaT]); the total is a float cell. *)
Record RawRow : Type := { raw_date : option date; raw_total : F }.

(** A row whose date parsed. *)
Record Row : Type := { row_date : date; total : F }.

Definition DataFrame : Type := list RawRow.

Definition empty {A} (df : list A) : bool :=
  match df with
  | [] => true
  | _ :: _ => false
  end.

Definition len {A} (df : list A) : Z := Z.of_nat (List.length df).

(** [ts["date"] = pd.to_datetime(ts["date"], errors="coerce")] followed by
    [ts.dropna(subset=["date"])] *)
Definition to_datetime_dropna (df : DataFrame) : list Row :=
  flat_map
    (fun r =>
       match raw_date r with
       | Some d => [ {| row_date := d; total := raw_total r |} ]
       | None => []
       end)
    df.

Fixpoint insert_by_date (r : Row) (l : list Row) : list Row :=
  match l with
  | [] => [r]
  | x :: l' =>
      if row_date r <? row_date x then r :: x :: l'
      else x :: insert_by_date r l'
  end.

(** [sort_values("date")] *)
Definition sort_values (l : list Row) : list Row :=
  fold_right insert_by_date [] l.

(** [ts[(ts["date"].dt.date >= lo) & (ts["date"].dt.date <= hi)]] *)
Definition between (lo hi : date) (l : list Row) : list Row :=
  filter (fun r => (lo <=? row_date r) && (row_date r <=? hi)) l.

Definition totals (l : list Row) : list F := map total l.

(** A frame handed back to a function that parses dates again. *)
Definition as_frame (l : list Row) : DataFrame :=
  map (fun r => {| raw_date := Some (row_date r); raw_total := total r |}) l.

(** The cells a reduction with [skipna=True] sees. *)
Definition notna (s : list F) : list Q :=
  flat_map (fun x => match x with Fin q => [q] | NaN => [] end) s.

Definition Qsum (l : list Q) : Q := fold_right Qplus 0%Q l.

Definition Qmean (l : list Q) : Q := (Qsum l / of_nat (List.length l))%Q.

(** [Series.sum()]: an empty or all-[NaN] series sums to zero. *)
Definition series_sum (s : list F) : F := Fin (Qsum (notna s)).

(** [Series.mean()]: [NaN] when there is nothing to average. *)
Definition series_mean (s : list F) : F :=
  match notna s with
  | [] => NaN
  | v => Fin (Qmean v)
  end.

(** Sample variance, [Series.var(ddof=1)]: [NaN] below two values. *)
Definition series_var (s : list F) : F :=
  let v := notna s in
  if (List.length v <=? 1)%nat then NaN
  else
    let m := Qmean v in
    Fin (Qsum (map (fun x => (x - m) * (x - m)) v)
         / of_nat (List.length v - 1))%Q.

(** [Series.std(ddof=1)], the square root of the sample variance. *)
Definition series_std (s : list F) : FR :=
  match series_var s with
  | Fin q => Fin (sqrt (Q2R q))
  | NaN => NaN
  end.

(** [Series.fillna(v)] on one cell. *)
Definition fillna (x v : F) : F :=
  match x with
  | Fin q => Fin q
  | NaN => v
  end.

(** [groupby("weekday")["total"].mean().to_dict()]: one entry for each
    weekday that has a row. *)
Definition groupby_weekday_mean (l : list Row) : list (Z * F) :=
  flat_map
    (fun wd =>
       match filter (fun r => weekday (row_date r) =? wd) l with
       | [] => []
       | g => [(wd, series_mean (totals g))]
       end)
    [0; 1; 2; 3; 4; 5; 6].

Fixpoint lookup {V} (d : list (Z * V)) (k : Z) : option V :=
  match d with
  | [] => None
  | (k', v) :: d' => if k' =? k then Some v else lookup d' k
  end.

Fixpoint has_duplicates (l : list Z) : bool :=
  match l with
  | [] => false
  | x :: l' => existsb (Z.eqb x) l' || has_duplicates l'
  end.

(** [Series.reindex(index)] of a series indexed by date: the index must be
    free of duplicates; a date with no row yields [NaN]. *)
Definition reindex (l : list Row) (index : list date) : res (list F) :=
  if has_duplicates (map row_date l) then Raise ValueError
  else
    Ok (map
          (fun d =>
             match find (fun r => row_date r =? d) l with
             | Some r => total r
             | None => NaN
             end)
          index).

End Frame.

Export Frame.

(** ** Assumptions: a dict from field names to numbers *)

Module Assume.

Local Open Scope string_scope.

Definition dict : Type := list (string * Q).

Fixpoint get (a : dict) (k : string) : option Q :=
  match a with
  | [] => None
  | (k', v) :: a' => if String.eqb k' k then Some v else get a' k
  end.

(** [a[k] = v] *)
Definition set (k : string) (v : Q) (a : dict) : dict := (k, v) :: a.

(** [float(assumptions.get(k, default))] *)
Definition get_float (a : dict) (k : string) (default : Q) : F :=
  match get a k with
  | Some v => Fin v
  | None => Fin default
  end.

(** [assumptions or {}] *)
Definition or_empty (a : option dict) : dict :=
  match a with
  | Some d => d
  | None => []
  end.

End Assume.

Export Assume.

(** ** The helpers of the engine *)

Definition _safe_ratio (numerator denominator default : F) : res F :=
  if feq denominator (Fin 0) then Ok default
  else fdiv numerator denominator.

Definition _assumption_effective_multiplier (assumptions : dict) : F :=
  let manual := get_float assumptions "manual_multiplier" 1 in
  let promo_lift := get_float assumptions "promo_lift_pct" 0 in
  let content_lift := get_float assumptions "content_lift_pct" 0 in
  let instock_rate := get_float assumptions "instock_rate" 1 in
  fmul
    (fmul (fmul manual (fadd (Fin 1) promo_lift))
          (fadd (Fin 1) content_lift))
    instock_rate.

(** ** The result values *)

Record ChartRow : Type :=
  { chart_date : date; actual_daily : F; forecast_daily : F }.

Record Projection : Type :=
  { mtd_actual : F;
    projected_total : F;
    growth_factor : F;
    ci_low : FR;
    ci_high : FR;
    chart_df : list ChartRow;
    elapsed_days : Z;
    month_days : Z;
    month_start : date;
    month_end : date }.

Record BacktestRow : Type :=
  { bt_month : period; predicted : F; actual : F; ape : F }.

Record Backtest : Type :=
  { mape : F; count : Z; details : list BacktestRow }.

Record Significance : Type :=
  { z : FR;
    p_value : FR;
    confidence : FR;
    mean_current : F;
    mean_baseline : F }.

(** ** [compute_dynamic_month_projection]

    Each local variable of the function is a definition of the section, in
    the order of the source; a variable that is assigned twice gets a
    numbered name for its first value. *)

Module Projector.

Section Body.

Local Open Scope Z_scope.

Variable daily_totals : DataFrame.
Variable as_of_date : date.
Variable assumptions : option dict.

Definition ts0 : list Row := sort_values (to_datetime_dropna daily_totals).

Definition ts : list Row :=
  filter (fun r => row_date r <=? as_of_date) ts0.

Definition month_start : date :=
  ymd2ord (year as_of_date) (month as_of_date) 1.

Definition month_days : Z :=
  monthrange (year as_of_date) (month as_of_date).

Definition month_end : date :=
  ymd2ord (year as_of_date) (month as_of_date) month_days.

Definition current : list Row := between month_start as_of_date ts.

Definition mtd_actual : F := series_sum (totals current).

Definition elapsed_days : Z := as_of_date - month_start + 1.

Definition hist : list Row :=
  filter (fun r => row_date r <? month_start) ts.

Definition hist_recent_cutoff : date := month_start - 84.

Definition hist_recent0 : list Row :=
  filter (fun r => hist_recent_cutoff <=? row_date r) hist.

Definition hist_recent : list Row :=
  if len hist_recent0 <? 14 then hist else hist_recent0.

Definition weekday_avg : list (Z * F) := groupby_weekday_mean hist_recent.

Definition overall_avg : F :=
  if negb (empty hist_recent) then series_mean (totals hist_recent)
  else Fin 0%Q.

Definition r14_start : date := as_of_date - 13.
Definition p14_start : date := as_of_date - 27.
Definition p14_end : date := as_of_date - 14.

Definition recent14 : list F := totals (between r14_start as_of_date ts).
Definition prior14 : list F := totals (between p14_start p14_end ts).

Definition recent_growth : res F :=
  if 0 <? len prior14
  then _safe_ratio (series_mean recent14) (series_mean prior14) (Fin 1%Q)
  else Ok (Fin 1%Q).

Definition prev_month_end : date := month_start - 1.

Definition prev_month_start : date :=
  ymd2ord (year prev_month_end) (month prev_month_end) 1.

Definition prev_month_asof_day : Z :=
  Z.min elapsed_days (monthrange (year prev_month_end) (month prev_month_end)).

Definition prev_month_cutoff : date :=
  prev_month_start + (prev_month_asof_day - 1).

Definition prev_month_mtd : list F :=
  totals (between prev_month_start prev_month_cutoff ts).

Definition mom_growth : res F :=
  if 0 <? len prev_month_mtd
  then _safe_ratio mtd_actual (series_sum prev_month_mtd) (Fin 1%Q)
  else Ok (Fin 1%Q).

Definition assumptions1 : dict := or_empty assumptions.

Definition recent_weight : F := get_float assumptions1 "recent_weight" 0.6.
Definition mom_weight : F := get_float assumptions1 "mom_weight" 0.4.
Definition weekday_strength : F :=
  get_float assumptions1 "weekday_strength" 1.
Definition effective_multiplier : F :=
  _assumption_effective_multiplier assumptions1.
Definition growth_floor : F := get_float assumptions1 "growth_floor" 0.5.
Definition growth_ceiling : F := get_float assumptions1 "growth_ceiling" 1.8.

(** The list [factors] once both signals are known. *)
Definition factors (recent_growth mom_growth : F) : list (F * F) :=
  let factors := [] in
  let factors :=
    if 7 <=? len prior14
    then factors ++ [(recent_growth, py_max recent_weight (Fin 0%Q))]
    else factors in
  let factors :=
    if 0 <? len prev_month_mtd
    then factors ++ [(mom_growth, py_max mom_weight (Fin 0%Q))]
    else factors in
  if empty factors then factors ++ [(Fin 1%Q, Fin 1%Q)] else factors.

(** The weighted average of the signals, before the multiplier. *)
Definition growth_factor0 (factors : list (F * F)) : res F :=
  fdiv (py_sum (map (fun vw => fmul (fst vw) (snd vw)) factors))
       (py_sum (map snd factors)).

Definition growth_factor1 (growth_factor0 : F) : F :=
  fmul growth_factor0 effective_multiplier.

Definition growth_factor (growth_factor1 : F) : F :=
  py_max growth_floor (py_min growth_ceiling growth_factor1).

Definition future_dates : list date := date_range (as_of_date + 1) month_end.

(** The body of the loop over [future_dates]: the prediction for day [d]. *)
Definition pred (growth_factor : F) (d : date) : F :=
  let wd := weekday d in
  let baseline :=
    match lookup weekday_avg wd with
    | Some v => v
    | None => overall_avg
    end in
  let baseline :=
    fadd overall_avg (fmul weekday_strength (fsub baseline overall_avg)) in
  py_max (Fin 0%Q) (fmul baseline growth_factor).

Definition future_df (growth_factor : F) : list (date * F) :=
  map (fun d => (d, pred growth_factor d)) future_dates.

Definition remaining_projection (growth_factor : F) : F :=
  if negb (empty (future_df growth_factor))
  then series_sum (map snd (future_df growth_factor))
  else Fin 0%Q.

Definition projected_total (growth_factor : F) : F :=
  fadd mtd_actual (remaining_projection growth_factor).

(** The column [hist_recent["baseline"]]. *)
Definition baseline_col : list F :=
  map
    (fun r =>
       fillna
         (match lookup weekday_avg (weekday (row_date r)) with
          | Some v => v
          | None => NaN
          end)
         overall_avg)
    hist_recent.

Definition residuals : list F :=
  map (fun tb => fsub (fst tb) (snd tb))
      (combine (totals hist_recent) baseline_col).

Definition residual_std : FR :=
  if 1 <? len hist_recent then series_std residuals else Fin 0%R.

Definition volatility_multiplier : F :=
  get_float assumptions1 "volatility_multiplier" 1.

Definition forecast_std : FR :=
  rmul
    (rmul (Fin (sqrt (IZR (Z.max (len future_dates) 1)))) residual_std)
    (to_real (py_max volatility_multiplier (Fin 0.1%Q))).

Definition ci_low (projected_total : F) : FR :=
  rmax (Fin 0%R)
       (rsub (to_real projected_total) (rmul (Fin 1.96%R) forecast_std)).

Definition ci_high (projected_total : F) : FR :=
  radd (to_real projected_total) (rmul (Fin 1.96%R) forecast_std).

Definition full_month_dates : list date := date_range month_start month_end.

Definition actual_daily : res (list F) :=
  (col <- reindex current full_month_dates ;;
   Ok (map (fun x => fillna x (Fin 0%Q)) col))%res.

(** [forecast_daily]: zero, except on the future dates. *)
Definition forecast_daily (growth_factor : F) : list F :=
  map
    (fun d =>
       match find (fun dp => fst dp =? d) (future_df growth_factor) with
       | Some dp => snd dp
       | None => Fin 0%Q
       end)
    full_month_dates.

Definition chart_df (growth_factor : F) : res (list ChartRow) :=
  (actual <- actual_daily ;;
   Ok (map
         (fun daf =>
            Build_ChartRow (fst (fst daf)) (snd (fst daf)) (snd daf))
         (combine (combine full_month_dates actual)
                  (forecast_daily growth_factor))))%res.

Definition compute_dynamic_month_projection : res (option Projection) :=
  if empty daily_totals then Ok None
  else if empty ts then Ok None
  else if empty current then Ok None
  else if empty hist then Ok None
  else
    (recent_growth <- recent_growth ;;
     mom_growth <- mom_growth ;;
     growth_factor0 <- growth_factor0 (factors recent_growth mom_growth) ;;
     let growth_factor := growth_factor (growth_factor1 growth_factor0) in
     let projected_total := projected_total growth_factor in
     chart_df <- chart_df growth_factor ;;
     Ok (Some
           (Build_Projection
              mtd_actual
              projected_total
              growth_factor
              (ci_low projected_total)
              (ci_high projected_total)
              chart_df
              elapsed_days
              month_days
              month_start
              month_end)))%res.

End Body.

End Projector.

(** ** [backtest_projection_mape_with_assumptions] *)

Module Backtester.

Section Body.

Local Open Scope Z_scope.

Variable daily_totals : DataFrame.
Variable as_of_day : Z.
Variable current_month_start : date.
Variable assumptions : option dict.

Definition ts0 : list Row := sort_values (to_datetime_dropna daily_totals).

Definition ts : list Row :=
  filter (fun r => row_date r <? current_month_start) ts0.

(** [Series.unique()]: the first occurrence of each period, in order. *)
Fixpoint unique (l : list period) : list period :=
  match l with
  | [] => []
  | p :: l' => p :: filter (fun q => negb (period_eqb p q)) (unique l')
  end.

Fixpoint insert_period (p : period) (l : list period) : list period :=
  match l with
  | [] => [p]
  | q :: l' =>
      if period_key p <? period_key q then p :: q :: l'
      else q :: insert_period p l'
  end.

(** [sorted(...)] on periods *)
Definition sorted (l : list period) : list period :=
  fold_right insert_period [] l.

Definition months : list period :=
  sorted (unique (map (fun r => to_period (row_date r)) ts)).

(** One turn of the loop over [months]: [rows] as it stands after the turn
    for month [m]; [continue] leaves it as it was. *)
Definition turn (rows : list BacktestRow) (m : period)
  : res (list BacktestRow) :=
  let month_start := period_start m in
  let month_end := period_end m in
  let cutoff_day :=
    Z.min as_of_day (monthrange (year month_start) (month month_start)) in
  let as_of := month_start + (cutoff_day - 1) in
  if current_month_start <=? as_of then Ok rows
  else
    let model_input :=
      as_frame (filter (fun r => row_date r <=? as_of) ts) in
    (pred <- Projector.compute_dynamic_month_projection
               model_input as_of assumptions ;;
     match pred with
     | None => Ok rows
     | Some pred =>
         let actual := series_sum (totals (between month_start month_end ts)) in
         if fle actual (Fin 0%Q) then Ok rows
         else
           ape <- fdiv (fabs (fsub (projected_total pred) actual)) actual ;;
           Ok (rows ++ [Build_BacktestRow m (projected_total pred) actual ape])
     end)%res.

Fixpoint loop (months : list period) (rows : list BacktestRow)
  : res (list BacktestRow) :=
  match months with
  | [] => Ok rows
  | m :: months' => (rows <- turn rows m ;; loop months' rows)%res
  end.

Fixpoint insert_row (r : BacktestRow) (l : list BacktestRow)
  : list BacktestRow :=
  match l with
  | [] => [r]
  | x :: l' =>
      if period_key (bt_month r) <? period_key (bt_month x) then r :: x :: l'
      else x :: insert_row r l'
  end.

(** [bt.sort_values("month")]: the column holds [str(m)], "YYYY-MM", whose
    order is the order of the periods (a pandas timestamp has a four-digit
    year). *)
Definition sort_by_month (rows : list BacktestRow) : list BacktestRow :=
  fold_right insert_row [] rows.

Definition backtest_projection_mape_with_assumptions
  : res (option Backtest) :=
  if empty daily_totals then Ok None
  else if empty ts then Ok None
  else
    (rows <- loop months [] ;;
     if empty rows then Ok None
     else
       let bt := sort_by_month rows in
       Ok (Some (Build_Backtest (series_mean (map ape bt)) (len bt) bt)))%res.

End Body.

End Backtester.

(** ** [growth_significance]

    [math.erf] is the one primitive the engine takes from outside that the
    reals of the library do not provide: it is a parameter. *)

Section NormalCdf.

Variable erf : R -> R.

Definition _normal_cdf (x : FR) : res FR :=
  (s2 <- math_sqrt (Fin 2%R) ;;
   q <- rdiv x s2 ;;
   Ok (rmul (Fin 0.5%R) (radd (Fin 1%R) (lift1 erf q))))%res.

End NormalCdf.

Module Significance.

Section Body.

Local Open Scope Z_scope.

Variable erf : R -> R.
Variable daily_totals : DataFrame.
Variable as_of_date : date.
Variable assumptions : option dict.

Definition ts : list Row := sort_values (to_datetime_dropna daily_totals).

Definition month_start : date :=
  ymd2ord (year as_of_date) (month as_of_date) 1.

Definition current : list F := totals (between month_start as_of_date ts).

Definition baseline_start : date := month_start - 84.

Definition baseline : list F :=
  totals
    (filter
       (fun r => (baseline_start <=? row_date r) && (row_date r <? month_start))
       ts).

Definition n1 : Z := len current.
Definition n2 : Z := len baseline.

Definition assumptions1 : dict := or_empty assumptions.

Definition mean1_raw : F := series_mean current.
Definition mean2 : F := series_mean baseline.

Definition mean1 : F :=
  fmul mean1_raw (_assumption_effective_multiplier assumptions1).

Definition std1 : FR := series_std current.
Definition std2 : FR := series_std baseline.

Definition se : res FR :=
  (a <- rdiv (lift1 (fun x => x ^ 2)%R std1) (Fin (IZR n1)) ;;
   b <- rdiv (lift1 (fun x => x ^ 2)%R std2) (Fin (IZR n2)) ;;
   math_sqrt (radd a b))%res.

Definition growth_significance : res (option Significance) :=
  if empty daily_totals then Ok None
  else if (n1 <? 2) || (n2 <? 2) then Ok None
  else
    (se <- se ;;
     if req se (Fin 0%R) then Ok None
     else
       z <- rdiv (rsub (to_real mean1) (to_real mean2)) se ;;
       cdf <- _normal_cdf erf (rabs z) ;;
       let p_value := rmul (Fin 2%R) (rsub (Fin 1%R) cdf) in
       let confidence := rsub (Fin 1%R) p_value in
       Ok (Some (Build_Significance z p_value confidence mean1 mean2)))%res.

End Body.

End Significance.

(** ** The month-to-date sum on binary64 numbers

    The embedding takes the arithmetic of the engine over exact numbers.
    The month-to-date sum is given here a second time, over IEEE 754
    binary64 numbers as the machine computes it. *)

Module Binary64.

Local Open Scope Z_scope.

Definition float : Set := PrimFloat.float.

Record Row64 : Type := { row_date64 : date; total64 : float }.

(** [Series.sum()], which skips [NaN] cells. *)
Definition series_sum (s : list float) : float :=
  fold_left
    (fun acc x => if PrimFloat.is_nan x then acc else PrimFloat.add acc x)
    s PrimFloat.zero.

(** [mtd_actual = float(current["total"].sum())] on rows whose dates
    parsed. *)
Definition mtd_actual (ts : list Row64) (as_of_date : date) : float :=
  let month_start := ymd2ord (year as_of_date) (month as_of_date) 1 in
  let current :=
    filter
      (fun r => (month_start <=? row_date64 r) && (row_date64 r <=? as_of_date))
      ts in
  series_sum (map total64 current).

(** The number a binary64 value holds; nothing for an infinity or a
    [NaN]. *)
Definition exact (x : float) : option Q :=
  match FloatOps.Prim2SF x with
  | SpecFloat.S754_zero _ => Some 0%Q
  | SpecFloat.S754_finite sign m e =>
      let v := (inject_Z (Z.pos m) * Qpower 2 e)%Q in
      Some (if sign then (- v)%Q else v)
  | SpecFloat.S754_infinity _ => None
  | SpecFloat.S754_nan => None
  end.

(** The frame of the embedding that holds the same numbers. *)
Definition as_frame (ts : list Row64) : DataFrame :=
  map
    (fun r =>
       {| raw_date := Some (row_date64 r);
          raw_total :=
            match exact (total64 r) with
            | Some q => Fin q
            | None => NaN
            end |})
    ts.

End Binary64.

(** ** [pct_delta] *)

Definition pct_delta (curr comp : F) : res (option F) :=
  if flt (fabs comp) (Fin 1e-9%Q) then Ok None
  else (q <- fdiv (fsub curr comp) comp ;; Ok (Some q))%res.

(** ** [compare_window]

    Dates are the ordinals from 1 to [MAXORDINAL]; the constructor
    [date(y, m, d)] raises [ValueError] and the subtraction of a
    [timedelta] raises [OverflowError], as in CPython's [datetime].  A mode
    is a string of bytes; [lower] lowers the ASCII letters, which decides
    the two comparisons with ASCII constants as [str.lower] does. *)

Module Window.

Local Open Scope Z_scope.

Inductive error : Type :=
| ValueError
| OverflowError.

Inductive outcome (A : Type) : Type :=
| Return (a : A)
| Throw (e : error).

Arguments Return {A} a.
Arguments Throw {A} e.

Definition MINYEAR : Z := 1.
Definition MAXYEAR : Z := 9999.

(** [date.max.toordinal()] *)
Definition MAXORDINAL : Z := 3652059.

(** [date(y, m, d)] *)
Definition new_date (y m d : Z) : outcome date :=
  if (MINYEAR <=? y) && (y <=? MAXYEAR)
     && (1 <=? m) && (m <=? 12)
     && (1 <=? d) && (d <=? days_in_month y m)
  then Return (ymd2ord y m d)
  else Throw ValueError.

(** [d - timedelta(days=n)] *)
Definition minus_days (d : date) (n : Z) : outcome date :=
  let o := d - n in
  if (0 <? o) && (o <=? MAXORDINAL) then Return o else Throw OverflowError.

Definition lower_char (c : Ascii.ascii) : Ascii.ascii :=
  let n := Ascii.nat_of_ascii c in
  if ((65 <=? n) && (n <=? 90))%nat then Ascii.ascii_of_nat (n + 32) else c.

(** [s.lower()] *)
Fixpoint lower (s : string) : string :=
  match s with
  | EmptyString => EmptyString
  | String c s' => String (lower_char c) (lower s')
  end.

(** [(mode or "previous_period").lower()] *)
Definition m (mode : string) : string :=
  lower (if String.eqb mode "" then "previous_period" else mode)%string.

Definition compare_window (start end_ : date) (mode : string)
  : outcome (option date * option date) :=
  let span := (end_ - start) + 1 in
  let m := m mode in
  if String.eqb m "previous_year" then
    match new_date (year start - 1) (month start) (day start) with
    | Throw ValueError => Return (None, None)
    | Throw e => Throw e
    | Return s =>
        match new_date (year end_ - 1) (month end_) (day end_) with
        | Throw ValueError => Return (None, None)
        | Throw e => Throw e
        | Return e => Return (Some s, Some e)
        end
    end
  else if String.eqb m "mom" then
    let pm := if month start - 1 =? 0 then 12 else month start - 1 in
    let py := if month start =? 1 then year start - 1 else year start in
    let start_day := Z.min (day start) (monthrange py pm) in
    let end_day := Z.min (day end_) (monthrange py pm) in
    match new_date py pm start_day with
    | Throw e => Throw e
    | Return s =>
        match new_date py pm end_day with
        | Throw e => Throw e
        | Return e => Return (Some s, Some e)
        end
    end
  else
    match minus_days start span with
    | Throw e => Throw e
    | Return s =>
        match minus_days end_ span with
        | Throw e => Throw e
        | Return e => Return (Some s, Some e)
        end
    end.

End Window.

(** ** [forecast_mtd]

    The endpoint from its assumptions on: [daily] is the frame of daily
    totals and [as_of] the as-of date its queries gave, [goal] is what
    [get_month_goal] returns.  The dates of the payload stay dates; their
    formatting as text is not modelled. *)

Module Forecast.

Local Open Scope Z_scope.

Record Payload : Type :=
  { payload_as_of_date : date;
    payload_mtd_actual : F;
    payload_projected_total : F;
    payload_ci_low : FR;
    payload_ci_high : FR;
    payload_growth_factor : F;
    payload_goal : F;
    payload_pace_to_goal : option F;
    payload_pace_delta : option F;
    payload_mape : option F;
    payload_mape_months : Z;
    payload_stat_sig : option Significance;
    payload_chart : list ChartRow;
    payload_backtest : list BacktestRow }.

Section Body.

Variable erf : R -> R.
Variable daily : DataFrame.
Variable as_of : date.
Variables recent_weight mom_weight weekday_strength manual_multiplier
          promo_lift_pct content_lift_pct instock_rate growth_floor
          growth_ceiling volatility_multiplier : Q.
Variable goal : F.

Definition month_start : date := ymd2ord (year as_of) (month as_of) 1.

Definition assumptions : dict :=
  [("recent_weight", recent_weight);
   ("mom_weight", mom_weight);
   ("weekday_strength", weekday_strength);
   ("manual_multiplier", manual_multiplier);
   ("promo_lift_pct", promo_lift_pct);
   ("content_lift_pct", content_lift_pct);
   ("instock_rate", instock_rate);
   ("growth_floor", growth_floor);
   ("growth_ceiling", growth_ceiling);
   ("volatility_multiplier", volatility_multiplier)]%string.

(** [pace]: the projected total over the goal, when there is a goal. *)
Definition pace_to_goal (projection : Projection) : res (option F) :=
  if flt (Fin 0%Q) goal
  then (q <- fdiv (projected_total projection) goal ;; Ok (Some q))%res
  else Ok None.

Definition forecast_mtd : res (option Payload) :=
  (projection <- Projector.compute_dynamic_month_projection
                   daily as_of (Some assumptions) ;;
   match projection with
   | None => Ok None
   | Some projection =>
       backtest <- Backtester.backtest_projection_mape_with_assumptions
                     daily (elapsed_days projection) month_start
                     (Some assumptions) ;;
       sig <- Significance.growth_significance
                erf daily as_of (Some assumptions) ;;
       pace <- pace_to_goal projection ;;
       Ok (Some
             (Build_Payload
                as_of
                (mtd_actual projection)
                (projected_total projection)
                (ci_low projection)
                (ci_high projection)
                (growth_factor projection)
                goal
                pace
                (match pace with
                 | Some p => Some (fsub p (Fin 1%Q))
                 | None => None
                 end)
                (match backtest with
                 | Some b => Some (mape b)
                 | None => None
                 end)
                (match backtest with
                 | Some b => count b
                 | None => 0
                 end)
                sig
                (chart_df projection)
                (match backtest with
                 | Some b => details b
                 | None => []
                 end)))
   end)%res.

End Body.

End Forecast.

(** * The specification's vocabulary *)

Local Open Scope Q_scope.
Local Open Scope string_scope.

Definition finite (x : F) : Prop := exists q, x = Fin q.
Definition fin_nonneg (x : F) : Prop := exists q, x = Fin q /\ 0 <= q.

(** [x] is a number equal to [v]. *)
Definition is_value (v : Q) (x : F) : Prop := exists q, x = Fin q /\ q == v.

Definition is_zero (x : F) : Prop := feq x (Fin 0) = true.

Definition parsable (r : RawRow) : bool :=
  match raw_date r with
  | Some _ => true
  | None => false
  end.

Definition numeric (r : RawRow) : bool :=
  match raw_total r with
  | Fin _ => true
  | NaN => false
  end.

(** The frame without the rows whose date does not parse. *)
Definition drop_unparsable (s : DataFrame) : DataFrame := filter parsable s.

(** The frame without the rows whose revenue is not a number. *)
Definition drop_non_numeric (s : DataFrame) : DataFrame := filter numeric s.




(** The current month start as the caller computes it: the first day of the
    month of a date. *)
Definition cms (d0 : date) : date := Projector.month_start d0.

(** A year, month and day that are a valid day of a valid month and whose
    ordinal is [n]. *)
Definition ymd_ok (n : date) (ymd : Z * Z * Z) : bool :=
  let '(y, m, dd) := ymd in
  ((1 <=? m) && (m <=? 12)
   && (1 <=? dd) && (dd <=? days_in_month y m)
   && (ymd2ord y m dd =? n))%Z.

Definition date_ok (n : date) : bool := ymd_ok n (ord2ymd n).

Fixpoint all_from (f : Z -> bool) (i : Z) (count : nat) : bool :=
  match count with
  | O => true
  | S k => f i && all_from f (i + 1)%Z k
  end.

(** Rows in the order of their dates. *)
Fixpoint sorted_by_date (l : list Row) : Prop :=
  match l with
  | [] => True
  | x :: l' =>
      (forall y, In y l' -> (row_date x <= row_date y)%Z)
      /\ sorted_by_date l'
  end.

(** A list of numbers in strictly increasing order. *)
Fixpoint increasing (l : list Z) : Prop :=
  match l with
  | [] => True
  | x :: l' => (forall y, In y l' -> (x < y)%Z) /\ increasing l'
  end.

(** ** The backtest, as the specification words it *)

Module MapeSpec.

(** The months of a chronological sequence of rows, in order, a month
    listed once. *)
Fixpoint months_of (l : list Row) : list period :=
  match l with
  | [] => []
  | r :: l' =>
      let m := to_period (row_date r) in
      match months_of l' with
      | m' :: ms => if period_eqb m m' then m' :: ms else m :: m' :: ms
      | [] => [m]
      end
  end.

Section Spec.

Variable daily_totals : DataFrame.
Variable requested_as_of_day : Z.
Variable current_month_start : date.
Variable assumptions : option dict.

(** The normalized series: the rows whose date parses, sorted by date. *)
Definition series : list Row :=
  sort_values (to_datetime_dropna daily_totals).

(** The history: the rows of the series dated strictly before the current
    month. *)
Definition history : list Row :=
  filter (fun r => (row_date r <? current_month_start)%Z) series.

(** The historical months: the months that hold a row of the history, each
    once, in chronological order. *)
Definition historical_months : list period := months_of history.

Definition cutoff_day (m : period) : Z :=
  Z.min requested_as_of_day (days_in_month (fst m) (snd m)).

Definition cutoff_date (m : period) : date :=
  (period_start m + (cutoff_day m - 1))%Z.

(** The data visible up to the cutoff of month [m]. *)
Definition visible (m : period) : DataFrame :=
  as_frame (filter (fun r => (row_date r <=? cutoff_date m)%Z) history).

Definition prediction (m : period) : res (option Projection) :=
  Projector.compute_dynamic_month_projection
    (visible m) (cutoff_date m) assumptions.

(** The month's actual total. *)
Definition actual_total (m : period) : Q :=
  Qsum (notna (totals (between (period_start m) (period_end m) history))).

(** The number a float holds ([projected_total] always holds one). *)
Definition value (x : F) : Q :=
  match x with
  | Fin q => q
  | NaN => 0
  end.

(** A qualifying month with its prediction and its actual total. *)
Record Scored : Type :=
  { scored_month : period; scored_predicted : Q; scored_actual : Q }.

Definition abs_pct_error (x : Scored) : Q :=
  Qabs (scored_predicted x - scored_actual x) / scored_actual x.

(** One month: skipped when the projector returns [None] or when the actual
    total is not positive. *)
Definition score (m : period) : res (option Scored) :=
  (pred <- prediction m ;;
   match pred with
   | None => Ok None
   | Some p =>
       if Qle_bool (actual_total m) 0 then Ok None
       else
         Ok (Some {| scored_month := m;
                     scored_predicted := value (projected_total p);
                     scored_actual := actual_total m |})
   end)%res.

(** The qualifying months, in order. *)
Fixpoint qualifying (months : list period) : res (list Scored) :=
  match months with
  | [] => Ok []
  | m :: months' =>
      (o <- score m ;;
       rest <- qualifying months' ;;
       Ok (match o with
           | Some x => x :: rest
           | None => rest
           end))%res
  end.

(** The mean absolute percentage error. *)
Definition mape_of (l : list Scored) : Q := Qmean (map abs_pct_error l).

(** The detail row of a qualifying month. *)
Definition detail (x : Scored) : BacktestRow :=
  Build_BacktestRow
    (scored_month x) (Fin (scored_predicted x)) (Fin (scored_actual x))
    (Fin (abs_pct_error x)).

End Spec.

End MapeSpec.

(** ** Vocabulary of the further properties *)

(** The two columns of the chart, day by day. *)
Definition actual_on (s : DataFrame) (d : date) (x : date) : F :=
  fillna
    match find (fun r => (row_date r =? x)%Z) (Projector.current s d) with
    | Some r => total r
    | None => NaN
    end
    (Fin 0).

Definition forecast_on (s : DataFrame) (d : date) (a : option dict) (g : F)
           (x : date) : F :=
  match find (fun dp => (fst dp =? x)%Z) (Projector.future_df s d a g) with
  | Some dp => snd dp
  | None => Fin 0
  end.

(** The number a reindexed and zero-filled series holds at a date. *)
Definition filled (l : list Row) (x : date) : Q :=
  match find (fun r => (row_date r =? x)%Z) l with
  | Some r => MapeSpec.value (total r)
  | None => 0
  end.


(** The dates of the rows of the month under way, up to the as-of date, in
    the order of the frame. *)
Definition month_to_date_dates (s : DataFrame) (d : date) : list date :=
  filter (fun x => (Projector.month_start d <=? x)%Z && (x <=? d)%Z)
         (map row_date (to_datetime_dropna s)).

(** The frame without the rows dated after [d]. *)
Definition through (d : date) (s : DataFrame) : DataFrame :=
  filter
    (fun r =>
       match raw_date r with
       | Some x => (x <=? d)%Z
       | None => true
       end)
    s.

(** A detail row of a backtest whose month has a row of the history before
    its start. *)
Definition has_earlier_row (s : DataFrame) (d0 : date) (x : BacktestRow)
  : Prop :=
  exists r, In r (Backtester.ts s d0)
            /\ (row_date r < period_start (bt_month x))%Z.

(** A date Python can hold. *)
Definition in_range (d : date) : Prop := (1 <= d <= Window.MAXORDINAL)%Z.

(** The year and month of the calendar month before the month of [d]. *)
Definition previous_month (d : date) : Z * Z :=
  if (month d =? 1)%Z then ((year d - 1)%Z, 12%Z)
  else (year d, (month d - 1)%Z).

(** The day of [d] exists a year earlier: [d] is not a 29 February and not
    in year 1. *)
Definition has_previous_year (d : date) : bool :=
  (2 <=? year d)%Z && negb ((month d =? 2)%Z && (day d =? 29)%Z).

(** The same day a year earlier. *)
Definition previous_year (d : date) : date :=
  ymd2ord (year d - 1) (month d) (day d).

(** The dates of the rows of a frame, in the order of the frame. *)
Definition dates (s : DataFrame) : list date :=
  map row_date (to_datetime_dropna s).

(** * Sample inputs *)

Definition day_row (y m dd : Z) (v : Q) : RawRow :=
  {| raw_date := Some (ymd2ord y m dd); raw_total := Fin v |}.


(** One sale in February 2024 and one on 10 March 2024, seen on 10 March
    with the bounds the wrong way round. *)
Definition inverted_series : DataFrame :=
  [day_row 2024 2 15 100; day_row 2024 3 10 100].

Definition inverted_bounds : dict :=
  [("growth_floor", 2); ("growth_ceiling", 1)].

(** The ten fields at their defaults, but for both weights at zero. *)
Definition zero_weights : dict :=
  [("recent_weight", 0); ("mom_weight", 0); ("weekday_strength", 1);
   ("manual_multiplier", 1); ("promo_lift_pct", 0); ("content_lift_pct", 0);
   ("instock_rate", 1); ("growth_floor", 0.5); ("growth_ceiling", 1.8);
   ("volatility_multiplier", 1)].

(** A sale on 5 February 2024 and one on 10 March 2024: seen on 10 March,
    the month-over-month signal qualifies. *)
Definition two_month_series : DataFrame :=
  [day_row 2024 2 5 100; day_row 2024 3 10 100].

Definition negative_recent_weight : dict := [("recent_weight", -(1))].

(** A stand-in for [math.erf] with the same range on the positive side. *)
Definition sample_erf (x : R) : R := (x / (1 + Rabs x))%R.

(** A single sale in February 2024. *)
Definition february_only : DataFrame := [day_row 2024 2 5 100].

(** A sale of a ten-billionth on 10 March 2024, one of 1 on 30 March, and
    history in February. *)
Definition tiny_prior_series : DataFrame :=
  [day_row 2024 2 15 100; day_row 2024 3 10 (1 # 10000000000);
   day_row 2024 3 30 1].

(** Two sales of zero in the preceding window, then a sale of 5. *)
Definition zero_prior_series : DataFrame :=
  [day_row 2024 2 15 0; day_row 2024 3 10 0; day_row 2024 3 30 5].

(** History on 15 February 2024; six sales of 100 and one row with no
    number between 3 and 9 March; two sales of 200 at the end of March. *)
Definition nan_row_series : DataFrame :=
  [day_row 2024 2 15 1000;
   day_row 2024 3 3 100; day_row 2024 3 4 100; day_row 2024 3 5 100;
   day_row 2024 3 6 100; day_row 2024 3 7 100; day_row 2024 3 8 100;
   {| raw_date := Some (ymd2ord 2024 3 9); raw_total := NaN |};
   day_row 2024 3 29 200; day_row 2024 3 30 200].

(** Two rows whose date does not parse. *)
Definition garbage_dates : DataFrame :=
  [{| raw_date := None; raw_total := Fin 100 |};
   {| raw_date := None; raw_total := Fin 250 |}].


(** Five sales from January to March 2023. *)
Definition quarter_series : DataFrame :=
  [day_row 2023 1 10 100; day_row 2023 2 10 100; day_row 2023 2 20 100;
   day_row 2023 3 10 100; day_row 2023 3 20 120].





(** History in February 2024 and two rows for 10 March. *)
Definition repeated_day_series : DataFrame :=
  [day_row 2024 2 5 100; day_row 2024 3 10 60; day_row 2024 3 10 40].

(** A volatility multiplier below the floor of a tenth. *)
Definition no_volatility : dict := [("volatility_multiplier", 0)].

(** * Properties of the engine *)

(** ** Floats *)

Ltac qlra := Lqa.lra.
Ltac rlra := Lra.lra.

Ltac qsolve :=
  intros; first [ reflexivity | qlra | exfalso; qlra ].

Lemma Qlt_bool_iff (x y : Q) : Qlt_bool x y = true <-> x < y.
Proof.
  unfold Qlt_bool. rewrite negb_true_iff.
  split; intro H.
  - apply Qnot_le_lt. intro Hle. apply Qle_bool_iff in Hle. congruence.
  - destruct (Qle_bool y x) eqn:E; [|reflexivity].
    apply Qle_bool_iff in E. exfalso. apply (Qlt_not_le _ _ H E).
Qed.

Lemma Qlt_bool_false (x y : Q) : Qlt_bool x y = false <-> y <= x.
Proof.
  unfold Qlt_bool. rewrite negb_false_iff. apply Qle_bool_iff.
Qed.

Lemma Qeq_bool_false (x y : Q) : Qeq_bool x y = false <-> ~ x == y.
Proof.
  split; intro H.
  - intro E. apply Qeq_bool_iff in E. congruence.
  - destruct (Qeq_bool x y) eqn:E; [|reflexivity].
    apply Qeq_bool_iff in E. contradiction.
Qed.

Lemma fdiv_nonzero (a b : F) :
  feq b (Fin 0) = false -> fdiv a b = Ok (lift2 Qdiv a b).
Proof. unfold fdiv. intros ->. reflexivity. Qed.


(** [_safe_ratio] never raises. *)
Lemma safe_ratio_total (n d default : F) :
  exists v, _safe_ratio n d default = Ok v.
Proof.
  unfold _safe_ratio. destruct (feq d (Fin 0)) eqn:E.
  - eexists; reflexivity.
  - rewrite (fdiv_nonzero n d E). eexists; reflexivity.
Qed.

(** The clamp [max(lo, min(hi, x))] always yields a number; it lies in
    [[lo, hi]] when [lo <= hi] and is [lo] otherwise. *)
Lemma clamp_spec (lo hi : Q) (x : F) :
  exists q,
    py_max (Fin lo) (py_min (Fin hi) x) = Fin q
    /\ lo <= q
    /\ (lo <= hi -> q <= hi)
    /\ (hi < lo -> q = lo)
    /\ (forall g, x = Fin g -> lo <= g <= hi -> q == g).
Proof.
  unfold py_max, py_min, max_by, min_by.
  destruct x as [g|]; simpl.
  - destruct (Qlt_bool g hi) eqn:E1; simpl.
    + destruct (Qlt_bool lo g) eqn:E2.
      * apply Qlt_bool_iff in E1, E2. exists g.
        (split; [reflexivity|]); (split; [qsolve|]); (split; [qsolve|]); (split; [qsolve|]).
        intros g' Hg _. inversion Hg. reflexivity.
      * apply Qlt_bool_iff in E1. apply Qlt_bool_false in E2. exists lo.
        (split; [reflexivity|]); (split; [qsolve|]); (split; [qsolve|]); (split; [qsolve|]).
        intros g' Hg [H1 H2]. inversion Hg; subst g'. lra.
    + apply Qlt_bool_false in E1.
      destruct (Qlt_bool lo hi) eqn:E2.
      * apply Qlt_bool_iff in E2. exists hi.
        (split; [reflexivity|]); (split; [qsolve|]); (split; [qsolve|]); (split; [qsolve|]).
        intros g' Hg [H1 H2]. inversion Hg; subst g'. lra.
      * apply Qlt_bool_false in E2. exists lo.
        (split; [reflexivity|]); (split; [qsolve|]); (split; [qsolve|]); (split; [qsolve|]).
        intros g' Hg [H1 H2]. inversion Hg; subst g'. lra.
  - destruct (Qlt_bool lo hi) eqn:E2.
    + apply Qlt_bool_iff in E2. exists hi.
      (split; [reflexivity|]); (split; [qsolve|]); (split; [qsolve|]); (split; [qsolve|]). intros g' Hg. discriminate.
    + apply Qlt_bool_false in E2. exists lo.
      (split; [reflexivity|]); (split; [qsolve|]); (split; [qsolve|]); (split; [qsolve|]). intros g' Hg. discriminate.
Qed.

(** ** The calendar *)

Section CalendarFacts.

Local Open Scope Z_scope.

Example ord_2024_03_30 : ymd2ord 2024 3 30 = 738975%Z :> Z.
Proof. reflexivity. Qed.

Example ymd_738975 : ord2ymd 738975%Z = (2024, 3, 30)%Z.
Proof. reflexivity. Qed.

Example weekday_2024_03_30 : weekday (ymd2ord 2024 3 30) = 5%Z.
Proof. reflexivity. Qed.

Ltac zlia := Z.div_mod_to_equations; lia.

(** The Gregorian calendar repeats every 400 years, 146097 days. *)
Lemma ord2ymd_cycle (n q : Z) :
  ord2ymd (n + 146097 * q)
  = (year n + 400 * q, month n, day n).
Proof.
  unfold year, month, day, ord2ymd. cbv zeta.
  replace ((n + 146097 * q - 1) mod 146097) with ((n - 1) mod 146097)
    by zlia.
  replace ((n + 146097 * q - 1) / 146097) with ((n - 1) / 146097 + q)
    by zlia.
  set (r400 := (n - 1) mod 146097).
  destruct ((_ =? 4) || (_ =? 4))%bool; cbn [fst snd];
    [f_equal; f_equal; lia|].
  destruct (_ >? _); cbn [fst snd]; f_equal; f_equal; lia.
Qed.

Lemma is_leap_cycle (y q : Z) : is_leap (y + 400 * q) = is_leap y.
Proof.
  unfold is_leap.
  replace ((y + 400 * q) mod 4) with (y mod 4) by zlia.
  replace ((y + 400 * q) mod 100) with (y mod 100) by zlia.
  replace ((y + 400 * q) mod 400) with (y mod 400) by zlia.
  reflexivity.
Qed.

Lemma days_in_month_cycle (y m q : Z) :
  days_in_month (y + 400 * q) m = days_in_month y m.
Proof. unfold days_in_month. rewrite is_leap_cycle. reflexivity. Qed.

Lemma ymd2ord_cycle (y m dd q : Z) :
  ymd2ord (y + 400 * q) m dd = ymd2ord y m dd + 146097 * q.
Proof.
  unfold ymd2ord, days_before_month. rewrite is_leap_cycle.
  unfold days_before_year. zlia.
Qed.

Lemma all_from_spec (f : Z -> bool) (count : nat) :
  forall i, all_from f i count = true ->
  forall k, i <= k < i + Z.of_nat count -> f k = true.
Proof.
  induction count as [|c IH]; intros i H k Hk; [lia|].
  simpl in H. apply andb_true_iff in H. destruct H as [Hi Hrest].
  destruct (Z.eq_dec k i) as [->|Hne]; [exact Hi|].
  apply (IH (i + 1) Hrest). lia.
Qed.

Lemma first_cycle_ok : all_from date_ok 1 (Z.to_nat 146097) = true.
Proof. vm_compute. reflexivity. Qed.

Lemma date_ok_all (n : date) : date_ok n = true.
Proof.
  set (q := (n - 1) / 146097). set (r := (n - 1) mod 146097 + 1).
  assert (Hn : n = r + 146097 * q) by (unfold r, q; zlia).
  assert (Hr : 1 <= r < 1 + Z.of_nat (Z.to_nat 146097))
    by (unfold r; zlia).
  pose proof (all_from_spec date_ok _ 1 first_cycle_ok r Hr) as H.
  assert (E : ord2ymd n = (year r + 400 * q, month r, day r))
    by (rewrite Hn; apply ord2ymd_cycle).
  unfold date_ok in *. rewrite E.
  assert (H' : ymd_ok r (year r, month r, day r) = true).
  { unfold year, month, day. destruct (ord2ymd r) as [[y m] dd]. exact H. }
  clear H. unfold ymd_ok in *.
  rewrite days_in_month_cycle, ymd2ord_cycle.
  repeat (apply andb_true_iff in H'; destruct H' as [H' ?]).
  repeat (apply andb_true_iff; split); try assumption.
  apply Z.eqb_eq. apply Z.eqb_eq in H. lia.
Qed.

Lemma date_valid (n : date) :
  1 <= month n <= 12
  /\ 1 <= day n <= days_in_month (year n) (month n)
  /\ ymd2ord (year n) (month n) (day n) = n.
Proof.
  pose proof (date_ok_all n) as H. unfold date_ok, ymd_ok in H.
  unfold year, month, day. destruct (ord2ymd n) as [[y m] dd].
  cbn [fst snd].
  repeat (apply andb_true_iff in H; destruct H as [H ?]).
  repeat match goal with
         | H : (_ <=? _) = true |- _ => apply Z.leb_le in H
         | H : (_ =? _) = true |- _ => apply Z.eqb_eq in H
         end.
  lia.
Qed.

Lemma is_leap_spec (y : Z) :
  is_leap y = true
  <-> (y mod 4 = 0 /\ (y mod 100 <> 0 \/ y mod 400 = 0)).
Proof.
  unfold is_leap. rewrite andb_true_iff, orb_true_iff, negb_true_iff.
  rewrite !Z.eqb_eq, Z.eqb_neq. reflexivity.
Qed.

Lemma days_before_year_succ (y : Z) :
  days_before_year (y + 1)
  = days_before_year y + 365 + (if is_leap y then 1 else 0).
Proof.
  unfold days_before_year.
  destruct (is_leap y) eqn:E.
  - apply is_leap_spec in E. zlia.
  - assert (N : ~ (y mod 4 = 0 /\ (y mod 100 <> 0 \/ y mod 400 = 0))).
    { intro H. apply is_leap_spec in H. congruence. }
    zlia.
Qed.

Lemma days_before_year_mono (y y' : Z) :
  y <= y' -> days_before_year y <= days_before_year y'.
Proof. unfold days_before_year. zlia. Qed.

Ltac month_cases m :=
  let H := fresh in
  assert (H : m = 1 \/ m = 2 \/ m = 3 \/ m = 4 \/ m = 5 \/ m = 6 \/ m = 7
              \/ m = 8 \/ m = 9 \/ m = 10 \/ m = 11 \/ m = 12) by lia;
  repeat (destruct H as [H|H]; [subst m|]); [..|subst m].

Ltac eval_tables :=
  cbv [days_before_month days_in_month DAYS_BEFORE_MONTH DAYS_IN_MONTH
       nth Z.to_nat Pos.to_nat Pos.iter_op Nat.add Init.Nat.add
       Z.eqb Pos.eqb Z.gtb Z.compare Pos.compare Pos.compare_cont andb] in *.

(** A valid day of a valid month lies within the year. *)
Lemma day_of_year_bound (y m dd : Z) :
  1 <= m <= 12 -> 1 <= dd <= days_in_month y m ->
  1 <= days_before_month y m + dd <= 365 + (if is_leap y then 1 else 0).
Proof.
  intros Hm Hd. revert Hd.
  month_cases m; eval_tables; destruct (is_leap y); lia.
Qed.

(** The days before a month hold all the earlier months. *)
Lemma days_before_month_mono (y m m' dd : Z) :
  1 <= m -> m < m' -> m' <= 12 -> dd <= days_in_month y m ->
  days_before_month y m + dd <= days_before_month y m'.
Proof.
  intros H1 H2 H3 Hd. revert Hd.
  month_cases m; month_cases m'; try lia;
    eval_tables; destruct (is_leap y); lia.
Qed.

Lemma ymd2ord_year_lt (y m dd y' m' dd' : Z) :
  1 <= m <= 12 -> 1 <= dd <= days_in_month y m ->
  1 <= m' <= 12 -> 1 <= dd' <= days_in_month y' m' ->
  y < y' -> ymd2ord y m dd < ymd2ord y' m' dd'.
Proof.
  intros Hm Hd Hm' Hd' Hy. unfold ymd2ord.
  pose proof (day_of_year_bound y m dd Hm Hd) as B.
  pose proof (day_of_year_bound y' m' dd' Hm' Hd') as B'.
  pose proof (days_before_year_succ y) as S.
  pose proof (days_before_year_mono (y + 1) y') as M.
  lia.
Qed.

Lemma ymd2ord_inj (y m dd y' m' dd' : Z) :
  1 <= m <= 12 -> 1 <= dd <= days_in_month y m ->
  1 <= m' <= 12 -> 1 <= dd' <= days_in_month y' m' ->
  ymd2ord y m dd = ymd2ord y' m' dd' ->
  y = y' /\ m = m' /\ dd = dd'.
Proof.
  intros Hm Hd Hm' Hd' E.
  assert (Hy : y = y').
  { destruct (Z.lt_trichotomy y y') as [L|[L|L]]; [|exact L|].
    - pose proof (ymd2ord_year_lt y m dd y' m' dd' Hm Hd Hm' Hd' L). lia.
    - pose proof (ymd2ord_year_lt y' m' dd' y m dd Hm' Hd' Hm Hd L). lia. }
  subst y'. split; [reflexivity|].
  unfold ymd2ord in E.
  assert (Hmm : m = m').
  { destruct (Z.lt_trichotomy m m') as [L|[L|L]]; [|exact L|].
    - pose proof (days_before_month_mono y m m' dd). lia.
    - pose proof (days_before_month_mono y m' m dd'). lia. }
  subst m'. split; [reflexivity|]. lia.
Qed.

(** [date.fromordinal(date(y, m, d).toordinal())] is [(y, m, d)]. *)
Lemma ord2ymd_ymd2ord (y m dd : Z) :
  1 <= m <= 12 -> 1 <= dd <= days_in_month y m ->
  ord2ymd (ymd2ord y m dd) = (y, m, dd).
Proof.
  intros Hm Hd.
  destruct (date_valid (ymd2ord y m dd)) as (Vm & Vd & E).
  destruct (ymd2ord_inj _ _ _ _ _ _ Vm Vd Hm Hd E) as (Ey & Em & Ed).
  unfold year, month, day in Ey, Em, Ed.
  destruct (ord2ymd (ymd2ord y m dd)) as [[y0 m0] d0]. simpl in *.
  congruence.
Qed.

Lemma days_in_month_pos (y m : Z) : 1 <= m <= 12 -> 28 <= days_in_month y m.
Proof.
  intro Hm.
  month_cases m; eval_tables; destruct (is_leap y); lia.
Qed.

(** The first day of the month of a date. *)
Lemma month_start_spec (d : date) :
  Projector.month_start d = d - day d + 1
  /\ ord2ymd (Projector.month_start d) = (year d, month d, 1).
Proof.
  destruct (date_valid d) as (Vm & Vd & E). unfold Projector.month_start.
  split.
  - unfold ymd2ord in *. lia.
  - apply ord2ymd_ymd2ord; [exact Vm|].
    pose proof (days_in_month_pos (year d) (month d) Vm). lia.
Qed.

(** The days elapsed in the month of a date never exceed its length. *)
Lemma elapsed_days_range (d : date) :
  1 <= Projector.elapsed_days d <= Projector.month_days d.
Proof.
  destruct (date_valid d) as (Vm & Vd & E).
  destruct (month_start_spec d) as [Hs _].
  unfold Projector.elapsed_days, Projector.month_days, monthrange.
  rewrite Hs. lia.
Qed.

(** Every day between the first and the last of a month is a day of that
    month. *)
Lemma same_month (y m x : Z) :
  1 <= m <= 12 ->
  ymd2ord y m 1 <= x <= ymd2ord y m (days_in_month y m) ->
  ord2ymd x = (y, m, x - ymd2ord y m 1 + 1).
Proof.
  intros Hm Hx.
  assert (E : x = ymd2ord y m (x - ymd2ord y m 1 + 1))
    by (unfold ymd2ord; lia).
  rewrite E at 1. apply ord2ymd_ymd2ord; [exact Hm|].
  unfold ymd2ord in *. lia.
Qed.

(** A month that holds a day before the first of some month ends before
    it. *)
Lemma month_ends_before (d d0 : date) :
  d < Projector.month_start d0 ->
  period_end (to_period d) < Projector.month_start d0.
Proof.
  intro H.
  destruct (date_valid d) as (Vm & Vd & E).
  destruct (month_start_spec d0) as [_ H0].
  destruct (Z_lt_le_dec (period_end (to_period d)) (Projector.month_start d0))
    as [L|L]; [exact L|exfalso].
  unfold period_end, to_period in L. simpl in L.
  assert (Hx : ymd2ord (year d) (month d) 1 <= Projector.month_start d0
               <= ymd2ord (year d) (month d)
                          (days_in_month (year d) (month d))).
  { split; [|exact L]. unfold ymd2ord in *. lia. }
  pose proof (same_month (year d) (month d) _ Vm Hx) as S.
  rewrite H0 in S. injection S as _ _ Ed.
  unfold ymd2ord in *. lia.
Qed.

End CalendarFacts.

(** ** Shape of a successful projection *)

Lemma bind_ok_inv {A B} (c : res A) (k : A -> res B) (b : B) :
  bind c k = Ok b -> exists a, c = Ok a /\ k a = Ok b.
Proof.
  destruct c as [a|e]; simpl; [|discriminate].
  intro H. exists a. split; [reflexivity|exact H].
Qed.

Lemma ok_inj {A} (x y : A) : Ok x = Ok y -> x = y.
Proof. intro H. injection H as H. exact H. Qed.

Lemma projection_inv (s : DataFrame) (d : date) (a : option dict)
      (r : Projection) :
  Projector.compute_dynamic_month_projection s d a = Ok (Some r) ->
  exists rg mg g0 ch,
    empty s = false
    /\ empty (Projector.ts s d) = false
    /\ empty (Projector.current s d) = false
    /\ empty (Projector.hist s d) = false
    /\ Projector.recent_growth s d = Ok rg
    /\ Projector.mom_growth s d = Ok mg
    /\ Projector.growth_factor0 (Projector.factors s d a rg mg) = Ok g0
    /\ Projector.chart_df s d a
         (Projector.growth_factor a (Projector.growth_factor1 a g0)) = Ok ch
    /\ r = Build_Projection
             (Projector.mtd_actual s d)
             (Projector.projected_total s d a
                (Projector.growth_factor a (Projector.growth_factor1 a g0)))
             (Projector.growth_factor a (Projector.growth_factor1 a g0))
             (Projector.ci_low s d a
                (Projector.projected_total s d a
                   (Projector.growth_factor a (Projector.growth_factor1 a g0))))
             (Projector.ci_high s d a
                (Projector.projected_total s d a
                   (Projector.growth_factor a (Projector.growth_factor1 a g0))))
             ch
             (Projector.elapsed_days d)
             (Projector.month_days d)
             (Projector.month_start d)
             (Projector.month_end d).
Proof.
  unfold Projector.compute_dynamic_month_projection.
  destruct (empty s) eqn:E1; [discriminate|].
  destruct (empty (Projector.ts s d)) eqn:E2; [discriminate|].
  destruct (empty (Projector.current s d)) eqn:E3; [discriminate|].
  destruct (empty (Projector.hist s d)) eqn:E4; [discriminate|].
  intro H.
  apply bind_ok_inv in H. destruct H as (rg & Hrg & H).
  apply bind_ok_inv in H. destruct H as (mg & Hmg & H).
  apply bind_ok_inv in H. destruct H as (g0 & Hg0 & H).
  apply bind_ok_inv in H. destruct H as (ch & Hch & H).
  exists rg, mg, g0, ch. inversion H. repeat split; auto.
Qed.

Lemma projection_intro (s : DataFrame) (d : date) (a : option dict)
      (rg mg g0 : F) (ch : list ChartRow) :
  empty s = false ->
  empty (Projector.ts s d) = false ->
  empty (Projector.current s d) = false ->
  empty (Projector.hist s d) = false ->
  Projector.recent_growth s d = Ok rg ->
  Projector.mom_growth s d = Ok mg ->
  Projector.growth_factor0 (Projector.factors s d a rg mg) = Ok g0 ->
  Projector.chart_df s d a
    (Projector.growth_factor a (Projector.growth_factor1 a g0)) = Ok ch ->
  Projector.compute_dynamic_month_projection s d a
  = Ok (Some
          (Build_Projection
             (Projector.mtd_actual s d)
             (Projector.projected_total s d a
                (Projector.growth_factor a (Projector.growth_factor1 a g0)))
             (Projector.growth_factor a (Projector.growth_factor1 a g0))
             (Projector.ci_low s d a
                (Projector.projected_total s d a
                   (Projector.growth_factor a (Projector.growth_factor1 a g0))))
             (Projector.ci_high s d a
                (Projector.projected_total s d a
                   (Projector.growth_factor a (Projector.growth_factor1 a g0))))
             ch
             (Projector.elapsed_days d)
             (Projector.month_days d)
             (Projector.month_start d)
             (Projector.month_end d))).
Proof.
  intros E1 E2 E3 E4 Hrg Hmg Hg0 Hch.
  unfold Projector.compute_dynamic_month_projection.
  rewrite E1, E2, E3, E4, Hrg. simpl. rewrite Hmg. simpl.
  rewrite Hg0. simpl. rewrite Hch. reflexivity.
Qed.



(** C1, as stated, fails: with [growth_floor = 2] and [growth_ceiling = 1]
    the projector returns [growth_factor = 2], which is above the ceiling. *)
Lemma growth_factor_above_ceiling :
  exists r,
    Projector.compute_dynamic_month_projection
      inverted_series (ymd2ord 2024 3 10) (Some inverted_bounds) = Ok (Some r)
    /\ Projector.growth_floor (Some inverted_bounds) = Fin 2
    /\ Projector.growth_ceiling (Some inverted_bounds) = Fin 1
    /\ growth_factor r = Fin 2
    /\ ~ (2 <= 1).
Proof.
  eexists. split; [lazy; reflexivity|].
  split; [reflexivity|]. split; [reflexivity|]. split; [reflexivity|].
  intro H. qlra.
Qed.

(** C1 (amended): whenever the projector returns a result and
    [growth_floor <= growth_ceiling], the returned [growth_factor] is a number
    in [[growth_floor, growth_ceiling]]; with both bounds equal to 1 it
    is 1.  (With [growth_floor > growth_ceiling] it is [growth_floor].) *)
Theorem growth_factor_within_bounds
        (s : DataFrame) (d : date) (a : option dict) (r : Projection)
        (lo hi : Q) :
  Projector.compute_dynamic_month_projection s d a = Ok (Some r) ->
  Projector.growth_floor a = Fin lo ->
  Projector.growth_ceiling a = Fin hi ->
  exists g,
    growth_factor r = Fin g
    /\ (lo <= hi -> lo <= g <= hi)
    /\ (lo == 1 -> hi == 1 -> g == 1)
    /\ (hi < lo -> g = lo).
Proof.
  intros H Hlo Hhi.
  apply projection_inv in H.
  destruct H as (rg & mg & g0 & ch & _ & _ & _ & _ & _ & _ & _ & _ & ->).
  simpl. unfold Projector.growth_factor. rewrite Hlo, Hhi.
  destruct (clamp_spec lo hi (Projector.growth_factor1 a g0))
    as (q & Hq & H1 & H2 & H3 & _).
  exists q. split; [exact Hq|]. split; [|split].
  - intro Hle. split; [exact H1 | exact (H2 Hle)].
  - intros E1 E2. assert (Hle : lo <= hi) by qlra.
    specialize (H2 Hle). qlra.
  - exact H3.
Qed.

Lemma growth_factor_within_bounds_witness :
  exists r g,
    Projector.compute_dynamic_month_projection
      inverted_series (ymd2ord 2024 3 10) None = Ok (Some r)
    /\ growth_factor r = Fin g
    /\ 0.5 <= g <= 1.8.
Proof.
  eexists.
  assert (H : Projector.compute_dynamic_month_projection
                inverted_series (ymd2ord 2024 3 10) None = Ok (Some _))
    by (lazy; reflexivity).
  destruct (growth_factor_within_bounds
              inverted_series (ymd2ord 2024 3 10) None _ 0.5 1.8
              H eq_refl eq_refl) as (g & Hg & Hb & _).
  exists g. split; [exact H|]. split; [exact Hg|].
  apply Hb. qlra.
Defined.

(** ** Weights *)

(** C9: a well-formed call raises.  With both weights at zero and a
    qualifying signal, the weighted average divides by the zero sum of the
    weights. *)
Theorem zero_weights_raise :
  Projector.compute_dynamic_month_projection
    two_month_series (ymd2ord 2024 3 10) (Some zero_weights)
  = Raise ZeroDivisionError.
Proof. lazy. reflexivity. Qed.

Lemma get_float_set_other (k k' : string) (v : Q) (a : dict) (default : Q) :
  String.eqb k k' = false ->
  get_float (set k v a) k' default = get_float a k' default.
Proof. unfold get_float, set. simpl. intros ->. reflexivity. Qed.

Lemma get_float_set_same (k : string) (v : Q) (a : dict) (default : Q) :
  get_float (set k v a) k default = Fin v.
Proof. unfold get_float, set. simpl. rewrite String.eqb_refl. reflexivity. Qed.

Lemma py_max_negative (w : Q) : w < 0 -> py_max (Fin w) (Fin 0) = Fin 0.
Proof.
  intro H. unfold py_max, max_by. simpl.
  apply Qlt_bool_iff in H. rewrite H. reflexivity.
Qed.

Lemma py_max_zero_nonneg (x : Q) :
  exists q, py_max (Fin x) (Fin 0) = Fin q /\ 0 <= q.
Proof.
  unfold py_max, max_by. simpl. destruct (Qlt_bool x 0) eqn:E.
  - exists 0. split; [reflexivity|qlra].
  - apply Qlt_bool_false in E. exists x. split; [reflexivity|exact E].
Qed.

Lemma get_float_fin (a : dict) (k : string) (default : Q) :
  exists q, get_float a k default = Fin q.
Proof. unfold get_float. destruct (get a k); eexists; reflexivity. Qed.

Ltac unfold_projector :=
  unfold Projector.compute_dynamic_month_projection,
    Projector.chart_df, Projector.forecast_daily, Projector.ci_low,
    Projector.ci_high, Projector.forecast_std, Projector.projected_total,
    Projector.remaining_projection, Projector.future_df, Projector.pred,
    Projector.growth_factor, Projector.growth_factor1, Projector.factors,
    Projector.recent_weight, Projector.mom_weight,
    Projector.weekday_strength, Projector.effective_multiplier,
    Projector.growth_floor, Projector.growth_ceiling,
    Projector.volatility_multiplier, Projector.assumptions1,
    _assumption_effective_multiplier, or_empty.

(** C10: a negative weight counts as zero.  Replacing a negative
    [recent_weight] (or [mom_weight]) by zero changes nothing in the outcome
    of the projector, and the weight a signal enters the average with is never
    negative. *)
Theorem negative_weight_is_zero
        (s : DataFrame) (d : date) (a : dict) (w : Q) :
  w < 0 ->
  (get a "recent_weight" = Some w ->
   Projector.compute_dynamic_month_projection s d (Some a)
   = Projector.compute_dynamic_month_projection
       s d (Some (set "recent_weight" 0 a)))
  /\ (get a "mom_weight" = Some w ->
      Projector.compute_dynamic_month_projection s d (Some a)
      = Projector.compute_dynamic_month_projection
          s d (Some (set "mom_weight" 0 a)))
  /\ (forall rg mg vw,
        In vw (Projector.factors s d (Some a) rg mg) ->
        exists q, snd vw = Fin q /\ 0 <= q).
Proof.
  intro Hw. split; [|split].
  - intro Hg. unfold_projector.
    rewrite get_float_set_same.
    rewrite !get_float_set_other by reflexivity.
    replace (get_float a "recent_weight" 0.6) with (Fin w : F)
      by (unfold get_float; rewrite Hg; reflexivity).
    rewrite (py_max_negative w Hw).
    reflexivity.
  - intro Hg. unfold_projector.
    rewrite get_float_set_same.
    rewrite !get_float_set_other by reflexivity.
    replace (get_float a "mom_weight" 0.4) with (Fin w : F)
      by (unfold get_float; rewrite Hg; reflexivity).
    rewrite (py_max_negative w Hw).
    reflexivity.
  - intros rg mg vw. unfold Projector.factors.
    assert (Hrw : exists q,
               py_max (Projector.recent_weight (Some a)) (Fin 0) = Fin q
               /\ 0 <= q).
    { unfold Projector.recent_weight.
      destruct (get_float_fin (Projector.assumptions1 (Some a))
                  "recent_weight" 0.6) as [x ->].
      apply py_max_zero_nonneg. }
    assert (Hmw : exists q,
               py_max (Projector.mom_weight (Some a)) (Fin 0) = Fin q
               /\ 0 <= q).
    { unfold Projector.mom_weight.
      destruct (get_float_fin (Projector.assumptions1 (Some a))
                  "mom_weight" 0.4) as [x ->].
      apply py_max_zero_nonneg. }
    destruct (7 <=? len (Projector.prior14 s d))%Z;
      destruct (0 <? len (Projector.prev_month_mtd s d))%Z; simpl;
      intro Hin;
      repeat (destruct Hin as [<-|Hin]; simpl; auto);
      try contradiction.
    exists 1. split; [reflexivity|qlra].
Qed.

Lemma negative_weight_is_zero_witness :
  Projector.compute_dynamic_month_projection
    two_month_series (ymd2ord 2024 3 10) (Some negative_recent_weight)
  = Projector.compute_dynamic_month_projection
      two_month_series (ymd2ord 2024 3 10)
      (Some (set "recent_weight" 0 negative_recent_weight)).
Proof.
  assert (Hw : -(1) < 0) by qlra.
  exact (proj1 (negative_weight_is_zero two_month_series (ymd2ord 2024 3 10)
                  negative_recent_weight (-(1)) Hw) eq_refl).
Defined.

(** ** Insufficient data *)

Lemma empty_nil {A} (l : list A) : empty l = true <-> l = [].
Proof. destruct l; simpl; split; intro H; congruence. Qed.

Lemma len_nonneg {A} (l : list A) : (0 <= len l)%Z.
Proof. unfold len. lia. Qed.

Lemma IZR_ge2_nonzero (n : Z) : (2 <= n)%Z -> Req_bool (IZR n) 0 = false.
Proof.
  intro H. unfold Req_bool. destruct (Req_dec_T (IZR n) 0) as [E|E].
  - apply eq_IZR_R0 in E. lia.
  - reflexivity.
Qed.

(** A squared deviation over a sample size of at least two: a number that
    is not negative, or [NaN]. *)
Lemma scaled_square (x : FR) (n : Z) :
  (2 <= n)%Z ->
  exists y,
    rdiv (lift1 (fun v => v ^ 2)%R x) (Fin (IZR n)) = Ok y
    /\ (y = NaN \/ exists v, y = Fin v /\ (0 <= v)%R).
Proof.
  intro Hn. unfold rdiv, req. simpl. rewrite (IZR_ge2_nonzero n Hn).
  eexists. split; [reflexivity|].
  destruct x as [v|]; simpl; [right|left; reflexivity].
  eexists. split; [reflexivity|].
  assert (0 < IZR n)%R by (apply IZR_lt; lia).
  apply Rmult_le_pos.
  - apply pow2_ge_0.
  - left. apply Rinv_0_lt_compat. assumption.
Qed.

Lemma math_sqrt_nonneg (x : FR) :
  (x = NaN \/ exists v, x = Fin v /\ (0 <= v)%R) ->
  exists y, math_sqrt x = Ok y.
Proof.
  intros [->|(v & -> & Hv)]; simpl.
  - eexists; reflexivity.
  - unfold Rlt_bool. destruct (Rlt_dec v 0) as [Hlt|_].
    + exfalso. rlra.
    + eexists; reflexivity.
Qed.

(** With two points or more on each side the combined standard error is
    computed without raising. *)
Lemma se_total (s : DataFrame) (d : date) :
  (2 <= Significance.n1 s d)%Z -> (2 <= Significance.n2 s d)%Z ->
  exists x, Significance.se s d = Ok x.
Proof.
  intros H1 H2. unfold Significance.se.
  destruct (scaled_square (Significance.std1 s d) _ H1) as (y1 & -> & Hy1).
  destruct (scaled_square (Significance.std2 s d) _ H2) as (y2 & -> & Hy2).
  simpl. apply math_sqrt_nonneg.
  destruct Hy1 as [->|(v1 & -> & Hv1)]; [left; reflexivity|].
  destruct Hy2 as [->|(v2 & -> & Hv2)]; [left; reflexivity|].
  right. exists (v1 + v2)%R. split; [reflexivity|]. rlra.
Qed.

Lemma projector_none_without_rows
      (s : DataFrame) (d : date) (a : option dict) :
  Projector.ts s d = [] ->
  Projector.compute_dynamic_month_projection s d a = Ok None.
Proof.
  intro H. unfold Projector.compute_dynamic_month_projection.
  rewrite H. destruct (empty s); reflexivity.
Qed.

Lemma significance_none_small_sample
      (erf : R -> R) (s : DataFrame) (d : date) (a : option dict) :
  (Significance.n1 s d < 2 \/ Significance.n2 s d < 2)%Z ->
  Significance.growth_significance erf s d a = Ok None.
Proof.
  intro H. unfold Significance.growth_significance.
  destruct (empty s); [reflexivity|].
  assert (E : ((Significance.n1 s d <? 2)%Z
               || (Significance.n2 s d <? 2)%Z)%bool = true).
  { apply orb_true_iff. destruct H as [H|H]; [left|right];
      apply Z.ltb_lt; exact H. }
  rewrite E. reflexivity.
Qed.

(** C4: insufficient data yields [None], not an exception.  The projector
    returns [None] on an empty series, on a series with nothing on or before
    the as-of date, with nothing in the current month to date, or with
    nothing before the month start; the backtester and the significance tester
    return [None] on an empty series; the significance tester returns [None]
    when a sample has fewer than two points, computes the standard error
    without raising otherwise, and returns [None] when it is zero. *)
Theorem insufficient_data_is_none
        (erf : R -> R) (s : DataFrame) (d : date) (a : option dict)
        (as_of_day : Z) (current_month_start : date) :
  (s = [] -> Projector.compute_dynamic_month_projection s d a = Ok None)
  /\ (Projector.ts s d = [] ->
      Projector.compute_dynamic_month_projection s d a = Ok None)
  /\ (Projector.current s d = [] ->
      Projector.compute_dynamic_month_projection s d a = Ok None)
  /\ (Projector.hist s d = [] ->
      Projector.compute_dynamic_month_projection s d a = Ok None)
  /\ (s = [] ->
      Backtester.backtest_projection_mape_with_assumptions
        s as_of_day current_month_start a = Ok None)
  /\ (s = [] -> Significance.growth_significance erf s d a = Ok None)
  /\ ((Significance.n1 s d < 2 \/ Significance.n2 s d < 2)%Z ->
      Significance.growth_significance erf s d a = Ok None)
  /\ ((2 <= Significance.n1 s d)%Z -> (2 <= Significance.n2 s d)%Z ->
      exists x, Significance.se s d = Ok x)
  /\ (Significance.se s d = Ok (Fin 0%R) ->
      Significance.growth_significance erf s d a = Ok None).
Proof.
  repeat match goal with |- _ /\ _ => split end.
  - intros ->. reflexivity.
  - apply projector_none_without_rows.
  - intro H. unfold Projector.compute_dynamic_month_projection.
    rewrite H. simpl.
    destruct (empty s); [reflexivity|].
    destruct (empty (Projector.ts s d)); reflexivity.
  - intro H. unfold Projector.compute_dynamic_month_projection.
    rewrite H. simpl.
    destruct (empty s); [reflexivity|].
    destruct (empty (Projector.ts s d)); [reflexivity|].
    destruct (empty (Projector.current s d)); reflexivity.
  - intros ->. reflexivity.
  - intros ->. reflexivity.
  - apply significance_none_small_sample.
  - apply se_total.
  - intro H. unfold Significance.growth_significance.
    destruct (empty s); [reflexivity|].
    destruct (_ || _)%bool; [reflexivity|].
    rewrite H. simpl. unfold req, Req_bool. simpl.
    destruct (Req_dec_T 0 0) as [_|E]; [reflexivity|].
    exfalso. apply E. reflexivity.
Qed.

Lemma insufficient_data_is_none_witness :
  Projector.compute_dynamic_month_projection [] (ymd2ord 2024 3 10) None
  = Ok None
  /\ Projector.compute_dynamic_month_projection
       february_only (ymd2ord 2024 3 10) None = Ok None
  /\ Significance.growth_significance
       sample_erf february_only (ymd2ord 2024 3 10) None = Ok None.
Proof.
  destruct (insufficient_data_is_none
              sample_erf [] (ymd2ord 2024 3 10) None 10 (ymd2ord 2024 3 1))
    as (Hempty & _).
  destruct (insufficient_data_is_none
              sample_erf february_only (ymd2ord 2024 3 10) None 10
              (ymd2ord 2024 3 1))
    as (_ & _ & Hcurrent & _ & _ & _ & Hsmall & _).
  split; [|split].
  - apply Hempty. reflexivity.
  - apply Hcurrent. reflexivity.
  - apply Hsmall. left. reflexivity.
Defined.

(** ** Ratios *)

(** C5, as stated, fails: a denominator of [1e-10], below [1e-9] in absolute
    value, is divided by; the recent-trend ratio is then [1e10], not the
    fallback. *)
Lemma near_zero_denominator_divides :
  _safe_ratio (Fin 1) (Fin (1 # 10000000000)) (Fin 1)
  = Ok (Fin (1 / (1 # 10000000000)))
  /\ exists den x,
       series_mean (Projector.prior14 tiny_prior_series (ymd2ord 2024 3 30))
       = Fin den
       /\ Qabs den < 1 # 1000000000
       /\ Projector.recent_growth tiny_prior_series (ymd2ord 2024 3 30)
          = Ok (Fin x)
       /\ x == 10000000000
       /\ ~ x == 1.
Proof.
  split; [reflexivity|].
  eexists. eexists.
  split; [reflexivity|]. split; [reflexivity|]. split; [reflexivity|].
  split; [reflexivity|].
  intro H. discriminate H.
Qed.

(** C5 (amended): a denominator that is exactly zero yields the fallback 1.0,
    no ratio of the engine raises, and a denominator that is not zero,
    however small, is divided by.  This holds of [_safe_ratio] and of both
    ratios of the engine: the recent-trend ratio is 1.0 when the mean of the
    preceding 14 days is zero and the quotient of the two means when it is
    another number; the month-over-month ratio is 1.0 when the previous
    month's sum is zero and the quotient of the two sums when it is another
    number; both are always computed. *)
Theorem zero_denominator_falls_back
        (s : DataFrame) (d : date) (numerator denominator : F) :
  (is_zero denominator ->
   _safe_ratio numerator denominator (Fin 1) = Ok (Fin 1))
  /\ (exists v, _safe_ratio numerator denominator (Fin 1) = Ok v)
  /\ (forall n q,
        numerator = Fin n -> denominator = Fin q -> ~ q == 0 ->
        _safe_ratio numerator denominator (Fin 1) = Ok (Fin (n / q)))
  /\ (is_zero (series_mean (Projector.prior14 s d)) ->
      Projector.recent_growth s d = Ok (Fin 1))
  /\ (is_zero (series_sum (Projector.prev_month_mtd s d)) ->
      Projector.mom_growth s d = Ok (Fin 1))
  /\ (forall n q,
        (0 < len (Projector.prior14 s d))%Z ->
        series_mean (Projector.recent14 s d) = Fin n ->
        series_mean (Projector.prior14 s d) = Fin q -> ~ q == 0 ->
        Projector.recent_growth s d = Ok (Fin (n / q)))
  /\ (forall n q,
        (0 < len (Projector.prev_month_mtd s d))%Z ->
        Projector.mtd_actual s d = Fin n ->
        series_sum (Projector.prev_month_mtd s d) = Fin q -> ~ q == 0 ->
        Projector.mom_growth s d = Ok (Fin (n / q)))
  /\ (exists rg mg,
        Projector.recent_growth s d = Ok rg
        /\ Projector.mom_growth s d = Ok mg).
Proof.
  assert (Hdiv : forall x y n q,
             x = Fin n -> y = Fin q -> ~ q == 0 ->
             _safe_ratio x y (Fin 1) = Ok (Fin (n / q))).
  { intros x y n q -> -> Hq. unfold _safe_ratio, fdiv, feq. cbn [cmp2].
    apply Qeq_bool_false in Hq. rewrite Hq. reflexivity. }
  unfold is_zero.
  split; [|split; [|split; [|split; [|split; [|split; [|split]]]]]].
  - intro H. unfold _safe_ratio. rewrite H. reflexivity.
  - apply safe_ratio_total.
  - exact (Hdiv numerator denominator).
  - intro H. unfold Projector.recent_growth, _safe_ratio. rewrite H.
    destruct (0 <? _)%Z; reflexivity.
  - intro H. unfold Projector.mom_growth, _safe_ratio. rewrite H.
    destruct (0 <? _)%Z; reflexivity.
  - intros n q Hlen Hn Hq Hnz. unfold Projector.recent_growth.
    apply Z.ltb_lt in Hlen. rewrite Hlen. exact (Hdiv _ _ n q Hn Hq Hnz).
  - intros n q Hlen Hn Hq Hnz. unfold Projector.mom_growth.
    apply Z.ltb_lt in Hlen. rewrite Hlen. exact (Hdiv _ _ n q Hn Hq Hnz).
  - unfold Projector.recent_growth, Projector.mom_growth.
    destruct (safe_ratio_total
                (series_mean (Projector.recent14 s d))
                (series_mean (Projector.prior14 s d)) (Fin 1)) as [v1 ->].
    destruct (safe_ratio_total
                (Projector.mtd_actual s d)
                (series_sum (Projector.prev_month_mtd s d)) (Fin 1))
      as [v2 ->].
    destruct (0 <? _)%Z; destruct (0 <? _)%Z; eexists; eexists;
      split; reflexivity.
Qed.

Lemma zero_denominator_falls_back_witness :
  _safe_ratio (Fin 5) (Fin 0) (Fin 1) = Ok (Fin 1)
  /\ Projector.recent_growth zero_prior_series (ymd2ord 2024 3 30)
     = Ok (Fin 1)
  /\ _safe_ratio (Fin 5) (Fin (1 # 10000000000)) (Fin 1)
     = Ok (Fin (5 / (1 # 10000000000)))
  /\ Projector.recent_growth tiny_prior_series (ymd2ord 2024 3 30)
     = Ok (Fin (1 / (1 # 10000000000))).
Proof.
  split; [|split; [|split]].
  - apply (zero_denominator_falls_back
             zero_prior_series (ymd2ord 2024 3 30) (Fin 5) (Fin 0)).
    reflexivity.
  - apply (zero_denominator_falls_back
             zero_prior_series (ymd2ord 2024 3 30) (Fin 5) (Fin 0)).
    reflexivity.
  - apply (zero_denominator_falls_back
             zero_prior_series (ymd2ord 2024 3 30)
             (Fin 5) (Fin (1 # 10000000000)));
      [reflexivity|reflexivity|discriminate].
  - apply (zero_denominator_falls_back
             tiny_prior_series (ymd2ord 2024 3 30) (Fin 5) (Fin 0));
      [reflexivity|reflexivity|reflexivity|discriminate].
Defined.

(** ** Normalization *)

Lemma to_datetime_dropna_parsable (s : DataFrame) :
  to_datetime_dropna (drop_unparsable s) = to_datetime_dropna s.
Proof.
  unfold drop_unparsable, to_datetime_dropna, parsable.
  induction s as [|r s IH]; simpl; [reflexivity|].
  destruct (raw_date r) eqn:E; simpl; rewrite ?E; simpl; rewrite IH;
    reflexivity.
Qed.

Lemma to_datetime_dropna_nil (s : DataFrame) :
  drop_unparsable s = [] -> to_datetime_dropna s = [].
Proof.
  intro H. rewrite <- to_datetime_dropna_parsable, H. reflexivity.
Qed.

Ltac unfold_frames :=
  unfold Projector.compute_dynamic_month_projection,
    Projector.chart_df, Projector.actual_daily, Projector.forecast_daily,
    Projector.ci_low, Projector.ci_high, Projector.forecast_std,
    Projector.residual_std, Projector.residuals, Projector.baseline_col,
    Projector.projected_total, Projector.remaining_projection,
    Projector.future_df, Projector.pred, Projector.overall_avg,
    Projector.weekday_avg, Projector.hist_recent, Projector.hist_recent0,
    Projector.factors, Projector.mom_growth, Projector.prev_month_mtd,
    Projector.recent_growth, Projector.prior14, Projector.recent14,
    Projector.mtd_actual, Projector.hist, Projector.current, Projector.ts,
    Projector.ts0.

Lemma projector_drop_unparsable (s : DataFrame) (d : date) (a : option dict) :
  Projector.compute_dynamic_month_projection s d a
  = Projector.compute_dynamic_month_projection (drop_unparsable s) d a.
Proof.
  destruct (drop_unparsable s) as [|r0 s0] eqn:E.
  - rewrite (projector_none_without_rows s d a); [reflexivity|].
    unfold Projector.ts, Projector.ts0.
    rewrite (to_datetime_dropna_nil s E). reflexivity.
  - assert (Hs : empty s = false).
    { destruct s; [discriminate E|reflexivity]. }
    rewrite <- E. unfold_frames.
    rewrite !to_datetime_dropna_parsable. rewrite Hs, E. reflexivity.
Qed.

Lemma backtester_drop_unparsable
      (s : DataFrame) (day : Z) (cms : date) (a : option dict) :
  Backtester.backtest_projection_mape_with_assumptions s day cms a
  = Backtester.backtest_projection_mape_with_assumptions
      (drop_unparsable s) day cms a.
Proof.
  unfold Backtester.backtest_projection_mape_with_assumptions.
  assert (Hts : Backtester.ts (drop_unparsable s) cms = Backtester.ts s cms).
  { unfold Backtester.ts, Backtester.ts0.
    rewrite to_datetime_dropna_parsable. reflexivity. }
  assert (Hloop : forall ms rows,
             Backtester.loop (drop_unparsable s) day cms a ms rows
             = Backtester.loop s day cms a ms rows).
  { induction ms as [|m ms IH]; intro rows; simpl; [reflexivity|].
    replace (Backtester.turn (drop_unparsable s) day cms a rows m)
      with (Backtester.turn s day cms a rows m)
      by (unfold Backtester.turn; rewrite Hts; reflexivity).
    destruct (Backtester.turn s day cms a rows m); simpl;
      [apply IH|reflexivity]. }
  unfold Backtester.months. rewrite Hloop, Hts.
  destruct (drop_unparsable s) as [|r0 s0] eqn:E.
  - assert (Hnil : Backtester.ts s cms = []).
    { unfold Backtester.ts, Backtester.ts0.
      rewrite (to_datetime_dropna_nil s E). reflexivity. }
    rewrite Hnil. simpl. destruct (empty s); reflexivity.
  - destruct s; [discriminate E|reflexivity].
Qed.

Lemma significance_drop_unparsable
      (erf : R -> R) (s : DataFrame) (d : date) (a : option dict) :
  Significance.growth_significance erf s d a
  = Significance.growth_significance erf (drop_unparsable s) d a.
Proof.
  unfold Significance.growth_significance, Significance.se,
    Significance.mean1, Significance.mean2, Significance.mean1_raw,
    Significance.std1, Significance.std2, Significance.n1, Significance.n2,
    Significance.baseline, Significance.current, Significance.ts.
  rewrite !to_datetime_dropna_parsable.
  destruct (drop_unparsable s) as [|r0 s0] eqn:E.
  - rewrite (to_datetime_dropna_nil s E). simpl.
    destruct (empty s); reflexivity.
  - destruct s; [discriminate E|reflexivity].
Qed.

(** C8, as stated, fails for revenue values: a row whose revenue is not a
    number stays in the frame and counts as a data point.  Here it is the
    seventh row of the preceding 14-day window, which makes the recent-trend
    signal qualify: the growth factor is 1.6 with the row and 1 without it. *)
Lemma non_numeric_revenue_is_kept :
  exists r1 r2 g1 g2,
    Projector.compute_dynamic_month_projection
      nan_row_series (ymd2ord 2024 3 30) None = Ok (Some r1)
    /\ Projector.compute_dynamic_month_projection
         (drop_non_numeric nan_row_series) (ymd2ord 2024 3 30) None
       = Ok (Some r2)
    /\ growth_factor r1 = Fin g1 /\ g1 == 1.6
    /\ growth_factor r2 = Fin g2 /\ g2 == 1.
Proof.
  eexists. eexists. eexists. eexists.
  split; [lazy; reflexivity|].
  split; [lazy; reflexivity|].
  split; [reflexivity|]. split; [reflexivity|].
  split; reflexivity.
Qed.

(** C8 (amended): rows whose date does not parse are dropped.  Each of the
    three functions returns on a frame what it returns on the frame without
    those rows, and [None] when no other row is left.  (Rows whose revenue is
    not a number are not dropped.) *)
Theorem unparsable_dates_are_dropped
        (erf : R -> R) (s : DataFrame) (d : date) (a : option dict)
        (as_of_day : Z) (current_month_start : date) :
  Projector.compute_dynamic_month_projection s d a
  = Projector.compute_dynamic_month_projection (drop_unparsable s) d a
  /\ Backtester.backtest_projection_mape_with_assumptions
       s as_of_day current_month_start a
     = Backtester.backtest_projection_mape_with_assumptions
         (drop_unparsable s) as_of_day current_month_start a
  /\ Significance.growth_significance erf s d a
     = Significance.growth_significance erf (drop_unparsable s) d a
  /\ (drop_unparsable s = [] ->
      Projector.compute_dynamic_month_projection s d a = Ok None
      /\ Backtester.backtest_projection_mape_with_assumptions
           s as_of_day current_month_start a = Ok None
      /\ Significance.growth_significance erf s d a = Ok None).
Proof.
  split; [apply projector_drop_unparsable|].
  split; [apply backtester_drop_unparsable|].
  split; [apply significance_drop_unparsable|].
  intro E.
  rewrite (projector_drop_unparsable s d a).
  rewrite (backtester_drop_unparsable s as_of_day current_month_start a).
  rewrite (significance_drop_unparsable erf s d a).
  rewrite E. repeat split.
Qed.

Lemma unparsable_dates_are_dropped_witness :
  Projector.compute_dynamic_month_projection
    garbage_dates (ymd2ord 2024 3 10) None = Ok None.
Proof.
  apply (unparsable_dates_are_dropped
           sample_erf garbage_dates (ymd2ord 2024 3 10) None 10
           (ymd2ord 2024 3 1)).
  reflexivity.
Defined.

(** ** Rows that survive normalization *)

Lemma insert_by_date_perm (r : Row) (l : list Row) :
  Permutation (insert_by_date r l) (r :: l).
Proof.
  induction l as [|x l IH]; simpl; [apply Permutation_refl|].
  destruct (row_date r <? row_date x)%Z; [apply Permutation_refl|].
  apply perm_trans with (x :: r :: l).
  - apply perm_skip. exact IH.
  - apply perm_swap.
Qed.

Lemma sort_values_perm (l : list Row) : Permutation (sort_values l) l.
Proof.
  induction l as [|r l IH]; simpl; [apply perm_nil|].
  apply perm_trans with (r :: sort_values l).
  - apply insert_by_date_perm.
  - apply perm_skip. exact IH.
Qed.

Lemma in_insert_by_date (y r : Row) (l : list Row) :
  In y (insert_by_date r l) -> y = r \/ In y l.
Proof.
  intro H.
  apply (Permutation_in y (insert_by_date_perm r l)) in H.
  destruct H as [<-|H]; [left; reflexivity|right; exact H].
Qed.

Lemma insert_by_date_sorted (r : Row) (l : list Row) :
  sorted_by_date l -> sorted_by_date (insert_by_date r l).
Proof.
  induction l as [|x l IH]; simpl.
  - intros _. split; [intros y []|exact I].
  - intros [Hx Hl]. destruct (Z.ltb_spec (row_date r) (row_date x)) as [H|H].
    + simpl. split; [|split; assumption].
      intros y [<-|Hy]; [lia|]. specialize (Hx y Hy). lia.
    + simpl. split; [|apply IH, Hl].
      intros y Hy. apply in_insert_by_date in Hy.
      destruct Hy as [->|Hy]; [exact H|apply Hx, Hy].
Qed.

Lemma sort_values_sorted (l : list Row) : sorted_by_date (sort_values l).
Proof.
  induction l as [|r l IH]; simpl; [exact I|].
  apply insert_by_date_sorted, IH.
Qed.


Section RowsOf.

Variable P : F -> Prop.
Variable s : DataFrame.
Hypothesis HP : forall raw, In raw s -> P (raw_total raw).






End RowsOf.


(** ** Sums and means of numbers *)


Lemma Qsum_nonneg (l : list Q) :
  (forall q, In q l -> 0 <= q) -> 0 <= Qsum l.
Proof.
  induction l as [|x l IH]; intro H; simpl; [qlra|].
  assert (0 <= x) by (apply H; left; reflexivity).
  assert (0 <= Qsum l) by (apply IH; intros q Hq; apply H; right; exact Hq).
  qlra.
Qed.

Lemma in_notna (l : list F) (q : Q) : In q (notna l) <-> In (Fin q) l.
Proof.
  unfold notna. rewrite in_flat_map. split.
  - intros (x & Hx & Hq). destruct x as [q'|]; simpl in Hq; [|contradiction].
    destruct Hq as [<-|[]]. exact Hx.
  - intro H. exists (Fin q). split; [exact H|]. left. reflexivity.
Qed.

Lemma series_sum_nonneg (l : list F) :
  (forall x, In x l -> fin_nonneg x) -> fin_nonneg (series_sum l).
Proof.
  intro H. unfold series_sum. eexists. split; [reflexivity|].
  apply Qsum_nonneg. intros q Hq. apply in_notna in Hq.
  destruct (H _ Hq) as (q' & E & Hq'). inversion E. subst q'. exact Hq'.
Qed.


Lemma py_max_zero_left (x : F) : fin_nonneg (py_max (Fin 0) x).
Proof.
  unfold py_max, max_by. destruct x as [q|]; simpl.
  - destruct (Qlt_bool 0 q) eqn:E.
    + apply Qlt_bool_iff in E. exists q. split; [reflexivity|qlra].
    + exists 0. split; [reflexivity|qlra].
  - exists 0. split; [reflexivity|qlra].
Qed.

(** ** The projection and its confidence band *)

Lemma pred_nonneg (s : DataFrame) (d : date) (a : option dict) (g : F)
      (day : date) :
  fin_nonneg (Projector.pred s d a g day).
Proof. unfold Projector.pred. apply py_max_zero_left. Qed.

Lemma remaining_projection_nonneg
      (s : DataFrame) (d : date) (a : option dict) (g : F) :
  fin_nonneg (Projector.remaining_projection s d a g).
Proof.
  unfold Projector.remaining_projection.
  destruct (negb _).
  - apply series_sum_nonneg. intros x Hx.
    apply in_map_iff in Hx. destruct Hx as (dp & <- & Hdp).
    unfold Projector.future_df in Hdp. apply in_map_iff in Hdp.
    destruct Hdp as (day & <- & _). simpl. apply pred_nonneg.
  - exists 0. split; [reflexivity|qlra].
Qed.



Section NumericSeries.

Variable s : DataFrame.
Variable d : date.
Hypothesis Hnum : forall raw, In raw s -> finite (raw_total raw).
Hypothesis Hhist : empty (Projector.hist s d) = false.






End NumericSeries.









(** ** Flat series *)


Lemma of_nat_pos (n : nat) : (0 < n)%nat -> 0 < of_nat n.
Proof.
  intro H. unfold of_nat. replace 0 with (inject_Z 0) by reflexivity.
  rewrite <- Zlt_Qlt. lia.
Qed.



Section Constant.

Variable v : Q.






End Constant.



Lemma is_value_eq (v w : Q) (x : F) : v == w -> is_value v x -> is_value w x.
Proof.
  intros E (q & -> & Hq). exists q. split; [reflexivity|].
  rewrite Hq. exact E.
Qed.


Section Flat.

Variable s : DataFrame.
Variable d : date.
Variable a : option dict.
Variable v : Q.

Hypothesis Hflat : forall raw, In raw s -> raw_total raw = Fin v.
Hypothesis Hv : 0 <= v.







Hypothesis Hhist : empty (Projector.hist s d) = false.







End Flat.

Lemma date_range_length (lo hi : date) :
  len (date_range lo hi) = Z.max 0 (hi - lo + 1).
Proof.
  unfold len, date_range. rewrite length_map, length_seq. lia.
Qed.

Lemma month_end_start (d : date) :
  (Projector.month_end d
   = Projector.month_start d + Projector.month_days d - 1)%Z.
Proof.
  unfold Projector.month_end, Projector.month_start, ymd2ord. lia.
Qed.






(** ** The z-test *)


Lemma Req_bool_true (x y : R) : Req_bool x y = true -> x = y.
Proof.
  unfold Req_bool. destruct (Req_dec_T x y); [auto|discriminate].
Qed.











Section ZTest.

Variable erf : R -> R.
Variable s : DataFrame.
Variable d : date.
Variable a : option dict.

Hypothesis Hnum : forall raw, In raw s -> finite (raw_total raw).



End ZTest.








(** ** The backtester against the specification *)

Lemma projected_total_finite
      (s : DataFrame) (d : date) (a : option dict) (p : Projection) :
  Projector.compute_dynamic_month_projection s d a = Ok (Some p) ->
  finite (projected_total p).
Proof.
  intro H. apply projection_inv in H.
  destruct H as (rg & mg & g0 & ch & _ & _ & _ & _ & _ & _ & _ & _ & ->).
  simpl. unfold Projector.projected_total, Projector.mtd_actual, series_sum.
  destruct (remaining_projection_nonneg
              s d a (Projector.growth_factor a (Projector.growth_factor1 a g0)))
    as (q & -> & _).
  eexists. reflexivity.
Qed.

Lemma insert_period_in (p q : period) (l : list period) :
  In q (Backtester.insert_period p l) -> q = p \/ In q l.
Proof.
  induction l as [|x l IH]; simpl.
  - intros [<-|[]]. left. reflexivity.
  - destruct (_ <? _)%Z; simpl.
    + intros [<-|H]; [left; reflexivity|right; exact H].
    + intros [<-|H]; [right; left; reflexivity|].
      destruct (IH H) as [->|H']; [left; reflexivity|right; right; exact H'].
Qed.

Lemma sorted_in (q : period) (l : list period) :
  In q (Backtester.sorted l) -> In q l.
Proof.
  induction l as [|p l IH]; simpl; [auto|].
  intro H. apply insert_period_in in H.
  destruct H as [->|H]; [left; reflexivity|right; apply IH, H].
Qed.

Lemma unique_in (q : period) (l : list period) :
  In q (Backtester.unique l) -> In q l.
Proof.
  induction l as [|p l IH]; simpl; [auto|].
  intros [<-|H]; [left; reflexivity|].
  apply filter_In in H. right. apply IH, H.
Qed.

(** A month of the backtest is the month of a row of the history. *)
Lemma months_in (s : DataFrame) (cms : date) (m : period) :
  In m (Backtester.months s cms) ->
  exists r, In r (Backtester.ts s cms) /\ m = to_period (row_date r).
Proof.
  unfold Backtester.months. intro H.
  apply sorted_in, unique_in, in_map_iff in H.
  destruct H as (r & <- & Hr). exists r. split; [exact Hr|reflexivity].
Qed.

Lemma ts_before (s : DataFrame) (cms : date) (r : Row) :
  In r (Backtester.ts s cms) -> (row_date r < cms)%Z.
Proof.
  unfold Backtester.ts. intro H. apply filter_In in H.
  destruct H as [_ H]. apply Z.ltb_lt in H. exact H.
Qed.

(** The history of the specification is the frame the code loops over. *)
Lemma history_spec (s : DataFrame) (c : date) :
  MapeSpec.history s c = Backtester.ts s c.
Proof. reflexivity. Qed.

Section Replay.

Variable s : DataFrame.
Variable as_of_day : Z.
Variable d0 : date.
Variable a : option dict.

Lemma month_of_history (m : period) :
  In m (Backtester.months s (cms d0)) ->
  year (period_start m) = fst m
  /\ month (period_start m) = snd m
  /\ (period_end m < (cms d0))%Z
  /\ (period_end m = period_start m + days_in_month (fst m) (snd m) - 1)%Z.
Proof.
  intro H. apply months_in in H. destruct H as (r & Hr & ->).
  apply ts_before in Hr.
  destruct (month_start_spec (row_date r)) as [_ E].
  unfold Projector.month_start in E.
  set (d := row_date r) in *.
  assert (Ey : year (ymd2ord (year d) (month d) 1) = year d)
    by (unfold year at 1; rewrite E; reflexivity).
  assert (Em : month (ymd2ord (year d) (month d) 1) = month d)
    by (unfold month at 1; rewrite E; reflexivity).
  unfold period_start, period_end, to_period. cbn [fst snd].
  split; [exact Ey|]. split; [exact Em|].
  split; [exact (month_ends_before d d0 Hr)|].
  unfold ymd2ord. lia.
Qed.

(** One turn of the loop appends the detail row of the month when the month
    qualifies, and nothing otherwise. *)
Lemma turn_score (rows : list BacktestRow) (m : period) :
  In m (Backtester.months s (cms d0)) ->
  Backtester.turn s as_of_day (cms d0) a rows m
  = (o <- MapeSpec.score s as_of_day (cms d0) a m ;;
     Ok (match o with
         | Some x => (rows ++ [MapeSpec.detail x])%list
         | None => rows
         end))%res.
Proof.
  intro Hm. destruct (month_of_history m Hm) as (Ey & Em & Hend & Elen).
  unfold Backtester.turn, MapeSpec.score, MapeSpec.prediction,
    MapeSpec.visible, MapeSpec.cutoff_date, MapeSpec.cutoff_day, monthrange.
  change (MapeSpec.history s (cms d0)) with (Backtester.ts s (cms d0)).
  rewrite Ey, Em.
  set (as_of := (period_start m
                 + (Z.min as_of_day (days_in_month (fst m) (snd m)) - 1))%Z).
  assert (G : ((cms d0) <=? as_of)%Z = false).
  { apply Z.leb_gt. unfold as_of. lia. }
  rewrite G.
  destruct (Projector.compute_dynamic_month_projection _ as_of a)
    as [[p|]|e] eqn:E; cbn [bind]; [|reflexivity|reflexivity].
  destruct (projected_total_finite _ _ _ _ E) as [pt Ept].
  change (series_sum
            (totals (between (period_start m) (period_end m)
                             (Backtester.ts s (cms d0)))))
    with (Fin (MapeSpec.actual_total s (cms d0) m) : F).
  unfold fle. cbn [cmp2].
  destruct (Qle_bool (MapeSpec.actual_total s (cms d0) m) 0) eqn:L;
    [reflexivity|].
  assert (N : Qeq_bool (MapeSpec.actual_total s (cms d0) m) 0 = false).
  { apply Qeq_bool_false. intro E0. rewrite E0 in L. discriminate L. }
  unfold fdiv, feq. cbn [cmp2]. rewrite N. cbn [bind].
  rewrite Ept. reflexivity.
Qed.

Lemma loop_qualifying (months : list period) :
  (forall m, In m months -> In m (Backtester.months s (cms d0))) ->
  forall rows,
    Backtester.loop s as_of_day (cms d0) a months rows
    = (q <- MapeSpec.qualifying s as_of_day (cms d0) a months ;;
       Ok (rows ++ map MapeSpec.detail q)%list)%res.
Proof.
  induction months as [|m months IH]; intros Hin rows.
  - simpl. rewrite app_nil_r. reflexivity.
  - cbn [Backtester.loop MapeSpec.qualifying].
    rewrite (turn_score rows m (Hin m (or_introl eq_refl))).
    destruct (MapeSpec.score s as_of_day (cms d0) a m) as [o|e]; cbn [bind];
      [|reflexivity].
    rewrite IH by (intros m' Hm'; apply Hin; right; exact Hm').
    destruct (MapeSpec.qualifying s as_of_day (cms d0) a months) as [q|e];
      cbn [bind]; [|reflexivity].
    destruct o as [x|]; [|reflexivity].
    cbn [map]. rewrite <- app_assoc. reflexivity.
Qed.

End Replay.

Lemma insert_row_perm (r : BacktestRow) (l : list BacktestRow) :
  Permutation (Backtester.insert_row r l) (r :: l).
Proof.
  induction l as [|x l IH]; simpl; [apply Permutation_refl|].
  destruct (_ <? _)%Z; [apply Permutation_refl|].
  apply perm_trans with (x :: r :: l).
  - apply perm_skip. exact IH.
  - apply perm_swap.
Qed.

Lemma sort_by_month_perm (l : list BacktestRow) :
  Permutation (Backtester.sort_by_month l) l.
Proof.
  induction l as [|r l IH]; simpl; [apply perm_nil|].
  apply perm_trans with (r :: Backtester.sort_by_month l).
  - apply insert_row_perm.
  - apply perm_skip. exact IH.
Qed.

Lemma Qsum_perm (l l' : list Q) : Permutation l l' -> Qsum l == Qsum l'.
Proof.
  induction 1 as [|x l l' _ IH|x y l|l l' l'' _ IH1 _ IH2]; simpl.
  - reflexivity.
  - rewrite IH. reflexivity.
  - ring.
  - rewrite IH1. exact IH2.
Qed.

Lemma notna_perm (l l' : list F) :
  Permutation l l' -> Permutation (notna l) (notna l').
Proof. unfold notna. apply Permutation_flat_map. Qed.

Lemma notna_ape_detail (q : list MapeSpec.Scored) :
  notna (map ape (map MapeSpec.detail q)) = map MapeSpec.abs_pct_error q.
Proof.
  induction q as [|x q IH]; simpl; [reflexivity|]. rewrite IH. reflexivity.
Qed.

Lemma abs_pct_error_nonneg (x : MapeSpec.Scored) :
  0 < MapeSpec.scored_actual x -> 0 <= MapeSpec.abs_pct_error x.
Proof.
  intro H. unfold MapeSpec.abs_pct_error.
  apply Qle_shift_div_l; [exact H|]. rewrite Qmult_0_l. apply Qabs_nonneg.
Qed.

(** Every qualifying month has a positive actual total. *)
Lemma qualifying_actual_pos
      (s : DataFrame) (day : Z) (c : date) (a : option dict)
      (months : list period) :
  forall q, MapeSpec.qualifying s day c a months = Ok q ->
  forall x, In x q -> 0 < MapeSpec.scored_actual x.
Proof.
  induction months as [|m months IH]; intros q H x Hx.
  - simpl in H. inversion H. subst q. contradiction.
  - cbn [MapeSpec.qualifying] in H.
    apply bind_ok_inv in H. destruct H as (o & Ho & H).
    apply bind_ok_inv in H. destruct H as (rest & Hrest & H).
    inversion H. subst q. clear H.
    assert (Hr : In x rest -> 0 < MapeSpec.scored_actual x)
      by (apply IH; exact Hrest).
    destruct o as [y|]; [|exact (Hr Hx)].
    destruct Hx as [<-|Hx]; [|exact (Hr Hx)].
    unfold MapeSpec.score in Ho.
    apply bind_ok_inv in Ho. destruct Ho as (pred & _ & Ho).
    destruct pred as [p|]; [|discriminate Ho].
    destruct (Qle_bool (MapeSpec.actual_total s c m) 0) eqn:L;
      [discriminate Ho|].
    inversion Ho. simpl.
    apply Qnot_le_lt. intro Hle. apply Qle_bool_iff in Hle. congruence.
Qed.

(** ** The historical months *)

Section HistoricalMonths.

Local Open Scope Z_scope.

Lemma period_eqb_eq (p q : period) : period_eqb p q = true <-> p = q.
Proof.
  destruct p as [y m], q as [y' m']. unfold period_eqb. cbn [fst snd].
  rewrite andb_true_iff, !Z.eqb_eq. split.
  - intros [-> ->]. reflexivity.
  - intro H. injection H as -> ->. split; reflexivity.
Qed.

Lemma unique_NoDup (l : list period) : NoDup (Backtester.unique l).
Proof.
  induction l as [|p l IH]; simpl; [constructor|].
  constructor.
  - intro H. apply filter_In in H. destruct H as [_ H].
    apply negb_true_iff in H.
    assert (E : period_eqb p p = true) by (apply period_eqb_eq; reflexivity).
    congruence.
  - apply NoDup_filter, IH.
Qed.

Lemma insert_period_perm (p : period) (l : list period) :
  Permutation (Backtester.insert_period p l) (p :: l).
Proof.
  induction l as [|x l IH]; simpl; [apply Permutation_refl|].
  destruct (_ <? _); [apply Permutation_refl|].
  apply perm_trans with (x :: p :: l).
  - apply perm_skip. exact IH.
  - apply perm_swap.
Qed.

Lemma sorted_perm (l : list period) : Permutation (Backtester.sorted l) l.
Proof.
  induction l as [|p l IH]; simpl; [apply perm_nil|].
  apply perm_trans with (p :: Backtester.sorted l).
  - apply insert_period_perm.
  - apply perm_skip. exact IH.
Qed.

(** A later date is in the same month or in a later one. *)
Lemma to_period_mono (d d' : date) :
  d <= d' -> period_key (to_period d) <= period_key (to_period d').
Proof.
  intro H.
  destruct (date_valid d) as (Vm & Vd & E).
  destruct (date_valid d') as (Vm' & Vd' & E').
  unfold period_key, to_period. cbn [fst snd].
  destruct (Z_lt_le_dec (year d' * 12 + month d') (year d * 12 + month d))
    as [L|L]; [exfalso|exact L].
  destruct (Z.lt_trichotomy (year d') (year d)) as [Y|[Y|Y]].
  - pose proof (ymd2ord_year_lt _ _ _ _ _ _ Vm' Vd' Vm Vd Y). lia.
  - assert (M : month d' < month d) by lia.
    pose proof (days_before_month_mono (year d) (month d') (month d) (day d')).
    rewrite Y in *. unfold ymd2ord in *. lia.
  - lia.
Qed.

Lemma valid_period_key_inj (d d' : date) :
  period_key (to_period d) = period_key (to_period d') ->
  to_period d = to_period d'.
Proof.
  destruct (date_valid d) as (Vm & _ & _).
  destruct (date_valid d') as (Vm' & _ & _).
  unfold period_key, to_period. cbn [fst snd]. intro E.
  assert (year d = year d') by lia.
  assert (month d = month d') by lia.
  congruence.
Qed.

Lemma in_months_of (l : list Row) (m : period) :
  In m (MapeSpec.months_of l)
  <-> exists r, In r l /\ to_period (row_date r) = m.
Proof.
  induction l as [|r l IH].
  - simpl. split; [intros []|intros (r & [] & _)].
  - cbn [MapeSpec.months_of]. cbv zeta.
    assert (Hstep : In m (to_period (row_date r) :: MapeSpec.months_of l)
                    <-> exists r0, In r0 (r :: l)
                                   /\ to_period (row_date r0) = m).
    { split.
      - intros [<-|H]; [exists r; split; [left|]; reflexivity|].
        apply IH in H. destruct H as (r0 & Hr0 & E).
        exists r0. split; [right; exact Hr0|exact E].
      - intros (r0 & [->|Hr0] & E); [left; exact E|].
        right. apply IH. exists r0. split; assumption. }
    rewrite <- Hstep.
    destruct (MapeSpec.months_of l) as [|m' ms]; [reflexivity|].
    destruct (period_eqb (to_period (row_date r)) m') eqn:E; [|reflexivity].
    apply period_eqb_eq in E. rewrite E. simpl. tauto.
Qed.

Lemma months_of_increasing (l : list Row) :
  sorted_by_date l ->
  increasing (map period_key (MapeSpec.months_of l)).
Proof.
  induction l as [|r l IH]; intro Hs; [exact I|].
  cbn [sorted_by_date] in Hs. destruct Hs as [Hr Hs].
  specialize (IH Hs). cbn [MapeSpec.months_of]. cbv zeta.
  pose proof (in_months_of l) as Hin.
  destruct (MapeSpec.months_of l) as [|m' ms]; [simpl; split; [intros y []|exact I]|].
  destruct (period_eqb (to_period (row_date r)) m') eqn:E; [exact IH|].
  cbn [map increasing] in IH |- *. destruct IH as [Hm' Hms].
  split; [|split; assumption].
  assert (Hhead : period_key (to_period (row_date r)) < period_key m').
  { destruct (proj1 (Hin m') (or_introl eq_refl)) as (r' & Hr' & E').
    pose proof (to_period_mono _ _ (Hr r' Hr')) as Hle. rewrite E' in Hle.
    destruct (Z.eq_dec (period_key (to_period (row_date r))) (period_key m'))
      as [Ek|Nk]; [exfalso|lia].
    rewrite <- E' in Ek. apply valid_period_key_inj in Ek.
    rewrite E' in Ek. apply period_eqb_eq in Ek. congruence. }
  intros y [<-|Hy]; [exact Hhead|]. specialize (Hm' y Hy). lia.
Qed.

Lemma in_unique (q : period) (l : list period) :
  In q l -> In q (Backtester.unique l).
Proof.
  induction l as [|p l IH]; [intros []|].
  intros [->|H]; [left; reflexivity|].
  cbn [Backtester.unique].
  destruct (period_eqb p q) eqn:E.
  - apply period_eqb_eq in E. left. exact E.
  - right. apply filter_In. split; [apply IH, H|].
    rewrite E. reflexivity.
Qed.

Lemma in_months (s : DataFrame) (c : date) (m : period) :
  In m (Backtester.months s c)
  <-> exists r, In r (Backtester.ts s c) /\ to_period (row_date r) = m.
Proof.
  split.
  - intro H. apply months_in in H. destruct H as (r & Hr & ->).
    exists r. split; [exact Hr|reflexivity].
  - intros (r & Hr & <-). unfold Backtester.months.
    apply (Permutation_in _ (Permutation_sym (sorted_perm _))).
    apply in_unique, in_map_iff. exists r. split; [reflexivity|exact Hr].
Qed.

Lemma insert_period_increasing (p : period) (l : list period) :
  (forall y, In y l -> period_key y <> period_key p) ->
  increasing (map period_key l) ->
  increasing (map period_key (Backtester.insert_period p l)).
Proof.
  induction l as [|x l IH]; intros Hne Hl.
  - simpl. split; [intros y []|exact I].
  - cbn [map increasing] in Hl. destruct Hl as [Hx Hl].
    cbn [Backtester.insert_period].
    destruct (Z.ltb_spec (period_key p) (period_key x)) as [L|L].
    + cbn [map increasing]. split; [|split; assumption].
      intros y [<-|Hy]; [exact L|]. specialize (Hx y Hy). lia.
    + cbn [map increasing]. split.
      * intros y Hy. apply in_map_iff in Hy. destruct Hy as (z & <- & Hz).
        apply insert_period_in in Hz. destruct Hz as [->|Hz].
        -- specialize (Hne x (or_introl eq_refl)). lia.
        -- apply Hx. apply in_map. exact Hz.
      * apply IH; [|exact Hl].
        intros y Hy. apply Hne. right. exact Hy.
Qed.

Lemma sorted_increasing (l : list period) :
  NoDup (map period_key l) ->
  increasing (map period_key (Backtester.sorted l)).
Proof.
  induction l as [|p l IH]; intro Hnd; [exact I|].
  cbn [map] in Hnd. inversion Hnd as [|? ? Hp Hnd']. subst.
  cbn [Backtester.sorted fold_right].
  apply insert_period_increasing; [|apply IH, Hnd'].
  intros y Hy E. apply Hp. apply sorted_in in Hy.
  rewrite <- E. apply in_map. exact Hy.
Qed.

Lemma months_increasing (s : DataFrame) (c : date) :
  increasing (map period_key (Backtester.months s c)).
Proof.
  unfold Backtester.months. apply sorted_increasing.
  apply Finite.Injective_map_NoDup_in; [|apply unique_NoDup].
  intros p q Hp Hq E.
  apply unique_in, in_map_iff in Hp. destruct Hp as (r & <- & _).
  apply unique_in, in_map_iff in Hq. destruct Hq as (r' & <- & _).
  apply valid_period_key_inj. exact E.
Qed.

(** Two lists of months in increasing order that hold the same months are
    the same list. *)
Lemma increasing_unique (l : list period) :
  forall l',
    increasing (map period_key l) -> increasing (map period_key l') ->
    (forall m, In m l <-> In m l') -> l = l'.
Proof.
  induction l as [|x t IH]; intros l' Hl Hl' Hin.
  - destruct l' as [|y t']; [reflexivity|].
    destruct (proj2 (Hin y) (or_introl eq_refl)).
  - destruct l' as [|y t'].
    + destruct (proj1 (Hin x) (or_introl eq_refl)).
    + cbn [map increasing] in Hl, Hl'.
      destruct Hl as [Hx Ht]. destruct Hl' as [Hy Ht'].
      assert (Exy : x = y).
      { destruct (proj1 (Hin x) (or_introl eq_refl)) as [E|Ix];
          [symmetry; exact E|].
        destruct (proj2 (Hin y) (or_introl eq_refl)) as [E|Iy]; [exact E|].
        specialize (Hx (period_key y) (in_map period_key _ _ Iy)).
        specialize (Hy (period_key x) (in_map period_key _ _ Ix)). lia. }
      subst y. f_equal. apply IH; try assumption.
      intro m. split; intro Hm.
      * destruct (proj1 (Hin m) (or_intror Hm)) as [<-|H]; [|exact H].
        specialize (Hx (period_key x) (in_map period_key _ _ Hm)). lia.
      * destruct (proj2 (Hin m) (or_intror Hm)) as [<-|H]; [|exact H].
        specialize (Hy (period_key x) (in_map period_key _ _ Hm)). lia.
Qed.

Lemma filter_sorted_by_date (p : Row -> bool) (l : list Row) :
  sorted_by_date l -> sorted_by_date (filter p l).
Proof.
  induction l as [|x l IH]; intro H; [exact I|].
  cbn [sorted_by_date] in H. destruct H as [Hx Hl]. cbn [filter].
  destruct (p x); [|apply IH, Hl].
  cbn [sorted_by_date]. split; [|apply IH, Hl].
  intros y Hy. apply filter_In in Hy. apply Hx, Hy.
Qed.

(** The months the code replays are the historical months. *)
Lemma historical_months_spec (s : DataFrame) (c : date) :
  Backtester.months s c = MapeSpec.historical_months s c.
Proof.
  apply increasing_unique.
  - apply months_increasing.
  - apply months_of_increasing.
    unfold MapeSpec.history, MapeSpec.series.
    apply filter_sorted_by_date, sort_values_sorted.
  - intro m. rewrite in_months. unfold MapeSpec.historical_months.
    rewrite in_months_of. reflexivity.
Qed.

End HistoricalMonths.

(** C7: the backtester against the specification.  With the current month
    start the caller passes (the first day of a month), each historical
    month (each month that holds a row of the normalized series before
    it, in chronological order) is replayed with the cutoff day
    [min(as_of_day, days_in_that_month)] on the data visible up to that
    cutoff; months where the projector returns [None] and months whose actual
    total is not positive are skipped; the result is [None] when no month
    qualifies, and otherwise holds one detail row for each qualifying month
    and the mean of their absolute percentage errors, which is not negative.
    An exception of the projector is passed on. *)
Theorem backtest_mape_is_mean_error
        (s : DataFrame) (as_of_day : Z) (d0 : date) (a : option dict) :
  match
    MapeSpec.qualifying s as_of_day (cms d0) a
      (MapeSpec.historical_months s (cms d0))
  with
  | Raise e =>
      Backtester.backtest_projection_mape_with_assumptions
        s as_of_day (cms d0) a = Raise e
  | Ok [] =>
      Backtester.backtest_projection_mape_with_assumptions
        s as_of_day (cms d0) a = Ok None
  | Ok (x :: l) =>
      exists b q,
        Backtester.backtest_projection_mape_with_assumptions
          s as_of_day (cms d0) a = Ok (Some b)
        /\ Permutation (details b) (map MapeSpec.detail (x :: l))
        /\ count b = len (x :: l)
        /\ mape b = Fin q
        /\ q == MapeSpec.mape_of (x :: l)
        /\ 0 <= q
  end.
Proof.
  rewrite <- (historical_months_spec s (cms d0)).
  unfold Backtester.backtest_projection_mape_with_assumptions.
  destruct (empty s) eqn:Es.
  { apply empty_nil in Es. subst s. reflexivity. }
  destruct (empty (Backtester.ts s (cms d0))) eqn:Et.
  { apply empty_nil in Et. unfold Backtester.months. rewrite Et.
    reflexivity. }
  rewrite (loop_qualifying s as_of_day d0 a (Backtester.months s (cms d0)))
    by auto.
  destruct (MapeSpec.qualifying s as_of_day (cms d0) a
              (Backtester.months s (cms d0))) as [q|e] eqn:Eq;
    cbn [bind]; [|reflexivity].
  destruct q as [|x l]; [reflexivity|].
  cbn [app]. set (rows := map MapeSpec.detail (x :: l)).
  assert (Hne : empty rows = false) by reflexivity.
  rewrite Hne.
  pose proof (sort_by_month_perm rows) as P.
  assert (Hn : notna (map ape (Backtester.sort_by_month rows)) <> []).
  { intro E.
    pose proof (Permutation_length
                  (notna_perm _ _ (Permutation_map ape P))) as L.
    rewrite E in L. unfold rows in L. rewrite notna_ape_detail in L.
    simpl in L. discriminate L. }
  assert (Hs : Permutation (notna (map ape (Backtester.sort_by_month rows)))
                           (map MapeSpec.abs_pct_error (x :: l))).
  { rewrite <- notna_ape_detail. apply notna_perm, Permutation_map, P. }
  eexists. exists (Qmean (notna (map ape (Backtester.sort_by_month rows)))).
  split; [reflexivity|]. cbn [details count mape].
  split; [exact P|].
  split.
  { unfold len. rewrite (Permutation_length P). unfold rows.
    rewrite length_map. reflexivity. }
  split.
  { unfold series_mean.
    destruct (notna (map ape (Backtester.sort_by_month rows)));
      [contradiction|reflexivity]. }
  assert (Hm : Qmean (notna (map ape (Backtester.sort_by_month rows)))
               == MapeSpec.mape_of (x :: l)).
  { unfold MapeSpec.mape_of, Qmean.
    rewrite (Qsum_perm _ _ Hs), (Permutation_length Hs). reflexivity. }
  split; [exact Hm|].
  rewrite Hm. unfold MapeSpec.mape_of, Qmean.
  apply Qle_shift_div_l; [apply of_nat_pos; simpl; lia|].
  rewrite Qmult_0_l. apply Qsum_nonneg. intros v Hv.
  apply in_map_iff in Hv. destruct Hv as (y & <- & Hy).
  apply abs_pct_error_nonneg.
  exact (qualifying_actual_pos s as_of_day (cms d0) a _ _ Eq y Hy).
Qed.

Example backtest_quarter :
  exists b q,
    Backtester.backtest_projection_mape_with_assumptions
      quarter_series 15 (cms (ymd2ord 2023 4 10)) None = Ok (Some b)
    /\ count b = 2%Z
    /\ map bt_month (details b) = [(2023, 2); (2023, 3)]%Z
    /\ mape b = Fin q
    /\ q == 70 # 11.
Proof.
  eexists. eexists.
  split; [lazy; reflexivity|].
  split; [reflexivity|]. split; [reflexivity|]. split; [reflexivity|].
  vm_compute. reflexivity.
Qed.

(** * Further properties of the code *)
(** ** The month of a projection *)




(** ** The chart of a projection *)

Lemma in_date_range (x lo hi : date) :
  In x (date_range lo hi) <-> (lo <= x <= hi)%Z.
Proof.
  unfold date_range. rewrite in_map_iff. split.
  - intros (k & <- & Hk). apply in_seq in Hk. lia.
  - intro H. exists (Z.to_nat (x - lo)). split; [lia|].
    apply in_seq. lia.
Qed.

Lemma date_range_NoDup (lo hi : date) : NoDup (date_range lo hi).
Proof.
  unfold date_range. apply Finite.Injective_map_NoDup.
  - intros i j H. lia.
  - apply seq_NoDup.
Qed.

Lemma map_seq_from {A} (m : nat) :
  forall (f : nat -> A) (n : nat),
    map f (seq n m) = map (fun k => f (n + k)%nat) (seq 0 m).
Proof.
  induction m as [|m IH]; intros f n; [reflexivity|].
  simpl. f_equal; [f_equal; lia|].
  rewrite (IH f (S n)), (IH (fun k => f (n + k)%nat) 1%nat).
  apply map_ext. intro k. f_equal. lia.
Qed.

Lemma date_range_app (lo mid hi : date) :
  (lo <= mid + 1)%Z -> (mid <= hi)%Z ->
  date_range lo hi = (date_range lo mid ++ date_range (mid + 1)%Z hi)%list.
Proof.
  intros H1 H2. unfold date_range.
  replace (Z.to_nat (hi - lo + 1))
    with (Z.to_nat (mid - lo + 1) + Z.to_nat (hi - (mid + 1) + 1))%nat
    by lia.
  rewrite seq_app, map_app. apply f_equal.
  rewrite (map_seq_from (Z.to_nat (hi - (mid + 1) + 1))
             (fun k => (lo + Z.of_nat k)%Z) (0 + Z.to_nat (mid - lo + 1))).
  apply map_ext. intro k. lia.
Qed.

Lemma combine_map_same {A B C} (f : A -> B) (g : A -> C) (l : list A) :
  combine (combine l (map f l)) (map g l) = map (fun x => (x, f x, g x)) l.
Proof.
  induction l as [|x l IH]; simpl; [reflexivity|]. rewrite IH. reflexivity.
Qed.

Lemma chart_rows (s : DataFrame) (d : date) (a : option dict) (g : F)
      (ch : list ChartRow) :
  Projector.chart_df s d a g = Ok ch ->
  has_duplicates (map row_date (Projector.current s d)) = false
  /\ ch = map (fun x => Build_ChartRow x (actual_on s d x)
                                        (forecast_on s d a g x))
              (Projector.full_month_dates d).
Proof.
  unfold Projector.chart_df, Projector.actual_daily, reindex. intro H.
  destruct (has_duplicates (map row_date (Projector.current s d)));
    [discriminate H|].
  split; [reflexivity|].
  cbn [bind] in H. apply ok_inj in H. subst ch.
  unfold Projector.forecast_daily. rewrite map_map.
  rewrite combine_map_same, map_map.
  unfold actual_on, forecast_on. reflexivity.
Qed.

Lemma find_keyed_in {V} (f : date -> V) (l : list date) (x : date) :
  In x l ->
  find (fun dp => (fst dp =? x)%Z) (map (fun y => (y, f y)) l)
  = Some (x, f x).
Proof.
  induction l as [|y l IH]; [intros []|].
  intro H. cbn [map find fst].
  destruct (Z.eqb_spec y x) as [->|Hne]; [reflexivity|].
  destruct H as [->|H]; [contradiction Hne; reflexivity|apply IH, H].
Qed.

Lemma find_keyed_out {V} (f : date -> V) (l : list date) (x : date) :
  ~ In x l ->
  find (fun dp => (fst dp =? x)%Z) (map (fun y => (y, f y)) l) = None.
Proof.
  induction l as [|y l IH]; [reflexivity|].
  intro H. cbn [map find fst].
  destruct (Z.eqb_spec y x) as [->|Hne].
  - contradiction H. left. reflexivity.
  - apply IH. intro Hin. apply H. right. exact Hin.
Qed.

Lemma forecast_on_elapsed (s : DataFrame) (d : date) (a : option dict)
      (g : F) (x : date) :
  (x <= d)%Z -> forecast_on s d a g x = Fin 0.
Proof.
  intro H. unfold forecast_on, Projector.future_df.
  rewrite find_keyed_out; [reflexivity|].
  unfold Projector.future_dates. rewrite in_date_range. lia.
Qed.

Lemma forecast_on_future (s : DataFrame) (d : date) (a : option dict)
      (g : F) (x : date) :
  In x (Projector.future_dates d) ->
  forecast_on s d a g x = Projector.pred s d a g x.
Proof.
  intro H. unfold forecast_on, Projector.future_df.
  rewrite (find_keyed_in _ _ x H). reflexivity.
Qed.

Lemma current_dates (s : DataFrame) (d : date) (r : Row) :
  In r (Projector.current s d) ->
  (Projector.month_start d <= row_date r <= d)%Z.
Proof.
  unfold Projector.current, between. intro H. apply filter_In in H.
  destruct H as [_ H]. apply andb_true_iff in H. destruct H as [H1 H2].
  apply Z.leb_le in H1, H2. lia.
Qed.

Lemma actual_on_future (s : DataFrame) (d x : date) :
  (d < x)%Z -> actual_on s d x = Fin 0.
Proof.
  intro H. unfold actual_on.
  destruct (find _ _) as [r|] eqn:E; [|reflexivity].
  apply find_some in E. destruct E as [Hin Hx]. apply Z.eqb_eq in Hx.
  apply current_dates in Hin. lia.
Qed.

(** X2: the chart of a returned projection has one row for each day of the
    month, in order, from [month_start] to [month_end]; its forecast column
    is zero through the as-of date and its actual column is zero after
    it. *)
Theorem projection_chart_rows
        (s : DataFrame) (d : date) (a : option dict) (r : Projection) :
  Projector.compute_dynamic_month_projection s d a = Ok (Some r) ->
  map chart_date (chart_df r) = date_range (month_start r) (month_end r)
  /\ len (chart_df r) = month_days r
  /\ (forall c, In c (chart_df r) ->
      ((chart_date c <= d)%Z -> forecast_daily c = Fin 0)
      /\ ((d < chart_date c)%Z -> actual_daily c = Fin 0)).
Proof.
  intro H. apply projection_inv in H.
  destruct H as (rg & mg & g0 & ch & _ & _ & _ & _ & _ & _ & _ & Hch & ->).
  cbn [chart_df month_start month_end month_days].
  apply chart_rows in Hch. destruct Hch as [_ ->].
  split; [rewrite map_map; apply map_id|].
  split.
  - pose proof (date_range_length (Projector.month_start d)
                                     (Projector.month_end d)) as Hl.
    unfold len in *. rewrite length_map.
    unfold Projector.full_month_dates. rewrite Hl, month_end_start.
    destruct (elapsed_days_range d). lia.
  - intros c Hc. apply in_map_iff in Hc. destruct Hc as (x & <- & _).
    cbn [chart_date forecast_daily actual_daily].
    split; intro Hx.
    + apply forecast_on_elapsed, Hx.
    + apply actual_on_future, Hx.
Qed.

Lemma projection_chart_rows_witness :
  exists r,
    Projector.compute_dynamic_month_projection
      two_month_series (ymd2ord 2024 3 10) None = Ok (Some r)
    /\ len (chart_df r) = 31%Z.
Proof.
  eexists.
  assert (H : Projector.compute_dynamic_month_projection
                two_month_series (ymd2ord 2024 3 10) None = Ok (Some _))
    by (lazy; reflexivity).
  destruct (projection_chart_rows
              two_month_series (ymd2ord 2024 3 10) None _ H)
    as (_ & Hl & _).
  split; [exact H|exact Hl].
Defined.

Lemma fin_inj {A} (x y : A) : Fin x = Fin y -> x = y.
Proof. intro H. injection H as H. exact H. Qed.

Lemma Qsum_app (l l' : list Q) : Qsum (l ++ l') == Qsum l + Qsum l'.
Proof.
  induction l as [|x l IH]; simpl; [qlra|]. rewrite IH. qlra.
Qed.

Lemma Qsum_zero {A} (l : list A) : Qsum (map (fun _ => 0) l) == 0.
Proof.
  induction l as [|x l IH]; simpl; [qlra|]. rewrite IH. qlra.
Qed.

Lemma Qsum_ext_in {A} (f g : A -> Q) (l : list A) :
  (forall x, In x l -> f x == g x) -> Qsum (map f l) == Qsum (map g l).
Proof.
  induction l as [|x l IH]; intro H; simpl; [qlra|].
  rewrite (H x (or_introl eq_refl)), IH; [qlra|].
  intros y Hy. apply H. right. exact Hy.
Qed.

(** A sum over distinct keys in which one key holds [v] and the others what
    [g] gives them. *)
Lemma Qsum_update (k : Z) (v : Q) (g : Z -> Q) (idx : list Z) :
  NoDup idx -> In k idx -> g k == 0 ->
  Qsum (map (fun x => if (k =? x)%Z then v else g x) idx)
  == v + Qsum (map g idx).
Proof.
  intros Hnd Hin Hk. induction idx as [|x idx IH]; [destruct Hin|].
  inversion Hnd as [|? ? Hx Hnd']. subst. simpl.
  destruct (Z.eqb_spec k x) as [->|Hne].
  - rewrite (Qsum_ext_in (fun y => if (x =? y)%Z then v else g y) g idx).
    + rewrite Hk. qlra.
    + intros y Hy. destruct (Z.eqb_spec x y) as [->|_]; [contradiction|].
      reflexivity.
  - destruct Hin as [->|Hin]; [contradiction Hne; reflexivity|].
    rewrite (IH Hnd' Hin). qlra.
Qed.

Lemma notna_map_fin {A} (g : A -> Q) (l : list A) :
  notna (map (fun x => Fin (g x)) l) = map g l.
Proof.
  induction l as [|x l IH]; simpl; [reflexivity|]. f_equal. exact IH.
Qed.

Lemma notna_app (l l' : list F) : notna (l ++ l') = (notna l ++ notna l')%list.
Proof. unfold notna. apply flat_map_app. Qed.

Lemma find_none_absent (l : list Row) (k : date) :
  existsb (Z.eqb k) (map row_date l) = false ->
  find (fun r => (row_date r =? k)%Z) l = None.
Proof.
  induction l as [|r l IH]; simpl; [reflexivity|].
  intro H. apply orb_false_iff in H. destruct H as [H1 H2].
  rewrite Z.eqb_sym, H1. apply IH, H2.
Qed.

Lemma reindex_sum (l : list Row) (idx : list date) :
  has_duplicates (map row_date l) = false ->
  NoDup idx ->
  (forall r, In r l -> In (row_date r) idx) ->
  Qsum (map (filled l) idx) == Qsum (notna (totals l)).
Proof.
  intros Hd Hnd Hin. induction l as [|r l IH].
  - unfold filled. simpl. apply Qsum_zero.
  - simpl in Hd. apply orb_false_iff in Hd. destruct Hd as [Hr Hd].
    assert (E : Qsum (map (filled (r :: l)) idx)
                == MapeSpec.value (total r) + Qsum (map (filled l) idx)).
    { rewrite <- (Qsum_update (row_date r) _ (filled l) idx Hnd).
      - apply Qsum_ext_in. intros x _. unfold filled. simpl.
        destruct (row_date r =? x)%Z; reflexivity.
      - apply Hin. left. reflexivity.
      - unfold filled. rewrite (find_none_absent l _ Hr). reflexivity. }
    rewrite E, (IH Hd).
    + unfold totals. simpl. destruct (total r) as [q|]; simpl; qlra.
    + intros x Hx. apply Hin. right. exact Hx.
Qed.

Lemma actual_on_filled (s : DataFrame) (d x : date) :
  actual_on s d x = Fin (filled (Projector.current s d) x).
Proof.
  unfold actual_on, filled. destruct (find _ _) as [r|]; [|reflexivity].
  destruct (total r); reflexivity.
Qed.

Lemma month_end_after (d : date) : (d <= Projector.month_end d)%Z.
Proof.
  pose proof (month_end_start d). pose proof (elapsed_days_range d).
  unfold Projector.elapsed_days in *. lia.
Qed.

(** X3: the columns of the chart add up to the figures of the projection:
    the actual column to [mtd_actual], the forecast column to what the
    projection adds to it; [projected_total] is a number and never below
    [mtd_actual]. *)
Theorem projection_chart_totals
        (s : DataFrame) (d : date) (a : option dict) (r : Projection) :
  Projector.compute_dynamic_month_projection s d a = Ok (Some r) ->
  exists m p,
    mtd_actual r = Fin m /\ projected_total r = Fin p /\ m <= p
    /\ is_value m (series_sum (map actual_daily (chart_df r)))
    /\ is_value (p - m) (series_sum (map forecast_daily (chart_df r))).
Proof.
  intro H. apply projection_inv in H.
  destruct H as (rg & mg & g0 & ch & _ & _ & _ & _ & _ & _ & _ & Hch & ->).
  cbn [chart_df mtd_actual projected_total].
  apply chart_rows in Hch. destruct Hch as [Hd ->].
  set (g := Projector.growth_factor a (Projector.growth_factor1 a g0)).
  destruct (remaining_projection_nonneg s d a g) as (rem & Hrem & Hpos).
  exists (Qsum (notna (totals (Projector.current s d)))).
  exists (Qsum (notna (totals (Projector.current s d))) + rem).
  split; [reflexivity|].
  split; [unfold Projector.projected_total; rewrite Hrem; reflexivity|].
  split; [qlra|].
  rewrite !map_map. cbn [actual_daily forecast_daily].
  split.
  - eexists. split; [reflexivity|].
    rewrite (map_ext _ _ (actual_on_filled s d)), notna_map_fin.
    apply reindex_sum.
    + exact Hd.
    + apply date_range_NoDup.
    + intros x Hx. apply current_dates in Hx. apply in_date_range.
      pose proof (month_end_after d). lia.
  - eexists. split; [reflexivity|].
    unfold Projector.full_month_dates.
    rewrite (date_range_app (Projector.month_start d) d (Projector.month_end d)).
    2: { pose proof (elapsed_days_range d).
         unfold Projector.elapsed_days in *. lia. }
    2: apply month_end_after.
    rewrite map_app, notna_app, Qsum_app.
    rewrite (map_ext_in _ (fun _ => Fin 0)).
    2: { intros x Hx. apply in_date_range in Hx.
         apply forecast_on_elapsed. lia. }
    rewrite (notna_map_fin (fun _ => 0)), Qsum_zero.
    rewrite (map_ext_in _ (Projector.pred s d a g)).
    2: { intros x Hx. apply forecast_on_future. exact Hx. }
    assert (Hr : Projector.remaining_projection s d a g
                 = Fin (Qsum (notna (map (Projector.pred s d a g)
                                         (Projector.future_dates d))))).
    { unfold Projector.remaining_projection, Projector.future_df.
      rewrite map_map. cbn [snd].
      destruct (Projector.future_dates d); reflexivity. }
    rewrite Hr in Hrem. apply fin_inj in Hrem. rewrite <- Hrem.
    unfold Projector.future_dates. qlra.
Qed.

Lemma projection_chart_totals_witness :
  exists r m p,
    Projector.compute_dynamic_month_projection
      two_month_series (ymd2ord 2024 3 10) None = Ok (Some r)
    /\ mtd_actual r = Fin m /\ projected_total r = Fin p /\ m <= p.
Proof.
  eexists.
  assert (H : Projector.compute_dynamic_month_projection
                two_month_series (ymd2ord 2024 3 10) None = Ok (Some _))
    by (lazy; reflexivity).
  destruct (projection_chart_totals
              two_month_series (ymd2ord 2024 3 10) None _ H)
    as (m & p & Hm & Hp & Hle & _).
  exists m, p.
  split; [exact H|]. split; [exact Hm|]. split; [exact Hp|exact Hle].
Defined.

(** ** Outcomes of the projector *)

Lemma existsb_eqb_in (x : Z) (l : list Z) :
  existsb (Z.eqb x) l = true <-> In x l.
Proof.
  rewrite existsb_exists. split.
  - intros (y & Hy & E). apply Z.eqb_eq in E. subst y. exact Hy.
  - intro H. exists x. split; [exact H|apply Z.eqb_refl].
Qed.

Lemma has_duplicates_NoDup (l : list Z) :
  has_duplicates l = false <-> NoDup l.
Proof.
  induction l as [|x l IH]; simpl.
  - split; [constructor|reflexivity].
  - rewrite orb_false_iff, IH. split.
    + intros [H1 H2]. constructor; [|exact H2].
      intro Hin. apply existsb_eqb_in in Hin. congruence.
    + intro H. inversion H as [|? ? Hx Hl]. subst. split; [|exact Hl].
      destruct (existsb (Z.eqb x) l) eqn:E; [|reflexivity].
      apply existsb_eqb_in in E. contradiction.
Qed.

Lemma has_duplicates_perm (l l' : list Z) :
  Permutation l l' -> has_duplicates l = has_duplicates l'.
Proof.
  intro H.
  destruct (has_duplicates l) eqn:E; destruct (has_duplicates l') eqn:E';
    try reflexivity.
  - apply has_duplicates_NoDup in E'.
    apply (Permutation_NoDup (Permutation_sym H)) in E'.
    apply has_duplicates_NoDup in E'. congruence.
  - apply has_duplicates_NoDup in E.
    apply (Permutation_NoDup H) in E.
    apply has_duplicates_NoDup in E. congruence.
Qed.

Lemma filter_perm {A} (p : A -> bool) (l l' : list A) :
  Permutation l l' -> Permutation (filter p l) (filter p l').
Proof.
  induction 1 as [|x l l' _ IH|x y l|l l' l'' _ IH1 _ IH2]; simpl.
  - apply perm_nil.
  - destruct (p x); [apply perm_skip|]; exact IH.
  - destruct (p x); destruct (p y);
      try apply perm_swap; apply Permutation_refl.
  - apply perm_trans with (filter p l'); assumption.
Qed.

Lemma map_filter_comm {A B} (f : A -> B) (p : B -> bool) (l : list A) :
  map f (filter (fun x => p (f x)) l) = filter p (map f l).
Proof.
  induction l as [|x l IH]; simpl; [reflexivity|].
  destruct (p (f x)); simpl; rewrite IH; reflexivity.
Qed.

Lemma between_upto (lo d : date) (l : list Row) :
  between lo d (filter (fun r => (row_date r <=? d)%Z) l) = between lo d l.
Proof.
  unfold between. induction l as [|x l IH]; simpl; [reflexivity|].
  destruct (row_date x <=? d)%Z eqn:E; simpl; rewrite ?E, ?andb_false_r;
    rewrite IH; reflexivity.
Qed.

Lemma current_dates_perm (s : DataFrame) (d : date) :
  Permutation (map row_date (Projector.current s d))
              (month_to_date_dates s d).
Proof.
  unfold Projector.current, Projector.ts, Projector.ts0, month_to_date_dates.
  rewrite between_upto. unfold between.
  rewrite (map_filter_comm row_date
             (fun x => (Projector.month_start d <=? x)%Z && (x <=? d)%Z)).
  apply filter_perm, Permutation_map, sort_values_perm.
Qed.

Lemma current_duplicates (s : DataFrame) (d : date) :
  has_duplicates (map row_date (Projector.current s d))
  = has_duplicates (month_to_date_dates s d).
Proof. apply has_duplicates_perm, current_dates_perm. Qed.

Lemma py_max_positive (w : Q) : 0 < w -> py_max (Fin w) (Fin 0) = Fin w.
Proof.
  intro H. unfold py_max, max_by. simpl.
  replace (Qlt_bool w 0) with false; [reflexivity|].
  symmetry. apply Qlt_bool_false. qlra.
Qed.

Lemma feq_zero_false (w : Q) : 0 < w -> feq (Fin w) (Fin 0) = false.
Proof.
  intro H. unfold feq. simpl. apply Qeq_bool_false. qlra.
Qed.

(** With positive weights the weighted average of the signals is defined,
    whichever of them qualify. *)
Lemma growth_factor0_total
      (s : DataFrame) (d : date) (a : option dict) (w1 w2 : Q) (rg mg : F) :
  Projector.recent_weight a = Fin w1 -> 0 < w1 ->
  Projector.mom_weight a = Fin w2 -> 0 < w2 ->
  exists g0,
    Projector.growth_factor0 (Projector.factors s d a rg mg) = Ok g0.
Proof.
  intros E1 H1 E2 H2.
  unfold Projector.growth_factor0, Projector.factors.
  rewrite E1, E2, (py_max_positive w1 H1), (py_max_positive w2 H2).
  destruct (7 <=? len (Projector.prior14 s d))%Z;
    destruct (0 <? len (Projector.prev_month_mtd s d))%Z;
    cbn [app empty map snd fst py_sum fold_left fadd lift2];
    rewrite fdiv_nonzero; try (eexists; reflexivity);
    apply feq_zero_false; qlra.
Qed.

Lemma recent_growth_total (s : DataFrame) (d : date) :
  exists rg, Projector.recent_growth s d = Ok rg.
Proof.
  unfold Projector.recent_growth.
  destruct (0 <? len (Projector.prior14 s d))%Z;
    [apply safe_ratio_total|eexists; reflexivity].
Qed.

Lemma mom_growth_total (s : DataFrame) (d : date) :
  exists mg, Projector.mom_growth s d = Ok mg.
Proof.
  unfold Projector.mom_growth.
  destruct (0 <? len (Projector.prev_month_mtd s d))%Z;
    [apply safe_ratio_total|eexists; reflexivity].
Qed.

Lemma chart_df_duplicates (s : DataFrame) (d : date) (a : option dict) (g : F) :
  has_duplicates (month_to_date_dates s d) = true ->
  Projector.chart_df s d a g = Raise ValueError.
Proof.
  intro H. unfold Projector.chart_df, Projector.actual_daily, reindex.
  rewrite current_duplicates, H. reflexivity.
Qed.

(** With positive weights and distinct dates in the month under way, the
    projector goes through. *)
Lemma projector_total
      (s : DataFrame) (d : date) (a : option dict) (w1 w2 : Q) :
  Projector.recent_weight a = Fin w1 -> 0 < w1 ->
  Projector.mom_weight a = Fin w2 -> 0 < w2 ->
  has_duplicates (map row_date (Projector.current s d)) = false ->
  exists o, Projector.compute_dynamic_month_projection s d a = Ok o.
Proof.
  intros E1 H1 E2 H2 Hd.
  destruct (empty s) eqn:Es;
    [exists None; unfold Projector.compute_dynamic_month_projection;
     rewrite Es; reflexivity|].
  destruct (empty (Projector.ts s d)) eqn:Et;
    [exists None; unfold Projector.compute_dynamic_month_projection;
     rewrite Es, Et; reflexivity|].
  destruct (empty (Projector.current s d)) eqn:Ec;
    [exists None; unfold Projector.compute_dynamic_month_projection;
     rewrite Es, Et, Ec; reflexivity|].
  destruct (empty (Projector.hist s d)) eqn:Eh;
    [exists None; unfold Projector.compute_dynamic_month_projection;
     rewrite Es, Et, Ec, Eh; reflexivity|].
  destruct (recent_growth_total s d) as [rg Hrg].
  destruct (mom_growth_total s d) as [mg Hmg].
  destruct (growth_factor0_total s d a w1 w2 rg mg E1 H1 E2 H2) as [g0 Hg0].
  assert (Hch : exists ch,
             Projector.chart_df s d a
               (Projector.growth_factor a (Projector.growth_factor1 a g0))
             = Ok ch).
  { unfold Projector.chart_df, Projector.actual_daily, reindex.
    rewrite Hd. eexists. reflexivity. }
  destruct Hch as [ch Hch]. eexists.
  apply (projection_intro s d a rg mg g0 ch Es Et Ec Eh Hrg Hmg Hg0 Hch).
Qed.

(** X4: the projector does not raise when both weights are positive and no
    two rows of the month under way share a date: it returns a projection
    or [None]. *)
Theorem projector_returns
        (s : DataFrame) (d : date) (a : option dict) (w1 w2 : Q) :
  Projector.recent_weight a = Fin w1 -> 0 < w1 ->
  Projector.mom_weight a = Fin w2 -> 0 < w2 ->
  has_duplicates (month_to_date_dates s d) = false ->
  exists o, Projector.compute_dynamic_month_projection s d a = Ok o.
Proof.
  intros E1 H1 E2 H2 Hd.
  rewrite <- current_duplicates in Hd.
  destruct (projector_total s d a w1 w2 E1 H1 E2 H2 Hd) as [o Ho].
  exists o. exact Ho.
Qed.

Lemma projector_returns_witness :
  exists o,
    Projector.compute_dynamic_month_projection
      two_month_series (ymd2ord 2024 3 10) None = Ok o.
Proof.
  apply (projector_returns two_month_series (ymd2ord 2024 3 10) None
           0.6 0.4).
  - reflexivity.
  - reflexivity.
  - reflexivity.
  - reflexivity.
  - vm_compute. reflexivity.
Defined.

(** X5: two rows of the month under way with the same date make the
    projector fail.  With history before the month and positive weights it
    raises [ValueError], from the reindexing of the actual series on the
    days of the month; in no case does it return a projection. *)
Theorem repeated_date_raises
        (s : DataFrame) (d : date) (a : option dict) :
  has_duplicates (month_to_date_dates s d) = true ->
  (forall r, Projector.compute_dynamic_month_projection s d a <> Ok (Some r))
  /\ (forall w1 w2,
        Projector.recent_weight a = Fin w1 -> 0 < w1 ->
        Projector.mom_weight a = Fin w2 -> 0 < w2 ->
        empty (Projector.hist s d) = false ->
        Projector.compute_dynamic_month_projection s d a = Raise ValueError).
Proof.
  intro Hd. split.
  - intros r H. apply projection_inv in H.
    destruct H as (rg & mg & g0 & ch & _ & _ & _ & _ & _ & _ & _ & Hch & _).
    rewrite (chart_df_duplicates s d a _ Hd) in Hch. discriminate Hch.
  - intros w1 w2 E1 H1 E2 H2 Eh.
    assert (Hc : Projector.current s d <> []).
    { intro Hc.
      rewrite <- current_duplicates, Hc in Hd. discriminate Hd. }
    assert (Ht : Projector.ts s d <> []).
    { intro Ht. apply Hc. unfold Projector.current. rewrite Ht. reflexivity. }
    assert (Hs : s <> []).
    { intro Hs. apply Ht. subst s. reflexivity. }
    destruct (recent_growth_total s d) as [rg Hrg].
    destruct (mom_growth_total s d) as [mg Hmg].
    destruct (growth_factor0_total s d a w1 w2 rg mg E1 H1 E2 H2)
      as [g0 Hg0].
    assert (Ec : empty (Projector.current s d) = false).
    { destruct (Projector.current s d); [contradiction Hc|]; reflexivity. }
    assert (Et : empty (Projector.ts s d) = false).
    { destruct (Projector.ts s d); [contradiction Ht|]; reflexivity. }
    assert (Es : empty s = false).
    { destruct s; [contradiction Hs|]; reflexivity. }
    unfold Projector.compute_dynamic_month_projection.
    rewrite Es, Et, Ec, Eh, Hrg.
    cbn [bind]. rewrite Hmg. cbn [bind]. rewrite Hg0. cbn [bind].
    rewrite (chart_df_duplicates s d a _ Hd). reflexivity.
Qed.

Lemma repeated_date_raises_witness :
  Projector.compute_dynamic_month_projection
    repeated_day_series (ymd2ord 2024 3 10) None = Raise ValueError.
Proof.
  assert (Hd : has_duplicates
                 (month_to_date_dates repeated_day_series (ymd2ord 2024 3 10))
               = true) by (vm_compute; reflexivity).
  apply (proj2 (repeated_date_raises
                  repeated_day_series (ymd2ord 2024 3 10) None Hd) 0.6 0.4).
  - reflexivity.
  - reflexivity.
  - reflexivity.
  - reflexivity.
  - vm_compute. reflexivity.
Defined.

(** ** Rows the engine does not look at *)

Lemma dropna_through (d : date) (s : DataFrame) :
  to_datetime_dropna (through d s)
  = filter (fun r => (row_date r <=? d)%Z) (to_datetime_dropna s).
Proof.
  unfold through, to_datetime_dropna.
  induction s as [|r s IH]; simpl; [reflexivity|].
  destruct (raw_date r) as [x|] eqn:E; simpl.
  - destruct (x <=? d)%Z; simpl; rewrite ?E; simpl; rewrite IH; reflexivity.
  - rewrite E. simpl. exact IH.
Qed.

Lemma insert_by_date_first (r : Row) (l : list Row) :
  (forall y, In y l -> (row_date r < row_date y)%Z) ->
  insert_by_date r l = r :: l.
Proof.
  destruct l as [|x l]; [reflexivity|].
  intro H. simpl.
  destruct (Z.ltb_spec (row_date r) (row_date x)) as [_|Hx]; [reflexivity|].
  specialize (H x (or_introl eq_refl)). lia.
Qed.

(** On a sorted frame, selecting rows and inserting a selected row commute. *)
Lemma filter_insert_by_date (p : Row -> bool) (r : Row) (l : list Row) :
  sorted_by_date l -> p r = true ->
  filter p (insert_by_date r l) = insert_by_date r (filter p l).
Proof.
  intros Hl Hr. induction l as [|x l IH]; simpl.
  - rewrite Hr. reflexivity.
  - destruct Hl as [Hx Hl].
    destruct (Z.ltb_spec (row_date r) (row_date x)) as [H|H].
    + simpl. rewrite Hr. destruct (p x) eqn:Ex.
      * simpl. apply Z.ltb_lt in H. rewrite H. reflexivity.
      * symmetry. apply insert_by_date_first.
        intros y Hy. apply filter_In in Hy. destruct Hy as [Hy _].
        specialize (Hx y Hy). lia.
    + simpl. destruct (p x) eqn:Ex.
      * simpl. apply Z.ltb_ge in H. rewrite H. rewrite (IH Hl). reflexivity.
      * apply IH, Hl.
Qed.

Lemma filter_insert_by_date_out (p : Row -> bool) (r : Row) (l : list Row) :
  p r = false -> filter p (insert_by_date r l) = filter p l.
Proof.
  intro Hr. induction l as [|x l IH]; simpl.
  - rewrite Hr. reflexivity.
  - destruct (row_date r <? row_date x)%Z; simpl.
    + rewrite Hr. reflexivity.
    + rewrite IH. reflexivity.
Qed.

(** Selecting rows commutes with sorting them by date. *)
Lemma filter_sort_values (p : Row -> bool) (l : list Row) :
  filter p (sort_values l) = sort_values (filter p l).
Proof.
  induction l as [|r l IH]; simpl; [reflexivity|].
  destruct (p r) eqn:Er.
  - rewrite (filter_insert_by_date p r _ (sort_values_sorted l) Er), IH.
    reflexivity.
  - rewrite (filter_insert_by_date_out p r _ Er). exact IH.
Qed.

Lemma filter_idem {A} (p : A -> bool) (l : list A) :
  filter p (filter p l) = filter p l.
Proof.
  induction l as [|x l IH]; simpl; [reflexivity|].
  destruct (p x) eqn:E; simpl; rewrite ?E, IH; reflexivity.
Qed.

Lemma sort_through (d : date) (s : DataFrame) :
  sort_values (to_datetime_dropna (through d s))
  = filter (fun r => (row_date r <=? d)%Z)
           (sort_values (to_datetime_dropna s)).
Proof. rewrite dropna_through, filter_sort_values. reflexivity. Qed.

Lemma ts_through (d : date) (s : DataFrame) :
  Projector.ts (through d s) d = Projector.ts s d.
Proof.
  unfold Projector.ts, Projector.ts0.
  rewrite sort_through. apply filter_idem.
Qed.

Ltac unfold_to_ts :=
  unfold Projector.compute_dynamic_month_projection,
    Projector.chart_df, Projector.actual_daily, Projector.forecast_daily,
    Projector.ci_low, Projector.ci_high, Projector.forecast_std,
    Projector.residual_std, Projector.residuals, Projector.baseline_col,
    Projector.projected_total, Projector.remaining_projection,
    Projector.future_df, Projector.pred, Projector.overall_avg,
    Projector.weekday_avg, Projector.hist_recent, Projector.hist_recent0,
    Projector.factors, Projector.mom_growth, Projector.prev_month_mtd,
    Projector.recent_growth, Projector.prior14, Projector.recent14,
    Projector.mtd_actual, Projector.hist, Projector.current.

(** X6: the projector does not look ahead: the rows dated after the as-of
    date do not change its outcome. *)
Theorem projector_ignores_later_rows
        (s : DataFrame) (d : date) (a : option dict) :
  Projector.compute_dynamic_month_projection (through d s) d a
  = Projector.compute_dynamic_month_projection s d a.
Proof.
  destruct (through d s) as [|r0 s0] eqn:E.
  - symmetry. apply projector_none_without_rows.
    rewrite <- ts_through, E. reflexivity.
  - assert (Hs : empty s = false).
    { destruct s; [discriminate E|reflexivity]. }
    rewrite <- E. unfold_to_ts.
    rewrite !ts_through. rewrite Hs, E. reflexivity.
Qed.

Lemma filter_narrow {A} (p q : A -> bool) (l : list A) :
  (forall x, q x = true -> p x = true) ->
  filter q (filter p l) = filter q l.
Proof.
  intro H. induction l as [|x l IH]; simpl; [reflexivity|].
  destruct (p x) eqn:Ep; simpl.
  - rewrite IH. reflexivity.
  - destruct (q x) eqn:Eq; [|exact IH].
    rewrite (H x Eq) in Ep. discriminate Ep.
Qed.

Lemma month_start_before (d : date) : (Significance.month_start d <= d)%Z.
Proof.
  pose proof (elapsed_days_range d) as H.
  unfold Projector.elapsed_days in H.
  change (Significance.month_start d) with (Projector.month_start d). lia.
Qed.

(** X7: the significance test does not look ahead either: its two samples
    end at the as-of date. *)
Theorem significance_ignores_later_rows
        (erf : R -> R) (s : DataFrame) (d : date) (a : option dict) :
  Significance.growth_significance erf (through d s) d a
  = Significance.growth_significance erf s d a.
Proof.
  assert (Hc : Significance.current (through d s) d = Significance.current s d).
  { unfold Significance.current, Significance.ts.
    rewrite sort_through, between_upto. reflexivity. }
  assert (Hb : Significance.baseline (through d s) d
               = Significance.baseline s d).
  { unfold Significance.baseline, Significance.ts.
    rewrite sort_through. f_equal. apply filter_narrow.
    intros x Hx. apply andb_true_iff in Hx. destruct Hx as [_ Hx].
    apply Z.ltb_lt in Hx. apply Z.leb_le.
    pose proof (month_start_before d). lia. }
  unfold Significance.growth_significance, Significance.se,
    Significance.mean1, Significance.mean2, Significance.mean1_raw,
    Significance.std1, Significance.std2, Significance.n1, Significance.n2.
  rewrite Hc, Hb.
  destruct (through d s) as [|r0 s0] eqn:E.
  - assert (Hn : Significance.current s d = []).
    { rewrite <- Hc. reflexivity. }
    rewrite Hn. simpl. destruct (empty s); reflexivity.
  - destruct s; [discriminate E|reflexivity].
Qed.

(** X8: the backtester only uses the rows dated before the current month:
    the rows from [current_month_start] on do not change its outcome. *)
Theorem backtester_ignores_current_month
        (s : DataFrame) (day : Z) (d0 : date) (a : option dict) :
  Backtester.backtest_projection_mape_with_assumptions
    (through (d0 - 1)%Z s) day d0 a
  = Backtester.backtest_projection_mape_with_assumptions s day d0 a.
Proof.
  assert (Hts : Backtester.ts (through (d0 - 1)%Z s) d0 = Backtester.ts s d0).
  { unfold Backtester.ts, Backtester.ts0.
    rewrite sort_through.
    apply filter_narrow. intros r Hr.
    apply Z.ltb_lt in Hr. apply Z.leb_le. lia. }
  assert (Hloop : forall ms rows,
             Backtester.loop (through (d0 - 1)%Z s) day d0 a ms rows
             = Backtester.loop s day d0 a ms rows).
  { induction ms as [|m ms IH]; intro rows; simpl; [reflexivity|].
    replace (Backtester.turn (through (d0 - 1)%Z s) day d0 a rows m)
      with (Backtester.turn s day d0 a rows m)
      by (unfold Backtester.turn; rewrite Hts; reflexivity).
    destruct (Backtester.turn s day d0 a rows m); simpl;
      [apply IH|reflexivity]. }
  unfold Backtester.backtest_projection_mape_with_assumptions.
  unfold Backtester.months. rewrite Hloop, Hts.
  destruct (through (d0 - 1)%Z s) as [|r0 s0] eqn:E.
  - assert (Hnil : Backtester.ts s d0 = []).
    { rewrite <- Hts. reflexivity. }
    rewrite Hnil. simpl. destruct (empty s); reflexivity.
  - destruct s; [discriminate E|reflexivity].
Qed.

(** ** Months the backtester can score *)

Lemma dropna_as_frame (l : list Row) : to_datetime_dropna (as_frame l) = l.
Proof.
  unfold to_datetime_dropna, as_frame.
  induction l as [|r l IH]; [reflexivity|].
  cbn [map flat_map raw_date raw_total app]. rewrite IH.
  destruct r. reflexivity.
Qed.

Lemma in_projector_ts (l : list Row) (d : date) (r : Row) :
  In r (Projector.ts (as_frame l) d) -> In r l.
Proof.
  unfold Projector.ts, Projector.ts0. rewrite dropna_as_frame.
  intro H. apply filter_In in H. destruct H as [H _].
  exact (Permutation_in r (sort_values_perm l) H).
Qed.

(** The cutoff date of a month of the history is a day of that month. *)
Lemma cutoff_in_month (d' : date) (day : Z) :
  (1 <= day)%Z ->
  let m := to_period d' in
  let ps := period_start m in
  Projector.month_start
    (ps + (Z.min day (monthrange (year ps) (month ps)) - 1))%Z
  = ps.
Proof.
  intros Hday m ps.
  destruct (date_valid d') as (Vm & Vd & E).
  destruct (month_start_spec d') as [_ E0].
  assert (Eps : ps = Projector.month_start d') by reflexivity.
  assert (Ey : year ps = year d') by (unfold year at 1; rewrite Eps, E0; reflexivity).
  assert (Em : month ps = month d') by (unfold month at 1; rewrite Eps, E0; reflexivity).
  rewrite Ey, Em. unfold monthrange.
  pose proof (days_in_month_pos (year d') (month d') Vm) as Hdim.
  set (x := (ps + (Z.min day (days_in_month (year d') (month d')) - 1))%Z).
  assert (Hx : (ymd2ord (year d') (month d') 1 <= x
                <= ymd2ord (year d') (month d')
                           (days_in_month (year d') (month d')))%Z).
  { unfold x. rewrite Eps. unfold Projector.month_start, ymd2ord. lia. }
  pose proof (same_month (year d') (month d') x Vm Hx) as S.
  unfold Projector.month_start, year, month. rewrite S. reflexivity.
Qed.

Section Earlier.

Variable s : DataFrame.
Variable as_of_day : Z.
Variable d0 : date.
Variable a : option dict.

Hypothesis Hday : (1 <= as_of_day)%Z.

Lemma turn_earlier (rows rows' : list BacktestRow) (m : period) :
  In m (Backtester.months s d0) ->
  Forall (has_earlier_row s d0) rows ->
  Backtester.turn s as_of_day d0 a rows m = Ok rows' ->
  Forall (has_earlier_row s d0) rows'.
Proof.
  intros Hm Hrows. apply months_in in Hm. destruct Hm as (r0 & _ & ->).
  pose proof (cutoff_in_month (row_date r0) as_of_day Hday) as Hc.
  cbv zeta in Hc. unfold Backtester.turn.
  set (as_of := (period_start (to_period (row_date r0))
                 + (Z.min as_of_day
                          (monthrange
                             (year (period_start (to_period (row_date r0))))
                             (month (period_start (to_period (row_date r0)))))
                    - 1))%Z) in *.
  destruct (d0 <=? as_of)%Z; [intro H; apply ok_inj in H; subst; exact Hrows|].
  destruct (Projector.compute_dynamic_month_projection _ as_of a)
    as [[p|]|e] eqn:E; cbn [bind];
    [|intro H; apply ok_inj in H; subst; exact Hrows|discriminate].
  destruct (fle _ (Fin 0)); [intro H; apply ok_inj in H; subst; exact Hrows|].
  intro H. apply bind_ok_inv in H. destruct H as (ape & _ & H).
  apply ok_inj in H. subst rows'.
  apply Forall_app. split; [exact Hrows|].
  constructor; [|constructor].
  apply projection_inv in E.
  destruct E as (_ & _ & _ & _ & _ & _ & _ & Eh & _).
  destruct (Projector.hist _ as_of) as [|r l] eqn:Er; [discriminate Eh|].
  assert (Hr : In r (Projector.hist
                       (as_frame
                          (filter (fun r => (row_date r <=? as_of)%Z)
                                  (Backtester.ts s d0))) as_of))
    by (rewrite Er; left; reflexivity).
  unfold Projector.hist in Hr. apply filter_In in Hr.
  destruct Hr as [Hin Hlt]. apply Z.ltb_lt in Hlt.
  apply in_projector_ts, filter_In in Hin. destruct Hin as [Hin _].
  exists r. split; [exact Hin|].
  cbn [bt_month]. rewrite <- Hc. exact Hlt.
Qed.

Lemma loop_earlier (months : list period) :
  (forall m, In m months -> In m (Backtester.months s d0)) ->
  forall rows rows',
    Forall (has_earlier_row s d0) rows ->
    Backtester.loop s as_of_day d0 a months rows = Ok rows' ->
    Forall (has_earlier_row s d0) rows'.
Proof.
  induction months as [|m months IH]; intros Hin rows rows' Hrows H.
  - simpl in H. apply ok_inj in H. subst. exact Hrows.
  - cbn [Backtester.loop] in H. apply bind_ok_inv in H.
    destruct H as (rows1 & H1 & H).
    apply (IH (fun m' Hm' => Hin m' (or_intror Hm')) rows1 rows'); [|exact H].
    exact (turn_earlier rows rows1 m (Hin m (or_introl eq_refl)) Hrows H1).
Qed.

End Earlier.

(** X9: a month is scored only when the history holds a row dated before
    that month starts: for an as-of day of 1 or more, every detail row of a
    backtest is for a month with an earlier row.  The earliest month of the
    data never appears in the details. *)
Theorem backtest_needs_earlier_rows
        (s : DataFrame) (as_of_day : Z) (d0 : date) (a : option dict)
        (b : Backtest) :
  (1 <= as_of_day)%Z ->
  Backtester.backtest_projection_mape_with_assumptions s as_of_day d0 a
  = Ok (Some b) ->
  forall x, In x (details b) ->
    exists r, In r (Backtester.ts s d0)
              /\ (row_date r < period_start (bt_month x))%Z.
Proof.
  intros Hday H x Hx.
  unfold Backtester.backtest_projection_mape_with_assumptions in H.
  destruct (empty s); [discriminate H|].
  destruct (empty (Backtester.ts s d0)); [discriminate H|].
  apply bind_ok_inv in H. destruct H as (rows & Hloop & H).
  destruct (empty rows); [discriminate H|].
  apply ok_inj in H. injection H as <-. cbn [details] in Hx.
  apply (Permutation_in x (sort_by_month_perm rows)) in Hx.
  pose proof (loop_earlier s as_of_day d0 a Hday (Backtester.months s d0)
                (fun m Hm => Hm) [] rows (Forall_nil _) Hloop) as HF.
  rewrite Forall_forall in HF. exact (HF x Hx).
Qed.

Lemma backtest_needs_earlier_rows_witness :
  exists b,
    Backtester.backtest_projection_mape_with_assumptions
      quarter_series 15 (ymd2ord 2023 4 1) None = Ok (Some b)
    /\ forall x, In x (details b) ->
         exists r, In r (Backtester.ts quarter_series (ymd2ord 2023 4 1))
                   /\ (row_date r < period_start (bt_month x))%Z.
Proof.
  eexists.
  assert (H : Backtester.backtest_projection_mape_with_assumptions
                quarter_series 15 (ymd2ord 2023 4 1) None = Ok (Some _))
    by (lazy; reflexivity).
  split; [exact H|].
  apply (backtest_needs_earlier_rows
           quarter_series 15 (ymd2ord 2023 4 1) None _); [lia|exact H].
Defined.

(** ** Relative change *)

(** X10: [pct_delta] never raises.  It returns [None] exactly when the
    comparison value is a number below 1e-9 in absolute value, and for two
    numbers otherwise the relative change of [curr] with respect to [comp];
    a comparison value that is not a number gives [NaN], not [None]. *)
Theorem pct_delta_guarded (curr comp : F) :
  exists o,
    pct_delta curr comp = Ok o
    /\ (o = None <-> exists p, comp = Fin p /\ Qabs p < 1e-9)
    /\ (forall c p, curr = Fin c -> comp = Fin p -> ~ Qabs p < 1e-9 ->
        exists q, o = Some (Fin q) /\ q * p == c - p)
    /\ (comp = NaN -> o = Some NaN).
Proof.
  unfold pct_delta, flt, fabs.
  destruct comp as [p|]; cbn [lift1 cmp2].
  - destruct (Qlt_bool (Qabs p) 1e-9) eqn:E.
    + apply Qlt_bool_iff in E. exists None.
      split; [reflexivity|]. split; [|split].
      * split; [intros _; exists p; split; [reflexivity|exact E]|reflexivity].
      * intros c p' _ Hp N. injection Hp as <-. contradiction.
      * discriminate.
    + apply Qlt_bool_false in E.
      assert (Hp : ~ p == 0).
      { intro H. rewrite H in E. compute in E. apply E. reflexivity. }
      assert (Hz : feq (Fin p) (Fin 0) = false)
        by (unfold feq; cbn [cmp2]; apply Qeq_bool_false; exact Hp).
      rewrite (fdiv_nonzero _ _ Hz). cbn [bind].
      eexists. split; [reflexivity|]. split; [|split].
      * split; [discriminate|].
        intros (p' & Hp' & Hlt). injection Hp' as <-. qlra.
      * intros c p' -> Hp' _. injection Hp' as <-.
        cbn [fsub lift2]. eexists. split; [reflexivity|].
        field. exact Hp.
      * discriminate.
  - unfold fdiv, feq. cbn [cmp2 bind].
    eexists. split; [reflexivity|]. split; [|split].
    + split; [discriminate|]. intros (p & Hp & _). discriminate Hp.
    + intros c p _ Hp. discriminate Hp.
    + intros _. destruct curr; reflexivity.
Qed.

(** ** Comparison windows *)

Section WindowFacts.

Local Open Scope Z_scope.

Lemma year_range (d : date) : in_range d -> 1 <= year d <= 9999.
Proof.
  intros [Hlo Hhi]. destruct (date_valid d) as (Vm & Vd & E).
  split.
  - destruct (Z_lt_le_dec (year d) 1) as [L|L]; [exfalso|exact L].
    assert (H1 : 1 <= 1 <= days_in_month 1 1) by (vm_compute; split; discriminate).
    assert (H0 : 1 <= 1 <= 12) by lia.
    pose proof (ymd2ord_year_lt (year d) (month d) (day d) 1 1 1
                  Vm Vd H0 H1 L) as H.
    rewrite E in H. change (ymd2ord 1 1 1) with 1 in H. lia.
  - destruct (Z_lt_le_dec 9999 (year d)) as [L|L]; [exfalso|exact L].
    assert (H1 : 1 <= 31 <= days_in_month 9999 12)
      by (vm_compute; split; discriminate).
    assert (H0 : 1 <= 12 <= 12) by lia.
    pose proof (ymd2ord_year_lt 9999 12 31 (year d) (month d) (day d)
                  H0 H1 Vm Vd L) as H.
    rewrite E in H. change (ymd2ord 9999 12 31) with 3652059 in H.
    unfold Window.MAXORDINAL in Hhi. lia.
Qed.

Lemma new_date_ok (y m dd : Z) :
  1 <= y <= 9999 -> 1 <= m <= 12 -> 1 <= dd <= days_in_month y m ->
  Window.new_date y m dd = Window.Return (ymd2ord y m dd).
Proof.
  intros Hy Hm Hd. unfold Window.new_date, Window.MINYEAR, Window.MAXYEAR.
  replace (1 <=? y) with true by (symmetry; apply Z.leb_le; lia).
  replace (y <=? 9999) with true by (symmetry; apply Z.leb_le; lia).
  replace (1 <=? m) with true by (symmetry; apply Z.leb_le; lia).
  replace (m <=? 12) with true by (symmetry; apply Z.leb_le; lia).
  replace (1 <=? dd) with true by (symmetry; apply Z.leb_le; lia).
  replace (dd <=? days_in_month y m) with true
    by (symmetry; apply Z.leb_le; lia).
  reflexivity.
Qed.

Lemma new_date_bad_year (y m dd : Z) :
  y < 1 -> Window.new_date y m dd = Window.Throw Window.ValueError.
Proof.
  intro Hy. unfold Window.new_date, Window.MINYEAR.
  replace (1 <=? y) with false by (symmetry; apply Z.leb_gt; lia).
  reflexivity.
Qed.

Lemma new_date_bad_day (y m dd : Z) :
  days_in_month y m < dd ->
  Window.new_date y m dd = Window.Throw Window.ValueError.
Proof.
  intro Hd. unfold Window.new_date.
  replace (dd <=? days_in_month y m) with false
    by (symmetry; apply Z.leb_gt; lia).
  rewrite andb_false_r. reflexivity.
Qed.

Lemma days_in_month_values (y m : Z) :
  1 <= m <= 12 ->
  (m = 2 /\ days_in_month y m = (if is_leap y then 29 else 28))
  \/ (m <> 2 /\ forall y', days_in_month y' m = days_in_month y m).
Proof.
  intro Hm.
  assert (H : m = 1 \/ m = 2 \/ m = 3 \/ m = 4 \/ m = 5 \/ m = 6 \/ m = 7
              \/ m = 8 \/ m = 9 \/ m = 10 \/ m = 11 \/ m = 12) by lia.
  repeat (destruct H as [H|H]; [subst m|]); [..|subst m];
    try (right; split; [lia|intro y'; reflexivity]).
  left. split; [reflexivity|]. unfold days_in_month. simpl.
  destruct (is_leap y); reflexivity.
Qed.

Lemma leap_years_apart (y : Z) : is_leap y = true -> is_leap (y - 1) = false.
Proof.
  intro H. apply is_leap_spec in H.
  destruct (is_leap (y - 1)) eqn:E; [|reflexivity].
  apply is_leap_spec in E. exfalso.
  destruct H as [H _]. destruct E as [E _].
  Z.div_mod_to_equations. lia.
Qed.

(** The day of a date exists a year earlier unless it is a 29 February. *)
Lemma day_a_year_earlier (d : date) :
  if (month d =? 2) && (day d =? 29)
  then days_in_month (year d - 1) (month d) < day d
  else day d <= days_in_month (year d - 1) (month d).
Proof.
  destruct (date_valid d) as (Vm & Vd & _).
  destruct (days_in_month_values (year d) (month d) Vm) as [[E2 Ed]|[N2 Ed]].
  - rewrite E2 in *. cbn [Z.eqb Pos.eqb andb].
    destruct (Z.eqb_spec (day d) 29) as [E29|N29].
    + destruct (is_leap (year d)) eqn:L; [|lia].
      apply leap_years_apart in L. unfold days_in_month. rewrite L.
      simpl. lia.
    + assert (28 <= days_in_month (year d - 1) 2)
        by (apply days_in_month_pos; lia).
      destruct (is_leap (year d)); lia.
  - replace (month d =? 2) with false by (symmetry; apply Z.eqb_neq; exact N2).
    cbn [andb]. rewrite (Ed (year d - 1)). lia.
Qed.

Lemma new_date_previous_year (d : date) :
  in_range d ->
  Window.new_date (year d - 1) (month d) (day d)
  = if has_previous_year d then Window.Return (previous_year d)
    else Window.Throw Window.ValueError.
Proof.
  intro Hd. pose proof (year_range d Hd) as Hy.
  destruct (date_valid d) as (Vm & Vd & _).
  pose proof (day_a_year_earlier d) as H.
  unfold has_previous_year.
  destruct (Z.leb_spec 2 (year d)) as [L|L]; cbn [andb].
  - destruct ((month d =? 2) && (day d =? 29))%bool; cbn [negb].
    + apply new_date_bad_day. exact H.
    + apply new_date_ok; lia.
  - apply new_date_bad_year. lia.
Qed.

(** X11: in the mode "previous_year" the window is the same two days a year
    earlier, and [(None, None)] as soon as one of them does not exist a year
    earlier (a 29 February, or a date in year 1); it never raises. *)
Theorem previous_year_window (start end_ : date) (mode : string) :
  in_range start -> in_range end_ ->
  Window.m mode = "previous_year"%string ->
  Window.compare_window start end_ mode
  = (if has_previous_year start && has_previous_year end_
     then Window.Return (Some (previous_year start), Some (previous_year end_))
     else Window.Return (None, None))
  /\ (forall d, in_range d -> has_previous_year d = true ->
      ord2ymd (previous_year d) = (year d - 1, month d, day d)).
Proof.
  intros Hs He Hm. split.
  - unfold Window.compare_window. rewrite Hm. cbn [String.eqb Ascii.eqb
      Bool.eqb]. cbv zeta.
    rewrite (new_date_previous_year start Hs).
    rewrite (new_date_previous_year end_ He).
    destruct (has_previous_year start); destruct (has_previous_year end_);
      reflexivity.
  - intros d Hd H. unfold previous_year.
    destruct (date_valid d) as (Vm & Vd & _).
    pose proof (day_a_year_earlier d) as Hday.
    unfold has_previous_year in H. apply andb_true_iff in H.
    destruct H as [_ H]. apply negb_true_iff in H. rewrite H in Hday.
    apply ord2ymd_ymd2ord; lia.
Qed.

Lemma previous_year_window_witness :
  Window.compare_window (ymd2ord 2024 2 1) (ymd2ord 2024 2 29) "Previous_Year"
  = Window.Return (None, None)
  /\ Window.compare_window
       (ymd2ord 2024 2 1) (ymd2ord 2024 2 28) "previous_year"
     = Window.Return (Some (ymd2ord 2023 2 1), Some (ymd2ord 2023 2 28)).
Proof.
  split.
  - refine (proj1 (previous_year_window
                     (ymd2ord 2024 2 1) (ymd2ord 2024 2 29) "Previous_Year"
                     _ _ _)).
    + vm_compute. split; discriminate.
    + vm_compute. split; discriminate.
    + reflexivity.
  - refine (proj1 (previous_year_window
                     (ymd2ord 2024 2 1) (ymd2ord 2024 2 28) "previous_year"
                     _ _ _)).
    + vm_compute. split; discriminate.
    + vm_compute. split; discriminate.
    + reflexivity.
Defined.

(** X12: in the mode "mom" both days of the window are days of the calendar
    month before the month of [start], with the days of the month of
    [start] and of [end_], cut to the length of that month; the month of
    [end_] plays no part.  For a [start] in January of year 1 the call
    raises [ValueError]. *)
Theorem month_over_month_window
        (start end_ : date) (mode : string) (py pm : Z) :
  in_range start -> in_range end_ ->
  Window.m mode = "mom"%string ->
  previous_month start = (py, pm) ->
  Window.compare_window start end_ mode
  = (if (year start =? 1) && (month start =? 1)
     then Window.Throw Window.ValueError
     else Window.Return
            (Some (ymd2ord py pm (Z.min (day start) (days_in_month py pm))),
             Some (ymd2ord py pm (Z.min (day end_) (days_in_month py pm)))))
  /\ (forall d,
        ord2ymd (ymd2ord py pm (Z.min (day d) (days_in_month py pm)))
        = (py, pm, Z.min (day d) (days_in_month py pm))).
Proof.
  intros Hs He Hm Hp.
  pose proof (year_range start Hs) as Hy.
  destruct (date_valid start) as (Vm & Vd & _).
  destruct (date_valid end_) as (_ & Vd' & _).
  assert (Hpm : 1 <= pm <= 12).
  { unfold previous_month in Hp.
    destruct (Z.eqb_spec (month start) 1); injection Hp as <- <-; lia. }
  pose proof (days_in_month_pos py pm Hpm) as HL.
  split.
  - unfold Window.compare_window. rewrite Hm. cbn [String.eqb Ascii.eqb
      Bool.eqb]. cbv zeta. unfold monthrange.
    assert (E : ((if month start - 1 =? 0 then 12 else month start - 1) = pm)
                /\ (if month start =? 1 then year start - 1 else year start)
                   = py).
    { unfold previous_month in Hp.
      destruct (Z.eqb_spec (month start) 1) as [E1|N1].
      - injection Hp as <- <-. rewrite E1. split; reflexivity.
      - injection Hp as <- <-.
        destruct (Z.eqb_spec (month start - 1) 0); [lia|].
        split; reflexivity. }
    destruct E as [-> ->].
    destruct (Z.eqb_spec (year start) 1) as [Y1|Y1];
      destruct (Z.eqb_spec (month start) 1) as [M1|M1]; cbn [andb].
    + unfold previous_month in Hp.
      replace (month start =? 1) with true in Hp
        by (symmetry; apply Z.eqb_eq; exact M1).
      injection Hp as <- <-.
      rewrite new_date_bad_year by lia. reflexivity.
    + unfold previous_month in Hp.
      replace (month start =? 1) with false in Hp
        by (symmetry; apply Z.eqb_neq; exact M1).
      injection Hp as <- <-.
      rewrite !new_date_ok by lia. reflexivity.
    + unfold previous_month in Hp.
      replace (month start =? 1) with true in Hp
        by (symmetry; apply Z.eqb_eq; exact M1).
      injection Hp as <- <-.
      rewrite !new_date_ok by lia. reflexivity.
    + unfold previous_month in Hp.
      replace (month start =? 1) with false in Hp
        by (symmetry; apply Z.eqb_neq; exact M1).
      injection Hp as <- <-.
      rewrite !new_date_ok by lia. reflexivity.
  - intro d. destruct (date_valid d) as (_ & Vdd & _).
    apply ord2ymd_ymd2ord; lia.
Qed.

Lemma month_over_month_window_witness :
  Window.compare_window (ymd2ord 2024 3 31) (ymd2ord 2024 4 5) "MoM"
  = Window.Return (Some (ymd2ord 2024 2 29), Some (ymd2ord 2024 2 5)).
Proof.
  refine (proj1 (month_over_month_window
                   (ymd2ord 2024 3 31) (ymd2ord 2024 4 5) "MoM" 2024 2
                   _ _ _ _)).
  - vm_compute. split; discriminate.
  - vm_compute. split; discriminate.
  - reflexivity.
  - reflexivity.
Defined.

(** X13: in every other mode, the default one included, the window has as
    many days as the one from [start] to [end_] and ends the day before
    [start]; the call raises [OverflowError] when that window would start
    before the first day of year 1. *)
Theorem previous_period_window (start end_ : date) (mode : string) :
  in_range start -> in_range end_ -> start <= end_ ->
  Window.m mode <> "previous_year"%string ->
  Window.m mode <> "mom"%string ->
  Window.compare_window start end_ mode
  = if 1 <=? start - (end_ - start + 1)
    then Window.Return (Some (start - (end_ - start + 1)), Some (start - 1))
    else Window.Throw Window.OverflowError.
Proof.
  intros [Hs1 Hs2] [He1 He2] Hle N1 N2.
  unfold Window.compare_window.
  apply String.eqb_neq in N1, N2. rewrite N1, N2. cbv zeta.
  unfold Window.minus_days. cbv zeta.
  replace (end_ - (end_ - start + 1)) with (start - 1) by lia.
  unfold Window.MAXORDINAL in *.
  destruct (Z.leb_spec 1 (start - (end_ - start + 1))) as [L|L].
  - replace (0 <? start - (end_ - start + 1)) with true
      by (symmetry; apply Z.ltb_lt; lia).
    replace (start - (end_ - start + 1) <=? 3652059) with true
      by (symmetry; apply Z.leb_le; lia).
    replace (0 <? start - 1) with true by (symmetry; apply Z.ltb_lt; lia).
    replace (start - 1 <=? 3652059) with true
      by (symmetry; apply Z.leb_le; lia).
    reflexivity.
  - replace (0 <? start - (end_ - start + 1)) with false
      by (symmetry; apply Z.ltb_ge; lia).
    reflexivity.
Qed.

Lemma previous_period_window_witness :
  Window.compare_window (ymd2ord 2024 3 1) (ymd2ord 2024 3 10) ""
  = Window.Return (Some (ymd2ord 2024 2 20), Some (ymd2ord 2024 2 29)).
Proof.
  refine (previous_period_window (ymd2ord 2024 3 1) (ymd2ord 2024 3 10) ""
            _ _ _ _ _).
  - vm_compute. split; discriminate.
  - vm_compute. split; discriminate.
  - vm_compute. discriminate.
  - vm_compute. discriminate.
  - vm_compute. discriminate.
Defined.

End WindowFacts.

(** ** The detail rows of a backtest *)

Section Details.

Local Open Scope Z_scope.

Lemma months_NoDup (s : DataFrame) (d0 : date) :
  NoDup (Backtester.months s d0).
Proof.
  unfold Backtester.months.
  apply (Permutation_NoDup (Permutation_sym (sorted_perm _))).
  apply unique_NoDup.
Qed.

(** The months of the history are valid months, so their keys tell them
    apart. *)
Lemma months_key_inj (s : DataFrame) (d0 : date) (p q : period) :
  In p (Backtester.months s d0) -> In q (Backtester.months s d0) ->
  period_key p = period_key q -> p = q.
Proof.
  intros Hp Hq E.
  apply months_in in Hp. destruct Hp as (r & _ & ->).
  apply months_in in Hq. destruct Hq as (r' & _ & ->).
  destruct (date_valid (row_date r)) as (Vm & _ & _).
  destruct (date_valid (row_date r')) as (Vm' & _ & _).
  unfold period_key, to_period in *. cbn [fst snd] in E.
  assert (year (row_date r) = year (row_date r')) by lia.
  assert (month (row_date r) = month (row_date r')) by lia.
  congruence.
Qed.

(** One turn of the loop leaves the rows as they are or appends a row for
    the month of the turn. *)
Lemma turn_appends
      (s : DataFrame) (day : Z) (d0 : date) (a : option dict)
      (rows rows' : list BacktestRow) (m : period) :
  Backtester.turn s day d0 a rows m = Ok rows' ->
  rows' = rows \/ exists x, rows' = (rows ++ [x])%list /\ bt_month x = m.
Proof.
  unfold Backtester.turn.
  destruct (d0 <=? _); [intro H; apply ok_inj in H; left; congruence|].
  destruct (Projector.compute_dynamic_month_projection _ _ a)
    as [[p|]|e]; cbn [bind];
    [|intro H; apply ok_inj in H; left; congruence|discriminate].
  destruct (fle _ (Fin 0%Q));
    [intro H; apply ok_inj in H; left; congruence|].
  intro H. apply bind_ok_inv in H. destruct H as (ape & _ & H).
  apply ok_inj in H. right. eexists. split; [symmetry; exact H|reflexivity].
Qed.

Lemma loop_appends
      (s : DataFrame) (day : Z) (d0 : date) (a : option dict)
      (months : list period) :
  NoDup months ->
  forall rows rows',
    Backtester.loop s day d0 a months rows = Ok rows' ->
    exists new,
      rows' = (rows ++ new)%list
      /\ NoDup (map bt_month new)
      /\ (forall x, In x new -> In (bt_month x) months).
Proof.
  induction months as [|m months IH]; intros Hnd rows rows' H.
  - simpl in H. apply ok_inj in H. exists []. rewrite app_nil_r.
    split; [congruence|]. split; [constructor|intros x []].
  - inversion Hnd as [|? ? Hm Hnd']. subst.
    cbn [Backtester.loop] in H. apply bind_ok_inv in H.
    destruct H as (rows1 & H1 & H).
    destruct (IH Hnd' rows1 rows' H) as (new & -> & Hnew & Hin).
    apply turn_appends in H1. destruct H1 as [->|(x & -> & Hx)].
    + exists new. split; [reflexivity|]. split; [exact Hnew|].
      intros y Hy. right. apply Hin, Hy.
    + exists (x :: new). rewrite <- app_assoc. split; [reflexivity|].
      split.
      * cbn [map]. constructor; [|exact Hnew].
        rewrite Hx. intro Hc. apply in_map_iff in Hc.
        destruct Hc as (y & Ey & Hy). apply Hm. rewrite <- Ey.
        apply Hin, Hy.
      * intros y [<-|Hy]; [left; symmetry; exact Hx|right; apply Hin, Hy].
Qed.

Lemma in_insert_row (y r : BacktestRow) (l : list BacktestRow) :
  In y (Backtester.insert_row r l) -> y = r \/ In y l.
Proof.
  intro H. apply (Permutation_in y (insert_row_perm r l)) in H.
  destruct H as [<-|H]; [left; reflexivity|right; exact H].
Qed.

(** Inserting a row with a new month into rows in increasing order of
    month keeps them so. *)
Lemma insert_row_increasing (r : BacktestRow) (l : list BacktestRow) :
  (forall y, In y l -> period_key (bt_month y) <> period_key (bt_month r)) ->
  increasing (map (fun x => period_key (bt_month x)) l) ->
  increasing (map (fun x => period_key (bt_month x))
                  (Backtester.insert_row r l)).
Proof.
  induction l as [|x l IH]; intros Hne Hl.
  - simpl. split; [intros y []|exact I].
  - cbn [map increasing] in Hl. destruct Hl as [Hx Hl].
    cbn [Backtester.insert_row].
    destruct (Z.ltb_spec (period_key (bt_month r)) (period_key (bt_month x)))
      as [L|L].
    + cbn [map increasing]. split; [|split; assumption].
      intros y [<-|Hy]; [exact L|]. specialize (Hx y Hy). lia.
    + cbn [map increasing]. split.
      * intros y Hy. apply in_map_iff in Hy. destruct Hy as (z & <- & Hz).
        apply in_insert_row in Hz. destruct Hz as [->|Hz].
        -- specialize (Hne x (or_introl eq_refl)). lia.
        -- apply Hx. apply in_map_iff. exists z. split; [reflexivity|exact Hz].
      * apply IH; [|exact Hl].
        intros y Hy. apply Hne. right. exact Hy.
Qed.

Lemma sort_by_month_increasing (l : list BacktestRow) :
  NoDup (map (fun x => period_key (bt_month x)) l) ->
  increasing (map (fun x => period_key (bt_month x))
                  (Backtester.sort_by_month l)).
Proof.
  induction l as [|r l IH]; intro Hnd; [exact I|].
  cbn [map] in Hnd. inversion Hnd as [|? ? Hr Hnd']. subst.
  cbn [Backtester.sort_by_month fold_right].
  apply insert_row_increasing; [|apply IH, Hnd'].
  intros y Hy E. apply Hr.
  apply (Permutation_in y (sort_by_month_perm l)) in Hy.
  apply in_map_iff. exists y. split; [exact E|exact Hy].
Qed.

End Details.

(** X14: the detail rows of a backtest come in chronological order, one
    row at most for a month, and [count] is their number. *)
Theorem backtest_details_in_order
        (s : DataFrame) (as_of_day : Z) (d0 : date) (a : option dict)
        (b : Backtest) :
  Backtester.backtest_projection_mape_with_assumptions s as_of_day d0 a
  = Ok (Some b) ->
  increasing (map (fun x => period_key (bt_month x)) (details b))
  /\ NoDup (map bt_month (details b))
  /\ count b = len (details b)
  /\ (1 <= count b)%Z.
Proof.
  intro H.
  unfold Backtester.backtest_projection_mape_with_assumptions in H.
  destruct (empty s); [discriminate H|].
  destruct (empty (Backtester.ts s d0)); [discriminate H|].
  apply bind_ok_inv in H. destruct H as (rows & Hloop & H).
  destruct (empty rows) eqn:Er; [discriminate H|].
  apply ok_inj in H. injection H as <-. cbn [details count].
  destruct (loop_appends s as_of_day d0 a _ (months_NoDup s d0) [] rows Hloop)
    as (new & Erows & Hnd & Hin).
  cbn [app] in Erows. subst new.
  assert (Hk : NoDup (map (fun x => period_key (bt_month x)) rows)).
  { rewrite <- (map_map bt_month period_key).
    apply Finite.Injective_map_NoDup_in; [|exact Hnd].
    intros p q Hp Hq. apply in_map_iff in Hp, Hq.
    destruct Hp as (x & <- & Hx). destruct Hq as (y & <- & Hy).
    apply (months_key_inj s d0); apply Hin; assumption. }
  pose proof (sort_by_month_perm rows) as P.
  split; [apply sort_by_month_increasing, Hk|].
  split.
  { apply (Permutation_NoDup
             (Permutation_map bt_month (Permutation_sym P))), Hnd. }
  split; [reflexivity|].
  unfold len. rewrite (Permutation_length P).
  destruct rows; [discriminate Er|]. simpl. lia.
Qed.

Lemma backtest_details_in_order_witness :
  exists b,
    Backtester.backtest_projection_mape_with_assumptions
      quarter_series 15 (ymd2ord 2023 4 1) None = Ok (Some b)
    /\ increasing (map (fun x => period_key (bt_month x)) (details b)).
Proof.
  eexists.
  assert (H : Backtester.backtest_projection_mape_with_assumptions
                quarter_series 15 (ymd2ord 2023 4 1) None = Ok (Some _))
    by (lazy; reflexivity).
  split; [exact H|].
  exact (proj1 (backtest_details_in_order
                  quarter_series 15 (ymd2ord 2023 4 1) None _ H)).
Defined.

(** ** Outcomes of the backtester *)

Lemma NoDup_dates_filter (p : Row -> bool) (l : list Row) :
  NoDup (map row_date l) -> NoDup (map row_date (filter p l)).
Proof.
  induction l as [|r l IH]; intro H; [constructor|].
  cbn [map] in H. inversion H as [|? ? Hr Hl]. subst. cbn [filter].
  destruct (p r); [|apply IH, Hl].
  cbn [map]. constructor; [|apply IH, Hl].
  intro Hin. apply Hr. apply in_map_iff in Hin.
  destruct Hin as (x & E & Hx). apply filter_In in Hx.
  apply in_map_iff. exists x. split; [exact E|apply Hx].
Qed.

Lemma NoDup_dates_sort (l : list Row) :
  NoDup (map row_date l) -> NoDup (map row_date (sort_values l)).
Proof.
  apply Permutation_NoDup, Permutation_map, Permutation_sym,
    sort_values_perm.
Qed.

(** The data the backtester hands to the projector has distinct dates when
    the frame has. *)
Lemma model_input_distinct (s : DataFrame) (d0 as_of : date) :
  has_duplicates (dates s) = false ->
  has_duplicates
    (map row_date
         (Projector.current
            (as_frame (filter (fun r => (row_date r <=? as_of)%Z)
                              (Backtester.ts s d0)))
            as_of))
  = false.
Proof.
  intro H. apply has_duplicates_NoDup in H. apply has_duplicates_NoDup.
  unfold Projector.current, Projector.ts, Projector.ts0, between.
  rewrite dropna_as_frame.
  do 2 apply NoDup_dates_filter. apply NoDup_dates_sort.
  unfold Backtester.ts, Backtester.ts0.
  do 2 apply NoDup_dates_filter. apply NoDup_dates_sort. exact H.
Qed.

Lemma turn_total
      (s : DataFrame) (day : Z) (d0 : date) (a : option dict) (w1 w2 : Q)
      (rows : list BacktestRow) (m : period) :
  Projector.recent_weight a = Fin w1 -> 0 < w1 ->
  Projector.mom_weight a = Fin w2 -> 0 < w2 ->
  has_duplicates (dates s) = false ->
  exists rows', Backtester.turn s day d0 a rows m = Ok rows'.
Proof.
  intros E1 H1 E2 H2 Hd. unfold Backtester.turn.
  destruct (d0 <=? _)%Z; [eexists; reflexivity|].
  match goal with
  | |- context [Projector.compute_dynamic_month_projection ?x ?y a] =>
      destruct (projector_total x y a w1 w2 E1 H1 E2 H2
                  (model_input_distinct s d0 y Hd)) as [o ->]
  end.
  cbn [bind]. destruct o as [p|]; [|eexists; reflexivity].
  unfold series_sum, fle. cbn [cmp2].
  destruct (Qle_bool _ 0) eqn:L; [eexists; reflexivity|].
  rewrite fdiv_nonzero.
  - cbn [bind]. eexists. reflexivity.
  - unfold feq. cbn [cmp2]. apply Qeq_bool_false. intro E.
    rewrite E in L. discriminate L.
Qed.

Lemma loop_total
      (s : DataFrame) (day : Z) (d0 : date) (a : option dict) (w1 w2 : Q)
      (months : list period) :
  Projector.recent_weight a = Fin w1 -> 0 < w1 ->
  Projector.mom_weight a = Fin w2 -> 0 < w2 ->
  has_duplicates (dates s) = false ->
  forall rows,
    exists rows', Backtester.loop s day d0 a months rows = Ok rows'.
Proof.
  intros E1 H1 E2 H2 Hd.
  induction months as [|m months IH]; intro rows.
  - eexists. reflexivity.
  - cbn [Backtester.loop].
    destruct (turn_total s day d0 a w1 w2 rows m E1 H1 E2 H2 Hd)
      as [rows1 ->].
    cbn [bind]. apply IH.
Qed.

(** X15: the backtester does not raise when both weights are positive and
    no two rows of the frame share a date: it returns a backtest or
    [None]. *)
Theorem backtester_returns
        (s : DataFrame) (as_of_day : Z) (d0 : date) (a : option dict)
        (w1 w2 : Q) :
  Projector.recent_weight a = Fin w1 -> 0 < w1 ->
  Projector.mom_weight a = Fin w2 -> 0 < w2 ->
  has_duplicates (dates s) = false ->
  exists o,
    Backtester.backtest_projection_mape_with_assumptions s as_of_day d0 a
    = Ok o.
Proof.
  intros E1 H1 E2 H2 Hd.
  unfold Backtester.backtest_projection_mape_with_assumptions.
  destruct (empty s); [eexists; reflexivity|].
  destruct (empty (Backtester.ts s d0)); [eexists; reflexivity|].
  destruct (loop_total s as_of_day d0 a w1 w2 (Backtester.months s d0)
              E1 H1 E2 H2 Hd []) as [rows ->].
  cbn [bind]. destruct (empty rows); eexists; reflexivity.
Qed.

Lemma backtester_returns_witness :
  exists o,
    Backtester.backtest_projection_mape_with_assumptions
      quarter_series 15 (ymd2ord 2023 4 1) None = Ok o.
Proof.
  apply (backtester_returns quarter_series 15 (ymd2ord 2023 4 1) None
           0.6 0.4).
  - reflexivity.
  - reflexivity.
  - reflexivity.
  - reflexivity.
  - vm_compute. reflexivity.
Defined.

(** ** The forecast endpoint *)

Lemma backtest_inv
      (s : DataFrame) (day : Z) (d0 : date) (a : option dict) (b : Backtest) :
  Backtester.backtest_projection_mape_with_assumptions s day d0 a
  = Ok (Some b) ->
  exists rows,
    Backtester.loop s day d0 a (Backtester.months s d0) [] = Ok rows
    /\ rows <> []
    /\ details b = Backtester.sort_by_month rows
    /\ count b = len (details b).
Proof.
  unfold Backtester.backtest_projection_mape_with_assumptions.
  destruct (empty s); [discriminate|].
  destruct (empty (Backtester.ts s d0)); [discriminate|].
  intro H. apply bind_ok_inv in H. destruct H as (rows & Hloop & H).
  exists rows. split; [exact Hloop|].
  destruct rows as [|x rows]; [discriminate H|].
  split; [discriminate|].
  cbn [empty] in H. apply ok_inj in H. injection H as <-.
  split; reflexivity.
Qed.

Lemma current_distinct (s : DataFrame) (d : date) :
  has_duplicates (dates s) = false ->
  has_duplicates (map row_date (Projector.current s d)) = false.
Proof.
  intro H. apply has_duplicates_NoDup in H. apply has_duplicates_NoDup.
  unfold Projector.current, Projector.ts, Projector.ts0, between.
  do 2 apply NoDup_dates_filter. apply NoDup_dates_sort. exact H.
Qed.

Section ForecastFacts.

Variable erf : R -> R.
Variable daily : DataFrame.
Variable as_of : date.
Variables recent_weight mom_weight weekday_strength manual_multiplier
          promo_lift_pct content_lift_pct instock_rate growth_floor
          growth_ceiling volatility_multiplier : Q.
Variable goal : F.

Let assumptions : dict :=
  Forecast.assumptions
    recent_weight mom_weight weekday_strength manual_multiplier
    promo_lift_pct content_lift_pct instock_rate growth_floor
    growth_ceiling volatility_multiplier.

Let forecast : res (option Forecast.Payload) :=
  Forecast.forecast_mtd
    erf daily as_of recent_weight mom_weight weekday_strength
    manual_multiplier promo_lift_pct content_lift_pct instock_rate
    growth_floor growth_ceiling volatility_multiplier goal.

(** X16: what the endpoint reports.  The pace is the projected total over
    the goal when the goal is positive, and is absent together with its
    delta otherwise; [mape_months] counts the backtest rows and is zero
    exactly when there is no error figure; every backtest row is for a
    month that ends before the month of the as-of date and that has a row
    of the frame before its first day. *)
Theorem forecast_payload (p : Forecast.Payload) :
  forecast = Ok (Some p) ->
  (exists r,
     Projector.compute_dynamic_month_projection
       daily as_of (Some assumptions) = Ok (Some r)
     /\ Forecast.payload_projected_total p = projected_total r)
  /\ (forall g, goal = Fin g -> 0 < g ->
      exists q t,
        Forecast.payload_pace_to_goal p = Some (Fin q)
        /\ Forecast.payload_projected_total p = Fin t
        /\ q * g == t
        /\ Forecast.payload_pace_delta p = Some (Fin (q - 1)))
  /\ (flt (Fin 0) goal = false ->
      Forecast.payload_pace_to_goal p = None
      /\ Forecast.payload_pace_delta p = None)
  /\ Forecast.payload_mape_months p = len (Forecast.payload_backtest p)
  /\ (Forecast.payload_mape p = None <-> Forecast.payload_backtest p = [])
  /\ (forall x, In x (Forecast.payload_backtest p) ->
      (period_end (bt_month x) < Forecast.month_start as_of)%Z
      /\ has_earlier_row daily (Forecast.month_start as_of) x).
Proof.
  unfold forecast, Forecast.forecast_mtd. fold assumptions. intro H.
  apply bind_ok_inv in H. destruct H as (o & Hproj & H).
  destruct o as [r|]; [|discriminate H].
  apply bind_ok_inv in H. destruct H as (bt & Hbt & H).
  apply bind_ok_inv in H. destruct H as (sig & _ & H).
  apply bind_ok_inv in H. destruct H as (pace & Hpace & H).
  apply ok_inj in H. injection H as <-.
  cbn [Forecast.payload_projected_total Forecast.payload_pace_to_goal
       Forecast.payload_pace_delta Forecast.payload_mape_months
       Forecast.payload_backtest Forecast.payload_mape].
  destruct (projected_total_finite _ _ _ _ Hproj) as [t Et].
  split; [exists r; split; [exact Hproj|reflexivity]|].
  split.
  { intros g -> Hg. unfold Forecast.pace_to_goal in Hpace.
    replace (flt (Fin 0) (Fin g)) with true in Hpace
      by (symmetry; unfold flt; cbn [cmp2]; apply Qlt_bool_iff; exact Hg).
    rewrite fdiv_nonzero in Hpace by (apply feq_zero_false; exact Hg).
    cbn [bind] in Hpace. apply ok_inj in Hpace. subst pace.
    rewrite Et. cbn [lift2 fsub]. exists (t / g), t.
    split; [reflexivity|]. split; [reflexivity|].
    split; [field; qlra|reflexivity]. }
  split.
  { intro Hg. unfold Forecast.pace_to_goal in Hpace. rewrite Hg in Hpace.
    apply ok_inj in Hpace. subst pace. split; reflexivity. }
  destruct bt as [b|]; [|split; [reflexivity|split; [split; reflexivity|]];
                         intros x []].
  destruct (backtest_inv _ _ _ _ b Hbt) as (rows & Hloop & Hne & Ed & Ec).
  split; [exact Ec|].
  split.
  { split; [discriminate|]. intro E. exfalso. apply Hne.
    rewrite Ed in E.
    apply Permutation_nil.
    rewrite <- E. apply sort_by_month_perm. }
  intros x Hx. rewrite Ed in Hx.
  apply (Permutation_in x (sort_by_month_perm rows)) in Hx.
  assert (Hday : (1 <= elapsed_days r)%Z).
  { apply projection_inv in Hproj.
    destruct Hproj as (rg & mg & g0 & ch & _ & _ & _ & _ & _ & _ & _ & _ & ->).
    cbn [elapsed_days]. apply elapsed_days_range. }
  split.
  - destruct (loop_appends daily (elapsed_days r) (Forecast.month_start as_of)
                (Some assumptions) _
                (months_NoDup daily (Forecast.month_start as_of)) [] rows
                Hloop) as (new & Erows & _ & Hin).
    cbn [app] in Erows. subst new.
    exact (proj1 (proj2 (proj2
             (month_of_history daily as_of (bt_month x) (Hin x Hx))))).
  - pose proof (loop_earlier daily (elapsed_days r)
                  (Forecast.month_start as_of) (Some assumptions) Hday
                  (Backtester.months daily (Forecast.month_start as_of))
                  (fun m Hm => Hm) [] rows (Forall_nil _) Hloop) as HF.
    rewrite Forall_forall in HF. exact (HF x Hx).
Qed.

End ForecastFacts.

Lemma forecast_payload_witness :
  exists p,
    Forecast.forecast_mtd
      sample_erf quarter_series (ymd2ord 2023 3 10)
      0.6 0.4 1 1 0 0 1 0.5 1.8 1 (Fin 400)
    = Ok (Some p)
    /\ Forecast.payload_mape_months p = len (Forecast.payload_backtest p).
Proof.
  eexists.
  assert (H : Forecast.forecast_mtd
                sample_erf quarter_series (ymd2ord 2023 3 10)
                0.6 0.4 1 1 0 0 1 0.5 1.8 1 (Fin 400)
              = Ok (Some _))
    by (lazy; reflexivity).
  split; [exact H|].
  exact (proj1 (proj2 (proj2 (proj2
           (forecast_payload
              sample_erf quarter_series (ymd2ord 2023 3 10)
              0.6 0.4 1 1 0 0 1 0.5 1.8 1 (Fin 400) _ H))))).
Defined.

(** ** The last day of the month and the floor of the volatility *)

Lemma date_range_empty (lo hi : date) : (hi < lo)%Z -> date_range lo hi = [].
Proof.
  intro H. unfold date_range.
  replace (Z.to_nat (hi - lo + 1)) with 0%nat by lia. reflexivity.
Qed.

(** X17: on the last day of the month nothing is left to forecast: the
    projected total is the month-to-date actual, whatever the growth
    signals and the assumptions, and the forecast column of the chart is
    zero throughout. *)
Theorem last_day_projection
        (s : DataFrame) (d : date) (a : option dict) (r : Projection) :
  Projector.compute_dynamic_month_projection s d a = Ok (Some r) ->
  elapsed_days r = month_days r ->
  exists m,
    mtd_actual r = Fin m
    /\ is_value m (projected_total r)
    /\ (forall c, In c (chart_df r) -> forecast_daily c = Fin 0).
Proof.
  intros H He. apply projection_inv in H.
  destruct H as (rg & mg & g0 & ch & _ & _ & _ & _ & _ & _ & _ & Hch & ->).
  cbn [elapsed_days month_days mtd_actual projected_total chart_df] in *.
  assert (Hd : d = Projector.month_end d).
  { rewrite month_end_start. unfold Projector.elapsed_days in He. lia. }
  assert (Hf : Projector.future_dates d = []).
  { unfold Projector.future_dates. apply date_range_empty. lia. }
  exists (Qsum (notna (totals (Projector.current s d)))).
  split; [reflexivity|]. split.
  - unfold Projector.projected_total, Projector.remaining_projection,
      Projector.future_df.
    rewrite Hf. cbn [map empty negb]. unfold Projector.mtd_actual, series_sum.
    cbn [fadd lift2]. eexists. split; [reflexivity|]. ring.
  - apply chart_rows in Hch. destruct Hch as [_ ->].
    intros c Hc. apply in_map_iff in Hc. destruct Hc as (x & <- & Hx).
    cbn [forecast_daily]. apply forecast_on_elapsed.
    unfold Projector.full_month_dates in Hx. apply in_date_range in Hx. lia.
Qed.

Lemma last_day_projection_witness :
  exists r m,
    Projector.compute_dynamic_month_projection
      two_month_series (ymd2ord 2024 3 31) None = Ok (Some r)
    /\ mtd_actual r = Fin m
    /\ is_value m (projected_total r).
Proof.
  eexists.
  assert (H : Projector.compute_dynamic_month_projection
                two_month_series (ymd2ord 2024 3 31) None = Ok (Some _))
    by (lazy; reflexivity).
  destruct (last_day_projection
              two_month_series (ymd2ord 2024 3 31) None _ H eq_refl)
    as (m & Hm & Hp & _).
  exists m. split; [exact H|]. split; [exact Hm|exact Hp].
Defined.

Lemma py_max_below (v c : Q) : v < c -> py_max (Fin v) (Fin c) = Fin c.
Proof.
  intro H. unfold py_max, max_by. cbn [cmp2].
  apply Qlt_bool_iff in H. rewrite H. reflexivity.
Qed.

(** X18: a volatility multiplier below a tenth counts as a tenth: setting
    it to 0.1 changes nothing in the outcome of the projector. *)
Theorem low_volatility_is_a_tenth
        (s : DataFrame) (d : date) (a : dict) (v : Q) :
  v < 0.1 ->
  get a "volatility_multiplier" = Some v ->
  Projector.compute_dynamic_month_projection s d (Some a)
  = Projector.compute_dynamic_month_projection
      s d (Some (set "volatility_multiplier" 0.1 a)).
Proof.
  intros Hv Hg. unfold_projector.
  rewrite get_float_set_same.
  rewrite !get_float_set_other by reflexivity.
  replace (get_float a "volatility_multiplier" 1) with (Fin v : F)
    by (unfold get_float; rewrite Hg; reflexivity).
  rewrite (py_max_below v 0.1 Hv).
  reflexivity.
Qed.

Lemma low_volatility_is_a_tenth_witness :
  Projector.compute_dynamic_month_projection
    two_month_series (ymd2ord 2024 3 10) (Some no_volatility)
  = Projector.compute_dynamic_month_projection
      two_month_series (ymd2ord 2024 3 10)
      (Some (set "volatility_multiplier" 0.1 no_volatility)).
Proof.
  assert (Hv : 0 < 0.1) by reflexivity.
  exact (low_volatility_is_a_tenth two_month_series (ymd2ord 2024 3 10)
           no_volatility 0 Hv eq_refl).
Defined.

(** ** The order of the rows *)

Lemma same_date_same_row (l : list Row) (x y : Row) :
  NoDup (map row_date l) -> In x l -> In y l ->
  row_date x = row_date y -> x = y.
Proof.
  induction l as [|r l IH]; intros Hnd Hx Hy E; [destruct Hx|].
  cbn [map] in Hnd. inversion Hnd as [|? ? Hr Hl]. subst.
  destruct Hx as [->|Hx]; destruct Hy as [->|Hy].
  - reflexivity.
  - exfalso. apply Hr. rewrite E. apply in_map. exact Hy.
  - exfalso. apply Hr. rewrite <- E. apply in_map. exact Hx.
  - apply IH; assumption.
Qed.

(** Two frames sorted by date that hold the same rows, no two of them on
    the same date, are the same frame. *)
Lemma sorted_by_date_unique (l : list Row) :
  forall l',
    sorted_by_date l -> sorted_by_date l' ->
    NoDup (map row_date l) -> Permutation l l' -> l = l'.
Proof.
  induction l as [|x t IH]; intros l' Hs Hs' Hnd P.
  - apply Permutation_nil in P. congruence.
  - destruct l' as [|y t'].
    + apply Permutation_sym, Permutation_nil in P. discriminate P.
    + cbn [sorted_by_date] in Hs, Hs'.
      destruct Hs as [Hx Ht]. destruct Hs' as [Hy Ht'].
      assert (Hxy : x = y).
      { assert (Ix : In x (y :: t'))
          by (apply (Permutation_in x P); left; reflexivity).
        assert (Iy : In y (x :: t))
          by (apply (Permutation_in y (Permutation_sym P)); left;
              reflexivity).
        apply (same_date_same_row (x :: t));
          [exact Hnd|left; reflexivity|exact Iy|].
        destruct Ix as [<-|Ix]; [reflexivity|].
        destruct Iy as [<-|Iy]; [reflexivity|].
        specialize (Hx y Iy). specialize (Hy x Ix). lia. }
      subst y. f_equal.
      cbn [map] in Hnd. inversion Hnd as [|? ? _ Hnd']. subst.
      apply IH; try assumption.
      exact (Permutation_cons_inv P).
Qed.

Lemma ts0_perm (s s' : DataFrame) :
  has_duplicates (dates s) = false -> Permutation s s' ->
  sort_values (to_datetime_dropna s) = sort_values (to_datetime_dropna s').
Proof.
  intros Hd P. apply has_duplicates_NoDup in Hd.
  assert (P' : Permutation (to_datetime_dropna s) (to_datetime_dropna s'))
    by (unfold to_datetime_dropna; apply Permutation_flat_map, P).
  apply sorted_by_date_unique.
  - apply sort_values_sorted.
  - apply sort_values_sorted.
  - apply NoDup_dates_sort. exact Hd.
  - apply perm_trans with (to_datetime_dropna s);
      [apply sort_values_perm|].
    apply perm_trans with (to_datetime_dropna s'); [exact P'|].
    apply Permutation_sym, sort_values_perm.
Qed.

Lemma empty_perm {A} (l l' : list A) :
  Permutation l l' -> empty l = empty l'.
Proof.
  intro P. destruct l as [|x l]; destruct l' as [|y l']; try reflexivity.
  - apply Permutation_nil in P. discriminate P.
  - apply Permutation_sym, Permutation_nil in P. discriminate P.
Qed.

(** X19: the order of the rows does not matter: for a frame in which no
    two rows share a date, the projector, the backtester and the
    significance test give the same outcome on the rows in any order. *)
Theorem row_order_is_irrelevant
        (erf : R -> R) (s s' : DataFrame) (d : date) (day : Z) (d0 : date)
        (a : option dict) :
  has_duplicates (dates s) = false ->
  Permutation s s' ->
  Projector.compute_dynamic_month_projection s d a
  = Projector.compute_dynamic_month_projection s' d a
  /\ Backtester.backtest_projection_mape_with_assumptions s day d0 a
     = Backtester.backtest_projection_mape_with_assumptions s' day d0 a
  /\ Significance.growth_significance erf s d a
     = Significance.growth_significance erf s' d a.
Proof.
  intros Hd P.
  pose proof (ts0_perm s s' Hd P) as Hs.
  pose proof (empty_perm s s' P) as He.
  split; [|split].
  - unfold_frames. rewrite Hs, He. reflexivity.
  - assert (Hts : Backtester.ts s d0 = Backtester.ts s' d0)
      by (unfold Backtester.ts, Backtester.ts0; rewrite Hs; reflexivity).
    assert (Hloop : forall ms rows,
               Backtester.loop s day d0 a ms rows
               = Backtester.loop s' day d0 a ms rows).
    { induction ms as [|m ms IH]; intro rows; simpl; [reflexivity|].
      replace (Backtester.turn s day d0 a rows m)
        with (Backtester.turn s' day d0 a rows m)
        by (unfold Backtester.turn; rewrite Hts; reflexivity).
      destruct (Backtester.turn s' day d0 a rows m); simpl;
        [apply IH|reflexivity]. }
    unfold Backtester.backtest_projection_mape_with_assumptions,
      Backtester.months.
    rewrite Hloop, Hts, He. reflexivity.
  - unfold Significance.growth_significance, Significance.se,
      Significance.mean1, Significance.mean2, Significance.mean1_raw,
      Significance.std1, Significance.std2, Significance.n1, Significance.n2,
      Significance.baseline, Significance.current, Significance.ts.
    rewrite Hs, He. reflexivity.
Qed.

Lemma row_order_is_irrelevant_witness :
  Projector.compute_dynamic_month_projection
    [day_row 2024 2 5 100; day_row 2024 3 10 100] (ymd2ord 2024 3 10) None
  = Projector.compute_dynamic_month_projection
      [day_row 2024 3 10 100; day_row 2024 2 5 100] (ymd2ord 2024 3 10) None.
Proof.
  refine (proj1 (row_order_is_irrelevant
                   sample_erf
                   [day_row 2024 2 5 100; day_row 2024 3 10 100]
                   [day_row 2024 3 10 100; day_row 2024 2 5 100]
                   (ymd2ord 2024 3 10) 10 (ymd2ord 2024 3 1) None _ _)).
  - vm_compute. reflexivity.
  - apply perm_swap.
Defined.
